(** * snapshots.py: retention, provider calls, notification, templates and
      the run loop

    A shallow embedding of [snapshots.py] (version 0.3).  The script talks to
    two cloud providers over HTTP, so the embedding threads a [World] through
    every function: the wall clock, the answers the network is going to give,
    the Python list objects that are sorted in place, and a chronological
    record of what the process did (requests, sleeps, log records).

    Conventions of the embedding.
    - Integers read from configuration ([getint], [int(...)]) are [Z]; they are
      not validated by the script and may be negative.
    - [time.time()] is taken in whole seconds.
    - Of the logger's output the WARNING and ERROR records and the
      FINAL_STATUS line are kept; DEBUG and INFO progress lines are left out.
    - A timestamp that [datetime.fromisoformat] has parsed is an instant,
      an integer number of microseconds since the epoch.
    - Of [load_configs] the part that settles a server's notification
      channels is embedded, from the values it has read from the file; reading
      and checking the file is not.
    - Strings are sequences of bytes; [str.replace] with an ASCII placeholder
      finds the same occurrences in the UTF-8 bytes as in the characters. *)

From Stdlib Require Import ZArith List String Ascii Bool Lia Permutation Sorted.
From Stdlib Require Import DecimalString.
Import ListNotations.

Local Open Scope Z_scope.

(* ================================================================= *)
(** ** Python values *)

(** Truthiness of an [Optional[str]]: [None] and [''] are false. *)
Definition truthy (o : option string) : bool :=
  match o with
  | Some s => negb (String.eqb s EmptyString)
  | None => false
  end.

(** Truthiness of an optional JSON number: [None] and [0] are false. *)
Definition truthy_num (o : option Z) : bool :=
  match o with
  | Some n => negb (n =? 0)
  | None => false
  end.

(** [l[start:]] *)
Definition slice_from {A : Type} (l : list A) (start : Z) : list A :=
  let len := Z.of_nat (List.length l) in
  let lo := if start <? 0 then Z.max (len + start) 0 else Z.min start len in
  skipn (Z.to_nat lo) l.

(** [range(a, b)] *)
Definition py_range (a b : Z) : list Z :=
  map (fun i => a + Z.of_nat i) (seq 0 (Z.to_nat (b - a))).

(** [needle in haystack] on strings *)
Fixpoint contains (needle haystack : string) : bool :=
  String.prefix needle haystack
  || match haystack with
     | EmptyString => false
     | String _ rest => contains needle rest
     end.

(** [haystack.startswith(needle)] *)
Definition startswith (haystack needle : string) : bool :=
  String.prefix needle haystack.

(* ================================================================= *)
(** ** Data model *)

(** The dictionaries built by [get_*_snapshots]: keys "id", "name",
    "created_at". *)
Record Snapshot := {
  snap_id : string;
  snap_name : string;
  created_at : Z
}.

(** [ServerConfig] (the dataclass); [id] and [name] carry a prefix here. *)
Record ServerConfig := {
  provider : string;
  server_id : string;
  server_name : string;
  api_token : string;
  retain_last_snapshots : Z;
  telegram_enabled : bool;
  telegram_bot_token : option string;
  telegram_chat_id : option string;
  webhook_enabled : bool;
  webhook_url : option string
}.

(** The module-level constants read from [snapshots.config]. *)
Record Config := {
  DELAY_BETWEEN_SERVERS : Z;
  SNAPSHOT_CREATION_TIMEOUT : Z;
  TELEGRAM_BOT_TOKEN : option string;
  TELEGRAM_CHAT_ID : option string;
  TELEGRAM_RETRIES : Z;
  TELEGRAM_BASE_DELAY_BETWEEN_RETRIES : Z;
  WEBHOOK_URL : option string;
  WEBHOOK_RETRIES : Z;
  WEBHOOK_BASE_DELAY_BETWEEN_RETRIES : Z
}.

(** One item of DigitalOcean's [snapshots] array.  [do_created_at] is what
    [fromisoformat(created_at.replace('Z', '+00:00')).astimezone(utc)]
    yields, [None] when it raises [ValueError]. *)
Record DoItem := {
  do_resource_id : string;
  do_name : string;
  do_id : string;
  do_created_at : option Z
}.

(** One item of Hetzner's [images] array. *)
Record HzItem := {
  hz_description : string;
  hz_id : string;
  hz_created : option Z
}.

(** The JSON object of a response, read through [dict.get] with the
    defaults the script gives. *)
Record Json := {
  js_snapshots : list DoItem;      (* data.get("snapshots", []) *)
  js_links_next : bool;            (* "pages" in links and "next" in links["pages"] *)
  js_images : list HzItem;         (* data.get("images", []) *)
  js_next_page : bool;             (* truth of pagination.get("next_page") *)
  js_action_id : option Z;         (* data.get("action", {}).get("id") *)
  js_image_id : option Z;          (* data.get("image", {}).get("id") *)
  js_action_status : string        (* action.get("status", "unknown") *)
}.

(** What the [requests] library is asked to do.  Headers (the bearer
    token), time-outs and message bodies are left out. *)
Inductive Request :=
| ListDoSnapshots (page : Z)                  (* GET /v2/snapshots?resource_type=droplet *)
| ListHetznerImages (page : Z)                (* GET /v1/images?type=snapshot *)
| CreateDoSnapshot (droplet name : string)    (* POST /v2/droplets/{id}/actions *)
| CreateHetznerImage (server description : string) (* POST /v1/servers/{id}/actions/create_image *)
| GetDoAction (action : Z)                    (* GET /v2/actions/{id} *)
| GetHetznerAction (action : Z)               (* GET /v1/actions/{id} *)
| DeleteDoSnapshot (id : string)              (* DELETE /v2/snapshots/{id} *)
| DeleteHetznerImage (id : string)            (* DELETE /v1/images/{id} *)
| TelegramSend (token chat : string)          (* POST api.telegram.org/bot{token}/sendMessage *)
| WebhookPost (url : string).                 (* POST {url} *)

(** How one call into [requests] ends.  The calls to the providers read the
    body of the response with [response.json()]: a body that is not JSON makes
    that raise [requests.exceptions.JSONDecodeError], a [RequestException]
    (requests 2.27 and later), which the script handles as it handles a
    failed request, so that such an answer is one of the [Failed] kind.  The
    two notification calls do not read the body. *)
Inductive Answer :=
| Responded (status : Z) (body : option Json)
    (* a response; [body = None] for a body that is JSON but not a JSON
       object, on which the first [data.get] raises [AttributeError] *)
| Failed    (* requests.exceptions.RequestException: connection error,
               time-out, a body that is not JSON where it is read *)
| Crashed.  (* an exception outside the RequestException hierarchy *)

Record Reply := { took : nat; answer : Answer }.

Inductive Level := WARNING | ERROR.

(** The arguments [manage_snapshots_for_server] hands to
    [write_final_status], as they appear in the FINAL_STATUS line. *)
Record RunResult := {
  rr_provider : string;
  rr_server : string;
  rr_status : string;
  rr_snapshot_name : string;
  rr_total_snapshots : nat
}.

Inductive Event :=
| Http (r : Request)
| Slept (seconds : Z)
| Logged (lvl : Level) (msg : string)
| FinalStatus (r : RunResult).

Record World := {
  clock : Z;                      (* time.time() *)
  utc_offset : Z;                 (* local time minus UTC, in seconds *)
  network : list Reply;           (* answers to the coming requests, in order *)
  heap : list (list Snapshot);    (* list objects that are mutated in place *)
  events : list Event             (* what happened so far, oldest first *)
}.

Definition Ref := nat.

(* ================================================================= *)
(** ** The monad: state, exceptions, and a loop budget *)

Inductive Exn :=
| RequestException
| OtherException.   (* any other subclass of Exception *)

Inductive Result (A : Type) :=
| Ok (a : A)
| Raised (e : Exn)
| Diverged.         (* a loop of the model used up its budget *)

Arguments Ok {A} a.
Arguments Raised {A} e.
Arguments Diverged {A}.

Definition M (A : Type) : Type := World -> Result A * World.

Definition ret {A} (a : A) : M A := fun w => (Ok a, w).

Definition bind {A B} (m : M A) (k : A -> M B) : M B :=
  fun w =>
    match m w with
    | (Ok a, w') => k a w'
    | (Raised e, w') => (Raised e, w')
    | (Diverged, w') => (Diverged, w')
    end.

Definition raise {A} (e : Exn) : M A := fun w => (Raised e, w).

Definition diverge {A} : M A := fun w => (Diverged, w).

(** [try: m  except ...: handler e] *)
Definition try_except {A} (m : M A) (handler : Exn -> M A) : M A :=
  fun w =>
    match m w with
    | (Raised e, w') => handler e w'
    | r => r
    end.

Notation "x <- m ;; k" := (bind m (fun x => k))
  (at level 61, m at next level, right associativity).
Notation "m ;;; k" := (bind m (fun _ => k))
  (at level 61, right associativity).

(** A [while] loop whose body either goes round again or leaves with a
    value. *)
Inductive Ctl (S R : Type) :=
| Continue (s : S)
| Break (r : R).

Arguments Continue {S R} s.
Arguments Break {S R} r.

Fixpoint iterate {S R} (budget : nat) (body : S -> M (Ctl S R)) (s : S) : M R :=
  match budget with
  | O => diverge
  | Datatypes.S budget' =>
      c <- body s ;;
      match c with
      | Break r => ret r
      | Continue s' => iterate budget' body s'
      end
  end.

(** *** Primitive effects *)

Definition emit (e : Event) : M unit :=
  fun w =>
    (Ok tt, {| clock := clock w; utc_offset := utc_offset w;
               network := network w; heap := heap w;
               events := events w ++ [e] |}).

Definition log (lvl : Level) (msg : string) : M unit := emit (Logged lvl msg).

(** [time.time()] *)
Definition time_time : M Z := fun w => (Ok (clock w), w).

(** The longest sleep in whole seconds: [time.sleep] keeps the length in
    nanoseconds in 64 bits. *)
Definition SLEEP_MAX : Z := 9223372036.

(** [time.sleep(seconds)]; a negative argument raises [ValueError], one
    beyond [SLEEP_MAX] raises [OverflowError]. *)
Definition time_sleep (seconds : Z) : M unit :=
  fun w =>
    if (seconds <? 0) || (SLEEP_MAX <? seconds) then (Raised OtherException, w)
    else
      (Ok tt, {| clock := clock w + seconds; utc_offset := utc_offset w;
                 network := network w; heap := heap w;
                 events := events w ++ [Slept seconds] |}).

(** One call of [requests.get], [requests.post] or [requests.delete].
    When the scripted answers are used up the network is down. *)
Definition request (r : Request) : M (Z * option Json) :=
  fun w =>
    let reply := match network w with
                 | [] => {| took := 0; answer := Failed |}
                 | x :: _ => x
                 end in
    let w' := {| clock := clock w + Z.of_nat (took reply);
                 utc_offset := utc_offset w;
                 network := tl (network w); heap := heap w;
                 events := events w ++ [Http r] |} in
    match answer reply with
    | Responded status body => (Ok (status, body), w')
    | Failed => (Raised RequestException, w')
    | Crashed => (Raised OtherException, w')
    end.

(** [response.raise_for_status()]: [HTTPError] for 4xx and 5xx. *)
Definition raise_for_status (status : Z) : M unit :=
  if (400 <=? status) && (status <? 600) then raise RequestException else ret tt.

(** [response.json()] of a body that is JSON, followed by the
    [data.get(...)] look-ups, which raise [AttributeError] on a value that is
    no object. *)
Definition response_json (body : option Json) : M Json :=
  match body with
  | Some j => ret j
  | None => raise OtherException
  end.

(** A fresh list object. *)
Definition new_list (l : list Snapshot) : M Ref :=
  fun w =>
    (Ok (List.length (heap w)),
     {| clock := clock w; utc_offset := utc_offset w; network := network w;
        heap := heap w ++ [l]; events := events w |}).

Definition deref (w : World) (r : Ref) : list Snapshot := nth r (heap w) [].

Definition read_list (r : Ref) : M (list Snapshot) := fun w => (Ok (deref w r), w).

Fixpoint set_nth {A} (n : nat) (x : A) (l : list A) : list A :=
  match l, n with
  | [], _ => []
  | _ :: l', O => x :: l'
  | y :: l', S n' => y :: set_nth n' x l'
  end.

Definition write_list (r : Ref) (l : list Snapshot) : M unit :=
  fun w =>
    (Ok tt,
     {| clock := clock w; utc_offset := utc_offset w; network := network w;
        heap := set_nth r l (heap w); events := events w |}).

(* ================================================================= *)
(** ** Retention: [identify_snapshots_to_delete] *)

(** [list.sort(key=lambda x: x['created_at'], reverse=True)].  Python's sort
    is stable, also with [reverse=True]: records with equal keys keep their
    order.  A stable sort has one possible result, computed here by
    insertion. *)
Fixpoint insert_desc (x : Snapshot) (l : list Snapshot) : list Snapshot :=
  match l with
  | [] => [x]
  | y :: l' =>
      if created_at y <=? created_at x then x :: y :: l'
      else y :: insert_desc x l'
  end.

Definition sort_created_at_reverse (l : list Snapshot) : list Snapshot :=
  fold_right insert_desc [] l.

(** <<
    def identify_snapshots_to_delete(self, server, snapshots, retain):
        snapshots.sort(key=lambda x: x['created_at'], reverse=True)
        to_delete = snapshots[retain:]
        ...
        return to_delete
    >>
    [snapshots] is the caller's list object. *)
Definition identify_snapshots_to_delete
    (server : ServerConfig) (snapshots : Ref) (retain : Z) : M (list Snapshot) :=
  l <- read_list snapshots ;;
  write_list snapshots (sort_created_at_reverse l) ;;;
  sorted <- read_list snapshots ;;
  let to_delete := slice_from sorted retain in
  ret to_delete.

(* ================================================================= *)
(** ** Listing: [get_snapshots] *)

(** [str(resource_id) == str(server.id) or server.name in snapshot_name] *)
Definition do_matches (server : ServerConfig) (item : DoItem) : bool :=
  String.eqb (do_resource_id item) (server_id server)
  || contains (server_name server) (do_name item).

(** [server.name in description or description.startswith(server.name)] *)
Definition hz_matches (server : ServerConfig) (item : HzItem) : bool :=
  contains (server_name server) (hz_description item)
  || startswith (hz_description item) (server_name server).

(** The [for snapshot in snapshot_list] loop: matching items whose date
    parses are appended, the others are skipped (an unparsable date with an
    ERROR record). *)
Fixpoint do_collect (server : ServerConfig) (items : list DoItem)
    (snapshots : list Snapshot) : M (list Snapshot) :=
  match items with
  | [] => ret snapshots
  | item :: rest =>
      if do_matches server item then
        match do_created_at item with
        | Some t =>
            do_collect server rest
              (snapshots ++ [{| snap_id := do_id item; snap_name := do_name item;
                                created_at := t |}])
        | None =>
            log ERROR "  Invalid date format for snapshot" ;;;
            do_collect server rest snapshots
        end
      else do_collect server rest snapshots
  end.

Fixpoint hz_collect (server : ServerConfig) (items : list HzItem)
    (snapshots : list Snapshot) : M (list Snapshot) :=
  match items with
  | [] => ret snapshots
  | item :: rest =>
      if hz_matches server item then
        match hz_created item with
        | Some t =>
            hz_collect server rest
              (snapshots ++ [{| snap_id := hz_id item;
                                snap_name := hz_description item;
                                created_at := t |}])
        | None =>
            log ERROR "  Invalid date format for snapshot" ;;;
            hz_collect server rest snapshots
        end
      else hz_collect server rest snapshots
  end.

(** One round of the [while True] loop of [get_digitalocean_snapshots];
    the loop state is [(page, snapshots)]. *)
Definition do_page (server : ServerConfig) (st : Z * list Snapshot)
  : M (Ctl (Z * list Snapshot) (list Snapshot)) :=
  let page := fst st in
  let snapshots := snd st in
  try_except
    (resp <- request (ListDoSnapshots page) ;;
     raise_for_status (fst resp) ;;;
     data <- response_json (snd resp) ;;
     match js_snapshots data with
     | [] => ret (Break snapshots)
     | snapshot_list =>
         snapshots' <- do_collect server snapshot_list snapshots ;;
         if js_links_next data then ret (Continue (page + 1, snapshots'))
         else ret (Break snapshots')
     end)
    (fun e =>
       match e with
       | RequestException =>
           log ERROR "[DIGITALOCEAN] Failed to fetch snapshots" ;;;
           ret (Break snapshots)
       | OtherException =>
           log ERROR "[DIGITALOCEAN] Unexpected error fetching snapshots" ;;;
           ret (Break snapshots)
       end).

(** Every round that goes on has used up one scripted answer, and a request
    on an empty script fails, so one round more than there are answers is
    budget enough ([get_digitalocean_snapshots_returns]). *)
Definition get_digitalocean_snapshots (server : ServerConfig) : M (list Snapshot) :=
  fun w => iterate (S (List.length (network w))) (do_page server) (1, []) w.

Definition hz_page (server : ServerConfig) (st : Z * list Snapshot)
  : M (Ctl (Z * list Snapshot) (list Snapshot)) :=
  let page := fst st in
  let snapshots := snd st in
  try_except
    (resp <- request (ListHetznerImages page) ;;
     raise_for_status (fst resp) ;;;
     data <- response_json (snd resp) ;;
     match js_images data with
     | [] => ret (Break snapshots)
     | images =>
         snapshots' <- hz_collect server images snapshots ;;
         if js_next_page data then ret (Continue (page + 1, snapshots'))
         else ret (Break snapshots')
     end)
    (fun e =>
       match e with
       | RequestException =>
           log ERROR "[HETZNER] Failed to fetch snapshots" ;;;
           ret (Break snapshots)
       | OtherException =>
           log ERROR "[HETZNER] Unexpected error fetching snapshots" ;;;
           ret (Break snapshots)
       end).

Definition get_hetzner_snapshots (server : ServerConfig) : M (list Snapshot) :=
  fun w => iterate (S (List.length (network w))) (hz_page server) (1, []) w.

Definition get_snapshots (server : ServerConfig) : M (list Snapshot) :=
  if String.eqb (provider server) "digitalocean" then get_digitalocean_snapshots server
  else if String.eqb (provider server) "hetzner" then get_hetzner_snapshots server
  else (log ERROR "Unknown provider" ;;; ret []).

(* ================================================================= *)
(** ** Creation: [create_snapshot] *)

(** *** [datetime.datetime.now().strftime("%Y%m%d%H%M%S")] *)

Definition digit (n : Z) : ascii := ascii_of_nat (48 + Z.to_nat (n mod 10)).

Fixpoint zero_pad (width : nat) (n : Z) : string :=
  match width with
  | O => EmptyString
  | S width' => String.append (zero_pad width' (n / 10)) (String (digit n) EmptyString)
  end.

(** The proleptic Gregorian date of a day number counted from 1970-01-01. *)
Definition civil_from_days (days : Z) : Z * Z * Z :=
  let z := days + 719468 in
  let era := z / 146097 in
  let doe := z - era * 146097 in
  let yoe := (doe - doe / 1460 + doe / 36524 - doe / 146096) / 365 in
  let doy := doe - (365 * yoe + yoe / 4 - yoe / 100) in
  let mp := (5 * doy + 2) / 153 in
  let d := doy - (153 * mp + 2) / 5 + 1 in
  let m := if mp <? 10 then mp + 3 else mp - 9 in
  let y := yoe + era * 400 + (if m <=? 2 then 1 else 0) in
  (y, m, d).

(** [strftime("%Y%m%d%H%M%S")] of the naive datetime that is [seconds]
    after 1970-01-01 00:00:00 on its own calendar. *)
Definition strftime_YmdHMS (seconds : Z) : string :=
  let '(y, m, d) := civil_from_days (seconds / 86400) in
  let s := seconds mod 86400 in
  String.append (zero_pad 4 y)
    (String.append (zero_pad 2 m)
       (String.append (zero_pad 2 d)
          (String.append (zero_pad 2 (s / 3600))
             (String.append (zero_pad 2 (s mod 3600 / 60))
                (zero_pad 2 (s mod 60)))))).

(** [datetime.datetime.now()] has no [tz] argument: it is the host's local
    wall clock. *)
Definition datetime_now : M Z := fun w => (Ok (clock w + utc_offset w), w).

(** [f"{server.name}-{timestamp}"] *)
Definition snapshot_name_of (server : ServerConfig) (timestamp : string) : string :=
  String.append (server_name server) (String.append "-" timestamp).

(** *** Polling the action *)

(** One round of [while time.time() - start_time < timeout] in
    [_wait_for_digitalocean_action]. *)
Definition do_poll (action_id start_time timeout : Z) (_ : unit)
  : M (Ctl unit string) :=
  now <- time_time ;;
  if now - start_time <? timeout then
    try_except
      (resp <- request (GetDoAction action_id) ;;
       raise_for_status (fst resp) ;;;
       data <- response_json (snd resp) ;;
       let status := js_action_status data in
       if String.eqb status "completed" then ret (Break "completed"%string)
       else if String.eqb status "errored" then ret (Break "errored"%string)
       else (time_sleep 5 ;;; ret (Continue tt)))
      (fun e =>
         match e with
         | RequestException => time_sleep 5 ;;; ret (Continue tt)
         | OtherException => raise OtherException
         end)
  else ret (Break "timeout"%string).

(** Every round that goes on sleeps five seconds, so [timeout + 1] rounds
    are budget enough ([wait_for_digitalocean_action_halts]). *)
Definition _wait_for_digitalocean_action (action_id timeout : Z) : M string :=
  start_time <- time_time ;;
  iterate (S (Z.to_nat timeout)) (do_poll action_id start_time timeout) tt.

Definition hz_poll (action_id start_time timeout : Z) (_ : unit)
  : M (Ctl unit string) :=
  now <- time_time ;;
  if now - start_time <? timeout then
    try_except
      (resp <- request (GetHetznerAction action_id) ;;
       raise_for_status (fst resp) ;;;
       data <- response_json (snd resp) ;;
       let status := js_action_status data in
       if String.eqb status "success" then ret (Break "success"%string)
       else if String.eqb status "error" then ret (Break "error"%string)
       else (time_sleep 5 ;;; ret (Continue tt)))
      (fun e =>
         match e with
         | RequestException => time_sleep 5 ;;; ret (Continue tt)
         | OtherException => raise OtherException
         end)
  else ret (Break "timeout"%string).

Definition _wait_for_hetzner_action (action_id timeout : Z) : M string :=
  start_time <- time_time ;;
  iterate (S (Z.to_nat timeout)) (hz_poll action_id start_time timeout) tt.

Definition num_of (o : option Z) : Z :=
  match o with Some n => n | None => 0 end.

Section WithConfig.

Variable cfg : Config.

Definition create_digitalocean_snapshot (server : ServerConfig) : M (option string) :=
  now <- datetime_now ;;
  let timestamp := strftime_YmdHMS now in
  let snapshot_name := snapshot_name_of server timestamp in
  try_except
    (resp <- request (CreateDoSnapshot (server_id server) snapshot_name) ;;
     raise_for_status (fst resp) ;;;
     data <- response_json (snd resp) ;;
     let action_id := js_action_id data in
     if truthy_num action_id then
       action_status <- _wait_for_digitalocean_action (num_of action_id)
                          (SNAPSHOT_CREATION_TIMEOUT cfg) ;;
       if String.eqb action_status "completed" then ret (Some snapshot_name)
       else (log ERROR "Snapshot creation failed with status" ;;; ret None)
     else (log ERROR "Failed to create snapshot: No action ID returned" ;;; ret None))
    (fun e =>
       match e with
       | RequestException => log ERROR "Failed to create snapshot" ;;; ret None
       | OtherException => log ERROR "Unexpected error creating snapshot" ;;; ret None
       end).

Definition create_hetzner_snapshot (server : ServerConfig) : M (option string) :=
  now <- datetime_now ;;
  let timestamp := strftime_YmdHMS now in
  let snapshot_name := snapshot_name_of server timestamp in
  try_except
    (resp <- request (CreateHetznerImage (server_id server) snapshot_name) ;;
     raise_for_status (fst resp) ;;;
     data <- response_json (snd resp) ;;
     if truthy_num (js_action_id data) && truthy_num (js_image_id data) then
       action_status <- _wait_for_hetzner_action (num_of (js_action_id data))
                          (SNAPSHOT_CREATION_TIMEOUT cfg) ;;
       if String.eqb action_status "success" then ret (Some snapshot_name)
       else (log ERROR "Snapshot creation failed with status" ;;; ret None)
     else (log ERROR "Failed to create snapshot: No action/image ID returned" ;;; ret None))
    (fun e =>
       match e with
       | RequestException => log ERROR "Failed to create snapshot" ;;; ret None
       | OtherException => log ERROR "Unexpected error creating snapshot" ;;; ret None
       end).

Definition create_snapshot (server : ServerConfig) : M (option string) :=
  if String.eqb (provider server) "digitalocean" then create_digitalocean_snapshot server
  else if String.eqb (provider server) "hetzner" then create_hetzner_snapshot server
  else (log ERROR "Unknown provider" ;;; ret None).

End WithConfig.

(* ================================================================= *)
(** ** Deletion: [delete_snapshots] *)

(** The body of [for idx, snap in enumerate(snapshots, 1)] in
    [delete_digitalocean_snapshots]. *)
Definition do_delete_one (snap : Snapshot) : M unit :=
  try_except
    (resp <- request (DeleteDoSnapshot (snap_id snap)) ;;
     let status_code := fst resp in
     if status_code =? 204 then ret tt
     else if status_code =? 404 then
       log WARNING "    Snapshot not found (likely already deleted)"
     else log ERROR "    Failed to delete snapshot (status)")
    (fun e =>
       match e with
       | RequestException => log ERROR "    Failed to delete snapshot"
       | OtherException => log ERROR "    Unexpected error deleting snapshot"
       end).

Definition hz_delete_one (snap : Snapshot) : M unit :=
  try_except
    (resp <- request (DeleteHetznerImage (snap_id snap)) ;;
     let status_code := fst resp in
     if status_code =? 204 then ret tt
     else if status_code =? 404 then
       log WARNING "    Snapshot not found (likely already deleted)"
     else log ERROR "    Failed to delete snapshot (status)")
    (fun e =>
       match e with
       | RequestException => log ERROR "    Failed to delete snapshot"
       | OtherException => log ERROR "    Unexpected error deleting snapshot"
       end).

(** [for x in l: body(x)] *)
Fixpoint for_each {A} (l : list A) (body : A -> M unit) : M unit :=
  match l with
  | [] => ret tt
  | x :: rest => body x ;;; for_each rest body
  end.

Definition delete_digitalocean_snapshots (server : ServerConfig)
    (snapshots : list Snapshot) : M unit :=
  match snapshots with
  | [] => ret tt
  | _ => for_each snapshots do_delete_one
  end.

Definition delete_hetzner_snapshots (server : ServerConfig)
    (snapshots : list Snapshot) : M unit :=
  match snapshots with
  | [] => ret tt
  | _ => for_each snapshots hz_delete_one
  end.

Definition delete_snapshots (server : ServerConfig) (snapshots : list Snapshot) : M unit :=
  if String.eqb (provider server) "digitalocean" then
    delete_digitalocean_snapshots server snapshots
  else if String.eqb (provider server) "hetzner" then
    delete_hetzner_snapshots server snapshots
  else log ERROR "Unknown provider".

(* ================================================================= *)
(** ** Notification *)

Definition str_of (o : option string) : string :=
  match o with Some s => s | None => EmptyString end.

(** [x if x else y] on optional strings *)
Definition or_else (x y : option string) : option string :=
  if truthy x then x else y.

(** [x if x is not None else y] *)
Definition if_not_none (x : option Z) (y : Z) : Z :=
  match x with Some n => n | None => y end.

(** The body of [for attempt in range(1, max_retries + 1)] in
    [send_telegram_notification]; [true] stands for [return True]. *)
Definition telegram_attempt (token chat : string) (max_retries base_delay_seconds : Z)
    (attempt : Z) : M bool :=
  sent <- try_except
            (resp <- request (TelegramSend token chat) ;;
             if fst resp =? 200 then ret true
             else (log WARNING "Telegram API error" ;;; ret false))
            (fun e =>
               match e with
               | RequestException =>
                   log WARNING "Telegram notification failed" ;;; ret false
               | OtherException => raise OtherException
               end) ;;
  if sent then ret true
  else if attempt <? max_retries then
    (let delay_seconds := base_delay_seconds * 2 ^ (attempt - 1) in
     time_sleep delay_seconds ;;; ret false)
  else ret false.

(** A [for] loop that a [return True] in its body leaves early; falling
    off its end runs [after]. *)
Fixpoint for_attempts (attempts : list Z) (body : Z -> M bool) (after : M bool) : M bool :=
  match attempts with
  | [] => after
  | attempt :: rest =>
      returned <- body attempt ;;
      if returned then ret true else for_attempts rest body after
  end.

Definition send_telegram_notification (cfg : Config)
    (bot_token chat_id : option string) (retries base_delay : option Z) : M bool :=
  let token := or_else bot_token (TELEGRAM_BOT_TOKEN cfg) in
  let chat := or_else chat_id (TELEGRAM_CHAT_ID cfg) in
  if negb (truthy token) || negb (truthy chat) then ret false
  else
    let max_retries := if_not_none retries (TELEGRAM_RETRIES cfg) in
    let base_delay_seconds :=
      if_not_none base_delay (TELEGRAM_BASE_DELAY_BETWEEN_RETRIES cfg) in
    for_attempts (py_range 1 (max_retries + 1))
      (telegram_attempt (str_of token) (str_of chat) max_retries base_delay_seconds)
      (log WARNING "Failed to send Telegram notification after attempts" ;;; ret false).

Definition webhook_attempt (url : string) (max_retries base_delay_seconds : Z)
    (attempt : Z) : M bool :=
  sent <- try_except
            (resp <- request (WebhookPost url) ;;
             if (200 <=? fst resp) && (fst resp <? 300) then ret true
             else (log WARNING "Webhook API error" ;;; ret false))
            (fun e =>
               match e with
               | RequestException =>
                   (* [except Timeout] and [except RequestException] *)
                   log WARNING "Webhook notification failed" ;;; ret false
               | OtherException => raise OtherException
               end) ;;
  if sent then ret true
  else if attempt <? max_retries then
    (let delay_seconds := base_delay_seconds * 2 ^ (attempt - 1) in
     time_sleep delay_seconds ;;; ret false)
  else ret false.

Definition send_webhook_notification (cfg : Config)
    (webhook_url : option string) (retries base_delay : option Z) : M bool :=
  if negb (truthy webhook_url) then ret false
  else
    let max_retries := if_not_none retries (WEBHOOK_RETRIES cfg) in
    let base_delay_seconds :=
      if_not_none base_delay (WEBHOOK_BASE_DELAY_BETWEEN_RETRIES cfg) in
    for_attempts (py_range 1 (max_retries + 1))
      (webhook_attempt (str_of webhook_url) max_retries base_delay_seconds)
      (log WARNING "Failed to send webhook notification after attempts" ;;; ret false).

(** [write_final_status] when the payload of the webhook is built without an
    effect: the FINAL_STATUS line, then the two channels.  Choosing and
    filling the message templates builds strings only and is left out.  The
    payload step of the webhook (lines 1364 to 1420) is in
    [write_final_status_with_payload] below, which is this function when the
    payload templates can be used, and raises or logs a warning first when
    they cannot. *)
Definition write_final_status (cfg : Config) (server : ServerConfig)
    (snapshot_name : string) (total_snapshots : nat) (status : string) : M unit :=
  emit (FinalStatus {| rr_provider := provider server;
                       rr_server := server_name server;
                       rr_status := status;
                       rr_snapshot_name := snapshot_name;
                       rr_total_snapshots := total_snapshots |}) ;;;
  (if telegram_enabled server then
     if truthy (telegram_bot_token server) && truthy (telegram_chat_id server) then
       send_telegram_notification cfg (telegram_bot_token server)
         (telegram_chat_id server) None None ;;; ret tt
     else if truthy (TELEGRAM_BOT_TOKEN cfg) && truthy (TELEGRAM_CHAT_ID cfg) then
       send_telegram_notification cfg None None None None ;;; ret tt
     else ret tt
   else ret tt) ;;;
  let webhook_url_to_use :=
    if webhook_enabled server then
      if truthy (webhook_url server) then webhook_url server
      else if truthy (WEBHOOK_URL cfg) then WEBHOOK_URL cfg
      else None
    else None in
  if truthy webhook_url_to_use then
    send_webhook_notification cfg webhook_url_to_use
      (Some (WEBHOOK_RETRIES cfg)) (Some (WEBHOOK_BASE_DELAY_BETWEEN_RETRIES cfg)) ;;;
    ret tt
  else ret tt.

(* ================================================================= *)
(** ** The workflow of one server and the run over all of them *)

(** [manage_snapshots_for_server].  [snapshots] is the list object that
    [get_snapshots] returned; [identify_snapshots_to_delete] sorts that very
    object.  The last step is [write_final_status] above;
    [manage_snapshots_for_server_with_payload] below ends with the payload
    step of the webhook as well. *)
Definition manage_snapshots_for_server (cfg : Config) (server : ServerConfig) : M unit :=
  listed <- get_snapshots server ;;
  snapshots <- new_list listed ;;
  to_delete <- identify_snapshots_to_delete server snapshots
                 (retain_last_snapshots server) ;;
  snapshot_name <- create_snapshot cfg server ;;
  (match to_delete with
   | [] => ret tt
   | _ => delete_snapshots server to_delete
   end) ;;;
  updated_snapshots <- get_snapshots server ;;
  let total_snapshots := List.length updated_snapshots in
  let status := if truthy snapshot_name then "success"%string else "failure"%string in
  write_final_status cfg server
    (if truthy snapshot_name then str_of snapshot_name else "none"%string)
    total_snapshots status.

Record Counts := { success_count : Z; failure_count : Z }.

(** The [except Exception] clause of the loop in [run]. *)
Definition run_except (c : Counts) : M Counts :=
  log ERROR "An unexpected error occurred" ;;;
  ret {| success_count := success_count c; failure_count := failure_count c + 1 |}.

(** The body of [for idx, server in enumerate(self.servers)]: the [try]
    block counts the success before it sleeps, and what it has counted
    stays counted when the sleep raises.  [manage] is the workflow that
    [self.manage_snapshots_for_server] runs; the loop does not look into
    it. *)
Definition run_one (manage : ServerConfig -> M unit) (cfg : Config) (total : Z)
    (idx : Z) (server : ServerConfig) (c : Counts) : M Counts :=
  fun w =>
    match manage server w with
    | (Ok _, w1) =>
        let c1 := {| success_count := success_count c + 1;
                     failure_count := failure_count c |} in
        if idx <? total - 1 then
          match time_sleep (DELAY_BETWEEN_SERVERS cfg) w1 with
          | (Ok _, w2) => (Ok c1, w2)
          | (Raised _, w2) => run_except c1 w2
          | (Diverged, w2) => (Diverged, w2)
          end
        else (Ok c1, w1)
    | (Raised _, w1) => run_except c w1
    | (Diverged, w1) => (Diverged, w1)
    end.

Fixpoint run_loop (manage : ServerConfig -> M unit) (cfg : Config) (total : Z)
    (idx : Z) (servers : list ServerConfig) (c : Counts) : M Counts :=
  match servers with
  | [] => ret c
  | server :: rest =>
      c' <- run_one manage cfg total idx server c ;;
      run_loop manage cfg total (idx + 1) rest c'
  end.

(** The exit decision at the end of [run]; falling off the end of [main]
    is exit code 0. *)
Definition exit_code_of (c : Counts) : M Z :=
  if failure_count c >? 0 then
    if success_count c =? 0 then (log ERROR "All servers failed" ;;; ret 1)
    else (log WARNING "Partial failure" ;;; ret 2)
  else ret 0.

(** [run] around the workflow [manage], returning the counters of the
    summary and the exit code of the process. *)
Definition run_of (manage : ServerConfig -> M unit) (cfg : Config)
    (servers : list ServerConfig) : M (Counts * Z) :=
  c <- run_loop manage cfg (Z.of_nat (List.length servers)) 0 servers
         {| success_count := 0; failure_count := 0 |} ;;
  code <- exit_code_of c ;;
  ret (c, code).

(** [SnapshotManager.__init__] followed by [run], for the server
    configurations that [load_configs] returned: with none of them the
    process exits with 0 before anything runs. *)
Definition main_of (manage : ServerConfig -> M unit) (cfg : Config)
    (servers : list ServerConfig) : M Z :=
  match servers with
  | [] => log WARNING "No valid server configurations found. Exiting." ;;; ret 0
  | _ => r <- run_of manage cfg servers ;; ret (snd r)
  end.

(** [run] and [main] with the workflow [manage_snapshots_for_server]. *)
Definition run (cfg : Config) (servers : list ServerConfig) : M (Counts * Z) :=
  run_of (manage_snapshots_for_server cfg) cfg servers.

Definition main (cfg : Config) (servers : list ServerConfig) : M Z :=
  main_of (manage_snapshots_for_server cfg) cfg servers.

(* ================================================================= *)
(** ** Vocabulary of the statements *)

(** Newest first, ties allowed. *)
Definition descending (l : list Snapshot) : Prop :=
  StronglySorted (fun a b => created_at b <= created_at a) l.

(** The requests among some events, in order. *)
Fixpoint requests_of (evs : list Event) : list Request :=
  match evs with
  | [] => []
  | Http r :: rest => r :: requests_of rest
  | _ :: rest => requests_of rest
  end.

(** The identifiers of the snapshots some requests ask a provider to
    delete. *)
Fixpoint deleted_ids (rs : list Request) : list string :=
  match rs with
  | [] => []
  | DeleteDoSnapshot id :: rest => id :: deleted_ids rest
  | DeleteHetznerImage id :: rest => id :: deleted_ids rest
  | _ :: rest => deleted_ids rest
  end.

Definition delete_requests (evs : list Event) : list string :=
  deleted_ids (requests_of evs).

(** The FINAL_STATUS lines among some events. *)
Fixpoint final_statuses (evs : list Event) : list RunResult :=
  match evs with
  | [] => []
  | FinalStatus r :: rest => r :: final_statuses rest
  | _ :: rest => final_statuses rest
  end.


(** How the next request is going to end. *)
Definition next_answer (w : World) : Answer :=
  match network w with
  | [] => Failed
  | r :: _ => answer r
  end.

(** What a function that deletes one record has to do, whatever the
    provider answers: ask for this record's deletion and return; take a 404
    as "already deleted", with a WARNING and no ERROR record; log an ERROR
    for every other answer that is not the 204 of a deletion. *)
Definition deletes_one (delete_one : Snapshot -> M unit) (req : string -> Request)
  : Prop :=
  (forall snap w body,
      next_answer w = Responded 404 body ->
      exists w',
        delete_one snap w = (Ok tt, w')
        /\ events w'
           = events w
             ++ [Http (req (snap_id snap));
                 Logged WARNING "    Snapshot not found (likely already deleted)"])
  /\ (forall snap w,
        (forall body, next_answer w <> Responded 204 body) ->
        (forall body, next_answer w <> Responded 404 body) ->
        exists w' msg,
          delete_one snap w = (Ok tt, w')
          /\ events w' = events w ++ [Http (req (snap_id snap)); Logged ERROR msg])
  /\ (forall snap w,
        exists w',
          delete_one snap w = (Ok tt, w')
          /\ requests_of (events w') = requests_of (events w) ++ [req (snap_id snap)]
          /\ network w' = tl (network w)).

(** What a function that deletes a list of records has to do: return, after
    one delete request for every record of the list, in the order of the
    list, whatever the answers were. *)
Definition deletes_all (delete_list : list Snapshot -> M unit) (req : string -> Request)
  : Prop :=
  forall snapshots w,
    exists w',
      delete_list snapshots w = (Ok tt, w')
      /\ requests_of (events w')
         = requests_of (events w) ++ map (fun snap => req (snap_id snap)) snapshots.

(** The name [create_*_snapshot] gives a snapshot it asks for in world [w]:
    the server's name, a hyphen, and the host's local time. *)
Definition local_name (server : ServerConfig) (w : World) : string :=
  snapshot_name_of server (strftime_YmdHMS (clock w + utc_offset w)).

(** The name with the time in UTC instead. *)
Definition utc_name (server : ServerConfig) (w : World) : string :=
  snapshot_name_of server (strftime_YmdHMS (clock w)).

(** The last answer that was used up between [w] and [w'] is a response
    that reports the action in the state [word]. *)
Definition last_answer_reports (word : string) (w w' : World) : Prop :=
  exists earlier last status data,
    network w = earlier ++ last :: network w'
    /\ answer last = Responded status (Some data)
    /\ js_action_status data = word.

(** The world in which [manage_snapshots_for_server] creates the snapshot,
    given the world [w] in which the listing ended and the list it
    returned: the list has become a list object and has been sorted. *)
Definition with_sorted_list (w : World) (listed : list Snapshot) : World :=
  {| clock := clock w; utc_offset := utc_offset w; network := network w;
     heap := heap w ++ [sort_created_at_reverse listed]; events := events w |}.

(** The FINAL_STATUS line for a creation that returned [created] and a
    final listing of [total] snapshots. *)
Definition run_result_of (server : ServerConfig) (created : option string)
    (total : nat) : RunResult :=
  {| rr_provider := provider server;
     rr_server := server_name server;
     rr_status := match created with
                  | Some _ => "success"
                  | None => "failure"
                  end;
     rr_snapshot_name := match created with
                         | Some name => name
                         | None => "none"
                         end;
     rr_total_snapshots := total |}.

(** Not a FINAL_STATUS line. *)
Definition no_status (e : Event) : Prop :=
  match e with
  | FinalStatus _ => False
  | _ => True
  end.

(** The ways one round of the polling loop can end.  [done] and [failed]
    are the provider's words for the two terminal states. *)
Definition poll_round (done failed : string) (start_time timeout : Z)
    (w : World) (res : Result (Ctl unit string) * World) : Prop :=
  (res = (Ok (Break "timeout"%string), w) /\ ~ (clock w - start_time < timeout))
  \/ (exists w', res = (Ok (Break done), w')
                 /\ last_answer_reports done w w'
                 /\ network w = match network w with
                                | [] => []
                                | r :: _ => r :: network w'
                                end
                 /\ network w <> [])
  \/ (exists w', res = (Ok (Break failed), w'))
  \/ (exists w', res = (Ok (Continue tt), w')
                 /\ clock w + 5 <= clock w'
                 /\ clock w - start_time < timeout
                 /\ network w' = tl (network w))
  \/ (exists w', res = (Raised OtherException, w')).

(** 1 for [true], 0 for [false]. *)
Definition one_if (b : bool) : Z := if b then 1 else 0.

(** Neither a delete request nor a FINAL_STATUS line. *)
Definition quiet_event (e : Event) : Prop :=
  match e with
  | Http (DeleteDoSnapshot _) | Http (DeleteHetznerImage _) | FinalStatus _ => False
  | _ => True
  end.

(** [m] always returns a value: it neither raises nor runs out of budget. *)
Definition returns {A} (m : M A) : Prop :=
  forall w, exists a w', m w = (Ok a, w').

(** [m] never runs out of budget: it returns or raises. *)
Definition halts {A} (m : M A) : Prop :=
  forall w, fst (m w) <> Diverged.

(** [m] only appends events, and only events that satisfy [Q]. *)
Definition appends {A} (Q : Event -> Prop) (m : M A) : Prop :=
  forall w, exists new, events (snd (m w)) = events w ++ new /\ Forall Q new.


(** Every wait between [N] attempts with base delay [d] is a length that
    [time.sleep] accepts. *)
Definition waits_accepted (d N : Z) : Prop :=
  forall k, 1 <= k < N -> 0 <= d * 2 ^ (k - 1) <= SLEEP_MAX.



(** A request that ends in a [RequestException]: a transport error, or a
    4xx or 5xx status on which [raise_for_status] raises. *)
Definition request_failure (r : Reply) : Prop :=
  match answer r with
  | Responded status _ => 400 <= status < 600
  | Failed => True
  | Crashed => False
  end.

(** The records that one page of DigitalOcean's listing contributes. *)
Fixpoint do_records (server : ServerConfig) (items : list DoItem) : list Snapshot :=
  match items with
  | [] => []
  | item :: rest =>
      if do_matches server item then
        match do_created_at item with
        | Some t =>
            {| snap_id := do_id item; snap_name := do_name item; created_at := t |}
            :: do_records server rest
        | None => do_records server rest
        end
      else do_records server rest
  end.

Fixpoint hz_records (server : ServerConfig) (items : list HzItem) : list Snapshot :=
  match items with
  | [] => []
  | item :: rest =>
      if hz_matches server item then
        match hz_created item with
        | Some t =>
            {| snap_id := hz_id item; snap_name := hz_description item;
               created_at := t |}
            :: hz_records server rest
        | None => hz_records server rest
        end
      else hz_records server rest
  end.

(** A reply that carries a page of the listing with items on it and a
    pointer to a next page. *)
Definition do_full_page (r : Reply) (page : Json) : Prop :=
  exists status,
    answer r = Responded status (Some page)
    /\ ~ (400 <= status < 600)
    /\ js_snapshots page <> []
    /\ js_links_next page = true.

Definition hz_full_page (r : Reply) (page : Json) : Prop :=
  exists status,
    answer r = Responded status (Some page)
    /\ ~ (400 <= status < 600)
    /\ js_images page <> []
    /\ js_next_page page = true.

(** What the workflows of [run] did, server by server: the result of each
    workflow, in the world the loop had reached. *)
Fixpoint workflow_results (manage : ServerConfig -> M unit) (cfg : Config)
    (total idx : Z) (servers : list ServerConfig) (w : World) : list (Result unit) :=
  match servers with
  | [] => []
  | server :: rest =>
      fst (manage server w)
      :: workflow_results manage cfg total (idx + 1) rest
           (snd (run_one manage cfg total idx server
                   {| success_count := 0; failure_count := 0 |} w))
  end.

Definition returned (r : Result unit) : bool :=
  match r with Ok _ => true | _ => false end.

Definition raised (r : Result unit) : bool :=
  match r with Raised _ => true | _ => false end.

Definition count_of (p : Result unit -> bool) (l : list (Result unit)) : Z :=
  Z.of_nat (List.length (filter p l)).

(* ================================================================= *)
(** ** Sample servers, configurations and worlds *)

Definition mk_snapshot (id name : string) (t : Z) : Snapshot :=
  {| snap_id := id; snap_name := name; created_at := t |}.

Definition web : ServerConfig :=
  {| provider := "digitalocean"; server_id := "42"; server_name := "web";
     api_token := "dop_v1_0123456789"; retain_last_snapshots := 1;
     telegram_enabled := false; telegram_bot_token := None;
     telegram_chat_id := None; webhook_enabled := false; webhook_url := None |}.

Definition db : ServerConfig :=
  {| provider := "hetzner"; server_id := "77"; server_name := "db";
     api_token := "hz_0123456789"; retain_last_snapshots := 1;
     telegram_enabled := false; telegram_bot_token := None;
     telegram_chat_id := None; webhook_enabled := false; webhook_url := None |}.

(** The defaults of [load_config]. *)
Definition default_config : Config :=
  {| DELAY_BETWEEN_SERVERS := 5; SNAPSHOT_CREATION_TIMEOUT := 900;
     TELEGRAM_BOT_TOKEN := None; TELEGRAM_CHAT_ID := None;
     TELEGRAM_RETRIES := 3; TELEGRAM_BASE_DELAY_BETWEEN_RETRIES := 2;
     WEBHOOK_URL := None; WEBHOOK_RETRIES := 3;
     WEBHOOK_BASE_DELAY_BETWEEN_RETRIES := 2 |}.

(** 2024-12-02 13:32:34 UTC on a host whose zone is [offset] seconds ahead,
    with the given answers to come and list objects. *)
Definition world_at (offset : Z) (replies : list Reply) (lists : list (list Snapshot))
  : World :=
  {| clock := 1733146354; utc_offset := offset; network := replies;
     heap := lists; events := [] |}.

Definition reply (a : Answer) : Reply := {| took := 0; answer := a |}.

(** Two snapshots taken in the same second. *)
Definition same_second : list Snapshot :=
  [mk_snapshot "101" "web-20241201120000" 1733054400000000;
   mk_snapshot "102" "web2-20241201120000" 1733054400000000].

(** An older snapshot listed before a newer one. *)
Definition oldest_first : list Snapshot :=
  [mk_snapshot "101" "web-20241130120000" 1732968000000000;
   mk_snapshot "102" "web-20241201120000" 1733054400000000].


(** A first page of DigitalOcean's listing with one snapshot of droplet 42
    on it and a link to a next page. *)
Definition do_first_page : Json :=
  {| js_snapshots :=
       [{| do_resource_id := "42"; do_name := "web-20241201120000";
           do_id := "101"; do_created_at := Some 1733054400000000 |}];
     js_links_next := true; js_images := []; js_next_page := false;
     js_action_id := None; js_image_id := None; js_action_status := "unknown" |}.

(** The same for Hetzner and the server "db". *)
Definition hz_first_page : Json :=
  {| js_snapshots := []; js_links_next := false;
     js_images :=
       [{| hz_description := "db-20241201120000"; hz_id := "501";
           hz_created := Some 1733054400000000 |}];
     js_next_page := true;
     js_action_id := None; js_image_id := None; js_action_status := "unknown" |}.

(** The first page arrives, the request for the second one fails. *)
Definition do_second_page_fails : World :=
  world_at 0 [reply (Responded 200 (Some do_first_page)); reply Failed] [].

Definition hz_second_page_fails : World :=
  world_at 0 [reply (Responded 200 (Some hz_first_page)); reply Failed] [].

(** The answers to a creation that goes well: the action is accepted with
    id 7 (and image 501 for Hetzner), is still running at the first poll and
    has finished at the second. *)
Definition action (status : string) : Json :=
  {| js_snapshots := []; js_links_next := false; js_images := [];
     js_next_page := false; js_action_id := Some 7; js_image_id := Some 501;
     js_action_status := status |}.

Definition do_creation_goes_well : list Reply :=
  [reply (Responded 201 (Some (action "in-progress")));
   reply (Responded 200 (Some (action "in-progress")));
   reply (Responded 200 (Some (action "completed")))].

Definition hz_creation_goes_well : list Reply :=
  [reply (Responded 201 (Some (action "running")));
   reply (Responded 200 (Some (action "running")));
   reply (Responded 200 (Some (action "success")))].

(** A host in a zone one hour ahead of UTC. *)
Definition one_hour_ahead (replies : list Reply) : World := world_at 3600 replies [].

(** A creation that never finishes: every poll says "in-progress". *)
Definition never_finishes : list Reply :=
  reply (Responded 201 (Some (action "in-progress")))
  :: repeat (reply (Responded 200 (Some (action "in-progress")))) 200.

(** Five snapshots of droplet 42, the oldest first, on one page without a
    next link; [listing_of] is the response that lists some of them. *)
Definition five_items : list DoItem :=
  [{| do_resource_id := "42"; do_name := "web-20241127120000"; do_id := "101";
      do_created_at := Some 1732708800000000 |};
   {| do_resource_id := "42"; do_name := "web-20241128120000"; do_id := "102";
      do_created_at := Some 1732795200000000 |};
   {| do_resource_id := "42"; do_name := "web-20241129120000"; do_id := "103";
      do_created_at := Some 1732881600000000 |};
   {| do_resource_id := "42"; do_name := "web-20241130120000"; do_id := "104";
      do_created_at := Some 1732968000000000 |};
   {| do_resource_id := "42"; do_name := "web-20241201120000"; do_id := "105";
      do_created_at := Some 1733054400000000 |}].

Definition listing_of (items : list DoItem) : Reply :=
  reply (Responded 200
           (Some {| js_snapshots := items; js_links_next := false; js_images := [];
                    js_next_page := false; js_action_id := None; js_image_id := None;
                    js_action_status := "unknown" |})).

Definition web_retain_3 : ServerConfig :=
  {| provider := "digitalocean"; server_id := "42"; server_name := "web";
     api_token := "dop_v1_0123456789"; retain_last_snapshots := 3;
     telegram_enabled := false; telegram_bot_token := None;
     telegram_chat_id := None; webhook_enabled := false; webhook_url := None |}.

(** Five snapshots listed, the creation goes well, the two deletions are
    confirmed (one with 204, one with 404), and the final listing shows the
    three that stayed and the new one. *)
Definition five_snapshots_retain_3 : World :=
  world_at 0
    (listing_of five_items
     :: do_creation_goes_well
     ++ [reply (Responded 204 None); reply (Responded 404 None);
         listing_of
           (skipn 2 five_items
            ++ [{| do_resource_id := "42"; do_name := "web-20241202133234";
                   do_id := "106"; do_created_at := Some 1733146354000000 |}])])
    [].

(** The same, but the creation never finishes within 10 seconds. *)
Definition hasty_config : Config :=
  {| DELAY_BETWEEN_SERVERS := 5; SNAPSHOT_CREATION_TIMEOUT := 10;
     TELEGRAM_BOT_TOKEN := None; TELEGRAM_CHAT_ID := None;
     TELEGRAM_RETRIES := 3; TELEGRAM_BASE_DELAY_BETWEEN_RETRIES := 2;
     WEBHOOK_URL := None; WEBHOOK_RETRIES := 3;
     WEBHOOK_BASE_DELAY_BETWEEN_RETRIES := 2 |}.

Definition five_snapshots_creation_times_out : World :=
  world_at 0
    (listing_of five_items
     :: firstn 3 never_finishes
     ++ [reply (Responded 204 None); reply (Responded 204 None);
         listing_of (skipn 2 five_items)])
    [].

(** No provider can be reached. *)
Definition network_down : World := world_at 0 [] [].

(** A server with a webhook. *)
Definition hooked : ServerConfig :=
  {| provider := "digitalocean"; server_id := "43"; server_name := "api";
     api_token := "dop_v1_0123456789"; retain_last_snapshots := 1;
     telegram_enabled := false; telegram_bot_token := None;
     telegram_chat_id := None; webhook_enabled := true;
     webhook_url := Some "https://hooks.example/n"%string |}.

(** The providers cannot be reached (three requests fail), and the call
    that posts to the webhook raises an exception that is no
    [RequestException]; after that the network is down. *)
Definition webhook_call_crashes : World :=
  world_at 0 [reply Failed; reply Failed; reply Failed; reply Crashed] [].

(** Three snapshots to delete and the answers 404, no answer, 500. *)
Definition three_to_delete : list Snapshot :=
  [mk_snapshot "103" "web-20241129120000" 1732881600000000;
   mk_snapshot "102" "web-20241128120000" 1732795200000000;
   mk_snapshot "101" "web-20241127120000" 1732708800000000].

Definition deletions_go_wrong : World :=
  world_at 0 [reply (Responded 404 None); reply Failed; reply (Responded 500 None)] [].

(* ================================================================= *)
(** ** Vocabulary of the further statements *)




(** A reply that carries the last page of a listing: a page without items,
    or one without a pointer to a next page. *)
Definition do_last_page (r : Reply) (page : Json) : Prop :=
  exists status,
    answer r = Responded status (Some page)
    /\ ~ (400 <= status < 600)
    /\ (js_snapshots page = [] \/ js_links_next page = false).

Definition hz_last_page (r : Reply) (page : Json) : Prop :=
  exists status,
    answer r = Responded status (Some page)
    /\ ~ (400 <= status < 600)
    /\ (js_images page = [] \/ js_next_page page = false).

(** The record [get_digitalocean_snapshots] builds from an item. *)
Definition do_record (item : DoItem) (t : Z) : Snapshot :=
  {| snap_id := do_id item; snap_name := do_name item; created_at := t |}.

Definition hz_record (item : HzItem) (t : Z) : Snapshot :=
  {| snap_id := hz_id item; snap_name := hz_description item; created_at := t |}.

(** Two pages of DigitalOcean's listing: the first as above, the second
    with a snapshot of another droplet whose name contains "web", one whose
    date does not parse and one that has nothing to do with "web". *)
Definition do_second_page : Json :=
  {| js_snapshots :=
       [{| do_resource_id := "43"; do_name := "web2-20241130120000";
           do_id := "201"; do_created_at := Some 1732968000000000 |};
        {| do_resource_id := "42"; do_name := "web-broken";
           do_id := "102"; do_created_at := None |};
        {| do_resource_id := "44"; do_name := "db-20241130120000";
           do_id := "301"; do_created_at := Some 1732968000000000 |}];
     js_links_next := false; js_images := []; js_next_page := false;
     js_action_id := None; js_image_id := None; js_action_status := "unknown" |}.

Definition do_two_pages : World :=
  world_at 0 [reply (Responded 200 (Some do_first_page));
              reply (Responded 200 (Some do_second_page))] [].

(** A poll answer after which [_wait_for_digitalocean_action] goes on
    waiting: a transport error, a 4xx or 5xx status, or an action status
    other than the two terminal ones. *)
Definition do_pending (r : Reply) : Prop :=
  match answer r with
  | Responded status body =>
      400 <= status < 600
      \/ exists data,
           body = Some data
           /\ js_action_status data <> "completed"%string
           /\ js_action_status data <> "errored"%string
  | Failed => True
  | Crashed => False
  end.

Definition hz_pending (r : Reply) : Prop :=
  match answer r with
  | Responded status body =>
      400 <= status < 600
      \/ exists data,
           body = Some data
           /\ js_action_status data <> "success"%string
           /\ js_action_status data <> "error"%string
  | Failed => True
  | Crashed => False
  end.

(** [k] rounds of polling: a request and a sleep of five seconds each. *)
Definition poll_rounds (req : Request) (k : nat) : list Event :=
  List.concat (repeat [Http req; Slept 5] k).

(** A reply to the request that asks for the snapshot after which
    [create_digitalocean_snapshot] has no action to poll: the request
    failed, or the response carries no action id (none, or 0). *)
Definition do_not_accepted (r : Reply) : Prop :=
  request_failure r
  \/ exists status data,
       answer r = Responded status (Some data)
       /\ ~ (400 <= status < 600)
       /\ truthy_num (js_action_id data) = false.

(** The same for Hetzner, which wants an action id and an image id. *)
Definition hz_not_accepted (r : Reply) : Prop :=
  request_failure r
  \/ exists status data,
       answer r = Responded status (Some data)
       /\ ~ (400 <= status < 600)
       /\ truthy_num (js_action_id data) && truthy_num (js_image_id data) = false.

(** A server whose configuration file names a provider the script has no
    client for ([load_configs] takes the "provider" field as it is when it
    differs from the key of the file). *)
Definition elsewhere : ServerConfig :=
  {| provider := "aws"; server_id := "i-0123"; server_name := "batch";
     api_token := "AKIA0123456789"; retain_last_snapshots := 2;
     telegram_enabled := false; telegram_bot_token := None;
     telegram_chat_id := None; webhook_enabled := false; webhook_url := None |}.

(** A call into [requests] that ends with a response or with a
    [RequestException], not with an exception of another kind. *)
Definition not_crashed (r : Reply) : Prop := answer r <> Crashed.

(** [m] takes its answers from the front of the script and leaves the rest. *)
Definition shrinks {A} (m : M A) : Prop :=
  forall w, exists k, network (snd (m w)) = skipn k (network w).

(** With no crashing call to come, [m] returns, and no crashing call is to
    come after it. *)
Definition calm {A} (m : M A) : Prop :=
  forall w,
    Forall not_crashed (network w) ->
    Forall not_crashed (network (snd (m w))) /\ exists a, fst (m w) = Ok a.

(** The same, but [m] may also raise a [RequestException]. *)
Definition semi_calm {A} (m : M A) : Prop :=
  forall w,
    Forall not_crashed (network w) ->
    Forall not_crashed (network (snd (m w)))
    /\ ((exists a, fst (m w) = Ok a) \/ fst (m w) = Raised RequestException).

(** A server with both channels, and answers none of which is a crash: the
    providers refuse everything with a 503 or are not reached. *)
Definition notified : ServerConfig :=
  {| provider := "hetzner"; server_id := "78"; server_name := "mail";
     api_token := "hz_0123456789"; retain_last_snapshots := 1;
     telegram_enabled := true; telegram_bot_token := Some "123:abc"%string;
     telegram_chat_id := Some "-1001"%string; webhook_enabled := true;
     webhook_url := Some "https://hooks.example/n"%string |}.

Definition everything_refused : World :=
  world_at 0 (repeat (reply (Responded 503 None)) 4 ++ [reply Failed]) [].

(* ================================================================= *)
(** ** Loading a server's notification settings *)

(** The two switches of [snapshots.config]: [TELEGRAM_ENABLED] and
    [WEBHOOK_ENABLED]. *)
Record Switches := { TELEGRAM_ENABLED : bool; WEBHOOK_ENABLED : bool }.

(** What [load_configs] holds of one configuration file when it has read
    and checked it (line 586 for Telegram, line 632 for the webhook).
    [sd_telegram_enabled] and [sd_webhook_enabled] are the "enabled" keys:
    [Some b] for the JSON booleans, [None] when the key is absent or holds
    anything else (the code tests [is True] and [is False]).  The credentials
    are the local variables [telegram_bot_token], [telegram_chat_id] and
    [webhook_url] after the placeholder check: [None], or the stripped value
    of the file. *)
Record ServerData := {
  sd_provider : string;
  sd_id : string;
  sd_name : string;
  sd_api_token : string;
  sd_retain_last_snapshots : Z;
  sd_telegram_enabled : option bool;
  sd_telegram_bot_token : option string;
  sd_telegram_chat_id : option string;
  sd_webhook_enabled : option bool;
  sd_webhook_url : option string
}.

(** Lines 587-618 of [load_configs]: the values of [telegram_enabled],
    [telegram_bot_token] and [telegram_chat_id] after them. *)
Definition load_configs_telegram (cfg : Config) (sw : Switches) (d : ServerData)
  : M (bool * (option string * option string)) :=
  let telegram_bot_token := sd_telegram_bot_token d in
  let telegram_chat_id := sd_telegram_chat_id d in
  match sd_telegram_enabled d with
  | Some true =>
      if negb (truthy telegram_bot_token) || negb (truthy telegram_chat_id) then
        if truthy (TELEGRAM_BOT_TOKEN cfg) && truthy (TELEGRAM_CHAT_ID cfg) then
          ret (true, (TELEGRAM_BOT_TOKEN cfg, TELEGRAM_CHAT_ID cfg))
        else
          log ERROR "[CONFIG] Telegram enabled in JSON but no credentials found" ;;;
          ret (false, (telegram_bot_token, telegram_chat_id))
      else ret (true, (telegram_bot_token, telegram_chat_id))
  | Some false => ret (false, (telegram_bot_token, telegram_chat_id))
  | None =>
      if TELEGRAM_ENABLED sw then
        let telegram_bot_token :=
          if negb (truthy telegram_bot_token) && truthy (TELEGRAM_BOT_TOKEN cfg)
          then TELEGRAM_BOT_TOKEN cfg else telegram_bot_token in
        let telegram_chat_id :=
          if negb (truthy telegram_chat_id) && truthy (TELEGRAM_CHAT_ID cfg)
          then TELEGRAM_CHAT_ID cfg else telegram_chat_id in
        ret (true, (telegram_bot_token, telegram_chat_id))
      else ret (false, (telegram_bot_token, telegram_chat_id))
  end.

(** Lines 633-661: the values of [webhook_enabled] and [webhook_url] after
    them. *)
Definition load_configs_webhook (cfg : Config) (sw : Switches) (d : ServerData)
  : M (bool * option string) :=
  let webhook_url := sd_webhook_url d in
  match sd_webhook_enabled d with
  | Some true =>
      if negb (truthy webhook_url) then
        if truthy (WEBHOOK_URL cfg) then ret (true, WEBHOOK_URL cfg)
        else
          log ERROR "[CONFIG] Webhook enabled in JSON but no URL found" ;;;
          ret (false, webhook_url)
      else ret (true, webhook_url)
  | Some false => ret (false, webhook_url)
  | None =>
      if WEBHOOK_ENABLED sw then
        let webhook_url :=
          if negb (truthy webhook_url) && truthy (WEBHOOK_URL cfg)
          then WEBHOOK_URL cfg else webhook_url in
        ret (true, webhook_url)
      else ret (false, webhook_url)
  end.

(** [x if x else None] *)
Definition or_none (x : option string) : option string :=
  if truthy x then x else None.

(** Lines 587-681 of [load_configs]: the [ServerConfig] that is appended to
    [servers] for a file that has passed the checks. *)
Definition load_configs_server (cfg : Config) (sw : Switches) (d : ServerData)
  : M ServerConfig :=
  t <- load_configs_telegram cfg sw d ;;
  h <- load_configs_webhook cfg sw d ;;
  ret {| provider := sd_provider d;
         server_id := sd_id d;
         server_name := sd_name d;
         api_token := sd_api_token d;
         retain_last_snapshots := sd_retain_last_snapshots d;
         telegram_enabled := fst t;
         telegram_bot_token := or_none (fst (snd t));
         telegram_chat_id := or_none (snd (snd t));
         webhook_enabled := fst h;
         webhook_url := or_none (snd h) |}.

(** No request to Telegram. *)
Definition no_telegram (e : Event) : Prop :=
  match e with
  | Http (TelegramSend _ _) => False
  | _ => True
  end.

(** No request to a webhook. *)
Definition no_webhook (e : Event) : Prop :=
  match e with
  | Http (WebhookPost _) => False
  | _ => True
  end.

(** A notification goes to [token] and [chat], or to [url], and nowhere
    else. *)
Definition addressed_to (token chat url : string) (e : Event) : Prop :=
  match e with
  | Http (TelegramSend t c) => t = token /\ c = chat
  | Http (WebhookPost u) => u = url
  | _ => True
  end.

(** A file that switches both channels on and names a bot token only, and a
    file that says nothing about notifications. *)
Definition token_only : ServerData :=
  {| sd_provider := "digitalocean"; sd_id := "12345"; sd_name := "web";
     sd_api_token := "dop_v1_0123456789"; sd_retain_last_snapshots := 2;
     sd_telegram_enabled := Some true;
     sd_telegram_bot_token := Some "111:own"%string;
     sd_telegram_chat_id := None;
     sd_webhook_enabled := Some true; sd_webhook_url := None |}.

Definition says_nothing : ServerData :=
  {| sd_provider := "digitalocean"; sd_id := "12345"; sd_name := "web";
     sd_api_token := "dop_v1_0123456789"; sd_retain_last_snapshots := 2;
     sd_telegram_enabled := None;
     sd_telegram_bot_token := Some "111:own"%string;
     sd_telegram_chat_id := None;
     sd_webhook_enabled := None; sd_webhook_url := None |}.

(** A [snapshots.config] with both global channels filled in, and its
    switches turned off. *)
Definition global_channels : Config :=
  {| DELAY_BETWEEN_SERVERS := 5; SNAPSHOT_CREATION_TIMEOUT := 900;
     TELEGRAM_BOT_TOKEN := Some "999:global"%string;
     TELEGRAM_CHAT_ID := Some "-42"%string;
     TELEGRAM_RETRIES := 3; TELEGRAM_BASE_DELAY_BETWEEN_RETRIES := 2;
     WEBHOOK_URL := Some "https://hooks.example/global"%string;
     WEBHOOK_RETRIES := 3; WEBHOOK_BASE_DELAY_BETWEEN_RETRIES := 2 |}.

Definition switches_off : Switches :=
  {| TELEGRAM_ENABLED := false; WEBHOOK_ENABLED := false |}.

Definition switches_on : Switches :=
  {| TELEGRAM_ENABLED := true; WEBHOOK_ENABLED := true |}.

(** What the steps before [write_final_status] put on the record: calls to
    the provider, waits and log records. *)
Definition provider_event (e : Event) : Prop :=
  match e with
  | Http (TelegramSend _ _) | Http (WebhookPost _) | FinalStatus _ => False
  | _ => True
  end.

(** The credentials a server carries are complete wherever the global ones
    are, so that [write_final_status] has no use for its second look at
    the global ones. *)
Definition settled (cfg : Config) (server : ServerConfig) : Prop :=
  (telegram_enabled server = true ->
   truthy (TELEGRAM_BOT_TOKEN cfg) && truthy (TELEGRAM_CHAT_ID cfg) = true ->
   truthy (telegram_bot_token server) && truthy (telegram_chat_id server) = true)
  /\ (webhook_enabled server = true ->
      truthy (WEBHOOK_URL cfg) = true ->
      truthy (webhook_url server) = true).

(** The first thing [m] puts on the record is [e]. *)
Definition begins {A} (e : Event) (m : M A) : Prop :=
  forall w, exists tail, events (snd (m w)) = events w ++ e :: tail.

(** The ERROR records among some events. *)
Fixpoint errors_of (evs : list Event) : list string :=
  match evs with
  | [] => []
  | Logged ERROR msg :: rest => msg :: errors_of rest
  | _ :: rest => errors_of rest
  end.

(** A file that switches both channels off, whatever [snapshots.config]
    says. *)
Definition opted_out : ServerData :=
  {| sd_provider := "hetzner"; sd_id := "78"; sd_name := "mail";
     sd_api_token := "hz_0123456789"; sd_retain_last_snapshots := 1;
     sd_telegram_enabled := Some false;
     sd_telegram_bot_token := Some "111:own"%string;
     sd_telegram_chat_id := Some "-7"%string;
     sd_webhook_enabled := Some false;
     sd_webhook_url := Some "https://hooks.example/own"%string |}.

(** Two polls and a request for a snapshot that are refused with a 503. *)
Definition refused_twice : World :=
  world_at 0 [reply (Responded 503 None); reply (Responded 503 None)] [].

(* ================================================================= *)
(** ** Templates of messages and payloads *)

(** [s.replace(old, new)] for an [old] that is not empty, as the
    placeholders are: the occurrences of [old] are found from left to right
    and do not overlap.  [skip] counts the characters of the occurrence just
    replaced that are still to be passed over. *)
Fixpoint replace_from (skip : nat) (old new s : string) : string :=
  match s with
  | EmptyString => EmptyString
  | String c rest =>
      match skip with
      | S k => replace_from k old new rest
      | O =>
          if String.prefix old s then
            new ++ replace_from (String.length old - 1) old new rest
          else String c (replace_from 0 old new rest)
      end
  end.

Definition str_replace (old new s : string) : string := replace_from 0 old new s.

(** [str(n)] for a count. *)
Definition str_of_nat (n : nat) : string := NilZero.string_of_uint (Nat.to_uint n).

(** The dictionary [replacements], in the order it is written, which is the
    order in which [items()] yields it.  [status_upper] is [status.upper()]. *)
Definition replacements (server : ServerConfig) (snapshot_name : string)
    (total_snapshots : nat) (status_upper hostname timestamp : string)
  : list (string * string) :=
  [ ("{script}", "snapshots.py");
    ("{provider}", provider server);
    ("{server_name}", server_name server);
    ("{server_id}", server_id server);
    ("{droplet_name}", server_name server);
    ("{droplet_id}", server_id server);
    ("{snapshot_name}", snapshot_name);
    ("{total_snapshots}", str_of_nat total_snapshots);
    ("{snapshot_info}", str_of_nat total_snapshots ++ " snapshots exist");
    ("{status}", status_upper);
    ("{hostname}", hostname);
    ("{timestamp}", timestamp) ]%string.

(** [for placeholder, value in replacements.items():
       result = result.replace(placeholder, value)] *)
Definition replace_all (table : list (string * string)) (template : string) : string :=
  fold_left (fun result pv => str_replace (fst pv) (snd pv) result) table template.

Definition replace_template_variables (template : string) (server : ServerConfig)
    (snapshot_name : string) (total_snapshots : nat)
    (status_upper hostname timestamp : string) : string :=
  replace_all
    (replacements server snapshot_name total_snapshots status_upper hostname timestamp)
    template.

(** A JSON value as [json.load] and [json.loads] return it: a string, a
    [dict] (its keys in order), a [list], or a number, [True], [False] or
    [None], which the templates pass through and which is kept as its
    literal. *)
#[local] Unset Elimination Schemes.
Inductive JValue :=
| JString (s : string)
| JObject (fields : list (string * JValue))
| JArray (items : list JValue)
| JOther (literal : string).
#[local] Set Elimination Schemes.

(** What [replace_template_variables_dict] stores under a key whose value is
    [v]; [sub] is the replacement in a string.  A string is filled in, a
    [dict] is gone through in the same way, and of the items of a [list] the
    [dict]s and the strings are, while a list in a list is left as it is. *)
Fixpoint replace_value (sub : string -> string) (v : JValue) : JValue :=
  match v with
  | JString s => JString (sub s)
  | JObject fields =>
      JObject (map (fun kv => (fst kv, replace_value sub (snd kv))) fields)
  | JArray items =>
      JArray (map (fun item =>
                     match item with
                     | JObject fields =>
                         JObject (map (fun kv => (fst kv, replace_value sub (snd kv)))
                                    fields)
                     | JString s => JString (sub s)
                     | _ => item
                     end) items)
  | JOther _ => v
  end.

(** [replace_template_variables_dict]: [template_dict.items()] raises
    [AttributeError] on anything but a [dict]. *)
Definition replace_template_variables_dict (sub : string -> string)
    (template_dict : JValue) : M (list (string * JValue)) :=
  match template_dict with
  | JObject fields =>
      ret (map (fun kv => (fst kv, replace_value sub (snd kv))) fields)
  | _ => raise OtherException
  end.

(** The payload templates: those of the server's file ([None], or the
    [dict] that [load_configs] kept) and the global ones of
    [snapshots.config] ([None] when empty; otherwise what [json.loads] makes
    of the text, [Some None] when it raises [JSONDecodeError]). *)
Record Templates := {
  webhook_payload_success : option (list (string * JValue));
  webhook_payload_failure : option (list (string * JValue));
  WEBHOOK_PAYLOAD_SUCCESS : option (option JValue);
  WEBHOOK_PAYLOAD_FAILURE : option (option JValue)
}.

(** One branch of lines 1368-1401 of [write_final_status]: the server's
    template when it has one that is not empty, else the global one; [None]
    stands for a [payload] that is still [None]. *)
Definition custom_payload (sub : string -> string)
    (own : option (list (string * JValue))) (fallback : option (option JValue))
  : M (option (list (string * JValue))) :=
  match own with
  | Some (field :: fields) =>
      payload <- replace_template_variables_dict sub (JObject (field :: fields)) ;;
      ret (Some payload)
  | _ =>
      match fallback with
      | Some (Some fallback_payload) =>
          payload <- replace_template_variables_dict sub fallback_payload ;;
          ret (Some payload)
      | Some None =>
          log WARNING "[NOTIFICATIONS] Invalid JSON in fallback payload template" ;;;
          ret None
      | None => ret None
      end
  end.

(** [create_notification_data] *)
Definition create_notification_data (script_name server_name server_id status_upper
    hostname timestamp snapshot_name : string) (total_snapshots : nat)
    (provider : string) : list (string * JValue) :=
  [ ("script", JString script_name);
    ("provider", JString provider);
    ("server", JString server_name);
    ("server_id", JString server_id);
    ("status", JString status_upper);
    ("hostname", JString hostname);
    ("timestamp", JString timestamp);
    ("snapshot_name", JString snapshot_name);
    ("total_snapshots", JOther (str_of_nat total_snapshots));
    ("snapshot_info", JString (str_of_nat total_snapshots ++ " snapshots exist")) ]%string.

(** Lines 1366-1413 of [write_final_status]: the payload that is handed to
    [send_webhook_notification]. *)
Definition webhook_payload (tpl : Templates) (server : ServerConfig)
    (snapshot_name : string) (total_snapshots : nat)
    (status_upper hostname timestamp : string) : M (list (string * JValue)) :=
  let sub s :=
    replace_template_variables s server snapshot_name total_snapshots
      status_upper hostname timestamp in
  payload <-
    (if String.eqb status_upper "SUCCESS" then
       custom_payload sub (webhook_payload_success tpl) (WEBHOOK_PAYLOAD_SUCCESS tpl)
     else if String.eqb status_upper "FAILURE" then
       custom_payload sub (webhook_payload_failure tpl) (WEBHOOK_PAYLOAD_FAILURE tpl)
     else ret None) ;;
  match payload with
  | Some p => ret p
  | None =>
      ret (create_notification_data "snapshots.py" (server_name server)
             (server_id server) status_upper hostname timestamp snapshot_name
             total_snapshots (provider server))
  end.

(** [write_final_status] with the payload of the webhook: the FINAL_STATUS
    line and the Telegram message as in [write_final_status] above (the
    message templates are strings and are filled in without an effect), then
    the payload, then the webhook. *)
Definition write_final_status_with_payload (cfg : Config) (tpl : Templates)
    (server : ServerConfig) (snapshot_name : string) (total_snapshots : nat)
    (status status_upper hostname timestamp : string) : M unit :=
  emit (FinalStatus {| rr_provider := provider server;
                       rr_server := server_name server;
                       rr_status := status;
                       rr_snapshot_name := snapshot_name;
                       rr_total_snapshots := total_snapshots |}) ;;;
  (if telegram_enabled server then
     if truthy (telegram_bot_token server) && truthy (telegram_chat_id server) then
       send_telegram_notification cfg (telegram_bot_token server)
         (telegram_chat_id server) None None ;;; ret tt
     else if truthy (TELEGRAM_BOT_TOKEN cfg) && truthy (TELEGRAM_CHAT_ID cfg) then
       send_telegram_notification cfg None None None None ;;; ret tt
     else ret tt
   else ret tt) ;;;
  let webhook_url_to_use :=
    if webhook_enabled server then
      if truthy (webhook_url server) then webhook_url server
      else if truthy (WEBHOOK_URL cfg) then WEBHOOK_URL cfg
      else None
    else None in
  if truthy webhook_url_to_use then
    webhook_payload tpl server snapshot_name total_snapshots status_upper hostname
      timestamp ;;;
    send_webhook_notification cfg webhook_url_to_use
      (Some (WEBHOOK_RETRIES cfg)) (Some (WEBHOOK_BASE_DELAY_BETWEEN_RETRIES cfg)) ;;;
    ret tt
  else ret tt.

(** No opening brace in a string, in a value. *)
Fixpoint no_brace (s : string) : bool :=
  match s with
  | EmptyString => true
  | String c rest => negb (Ascii.eqb c "{") && no_brace rest
  end.

Fixpoint plain (v : JValue) : bool :=
  match v with
  | JString s => no_brace s
  | JObject fields => forallb (fun kv => plain (snd kv)) fields
  | JArray items => forallb plain items
  | JOther _ => true
  end.

(** Two strings that differ at a position both of them have, so that
    neither begins the other. *)
Fixpoint clash (a b : string) : bool :=
  match a, b with
  | String x a', String y b' => if Ascii.eqb x y then clash a' b' else true
  | _, _ => false
  end.

(** A placeholder: an opening brace and a name without one. *)
Definition placeholder (k : string) : bool :=
  match k with
  | String c body => Ascii.eqb c "{" && no_brace body
  | EmptyString => false
  end.

(** The keys of a table are placeholders no one of which begins with
    another. *)
Fixpoint placeholders (keys : list string) : bool :=
  match keys with
  | [] => true
  | k :: rest =>
      placeholder k && forallb (clash k) rest && placeholders rest
  end.

(** Every item of an array is an array or a literal. *)
Definition no_text_items (items : list JValue) : bool :=
  forallb (fun item => match item with JArray _ | JOther _ => true | _ => false end)
    items.

(** The templates that [webhook_payload] takes without an effect: the
    server's own when it is not empty, else no global one or a global one
    that is a JSON object. *)
Definition usable (own : option (list (string * JValue)))
    (fallback : option (option JValue)) : bool :=
  match own with
  | Some (_ :: _) => true
  | _ =>
      match fallback with
      | None | Some (Some (JObject _)) => true
      | _ => false
      end
  end.

(** A global template that is JSON, but not a JSON object. *)
Definition not_an_object (fallback : option (option JValue)) : bool :=
  match fallback with
  | Some (Some (JObject _)) => false
  | Some (Some _) => true
  | _ => false
  end.

(** A server whose file has no payload template of its own. *)
Definition no_own_template (own : option (list (string * JValue))) : bool :=
  match own with
  | Some (_ :: _) => false
  | _ => true
  end.

(** The replacement that [replace_template_variables_dict] makes in the
    strings of a payload. *)
Definition fill_in (server : ServerConfig) (snapshot_name : string)
    (total_snapshots : nat) (status_upper hostname timestamp : string)
  : string -> string :=
  fun s =>
    replace_template_variables s server snapshot_name total_snapshots
      status_upper hostname timestamp.

(** A payload template with a message, a nested object and a list of lists. *)
Definition report_template : list (string * JValue) :=
  [ ("text", JString "{server_name}: {status}");
    ("meta", JObject [("host", JString "{hostname}"); ("count", JOther "3")]);
    ("tags", JArray [JArray [JString "{provider}"]; JOther "7"]) ]%string.

(** No templates at all, and a [snapshots.config] whose template for the
    payload of a success is a JSON list. *)
Definition no_templates : Templates :=
  {| webhook_payload_success := None; webhook_payload_failure := None;
     WEBHOOK_PAYLOAD_SUCCESS := None; WEBHOOK_PAYLOAD_FAILURE := None |}.

Definition list_as_template : Templates :=
  {| webhook_payload_success := None; webhook_payload_failure := None;
     WEBHOOK_PAYLOAD_SUCCESS := Some (Some (JArray [JString "{server_name}"]));
     WEBHOOK_PAYLOAD_FAILURE := None |}.



(* ================================================================= *)
(** ** The workflow and the run with the payload of the webhook *)

(** [datetime.datetime.now().strftime("%Y-%m-%d %H:%M:%S")], the timestamp
    of [write_final_status]. *)
Definition strftime_Y_m_d_H_M_S (seconds : Z) : string :=
  let '(y, m, d) := civil_from_days (seconds / 86400) in
  let s := seconds mod 86400 in
  (zero_pad 4 y ++ "-" ++ zero_pad 2 m ++ "-" ++ zero_pad 2 d ++ " "
   ++ zero_pad 2 (s / 3600) ++ ":" ++ zero_pad 2 (s mod 3600 / 60) ++ ":"
   ++ zero_pad 2 (s mod 60))%string.

(** [manage_snapshots_for_server] with the whole of [write_final_status]:
    the steps of [manage_snapshots_for_server] above, then the local
    timestamp and [write_final_status] with the payload of the webhook.
    [tpl] holds the payload templates of the server's file and of
    [snapshots.config], [hostname] is [os.uname().nodename], and
    [status.upper()] of "success" and "failure" is "SUCCESS" and
    "FAILURE". *)
Definition manage_snapshots_for_server_with_payload (cfg : Config) (tpl : Templates)
    (hostname : string) (server : ServerConfig) : M unit :=
  listed <- get_snapshots server ;;
  snapshots <- new_list listed ;;
  to_delete <- identify_snapshots_to_delete server snapshots
                 (retain_last_snapshots server) ;;
  snapshot_name <- create_snapshot cfg server ;;
  (match to_delete with
   | [] => ret tt
   | _ => delete_snapshots server to_delete
   end) ;;;
  updated_snapshots <- get_snapshots server ;;
  let total_snapshots := List.length updated_snapshots in
  let status := if truthy snapshot_name then "success"%string else "failure"%string in
  let status_upper :=
    if truthy snapshot_name then "SUCCESS"%string else "FAILURE"%string in
  now <- datetime_now ;;
  write_final_status_with_payload cfg tpl server
    (if truthy snapshot_name then str_of snapshot_name else "none"%string)
    total_snapshots status status_upper hostname (strftime_Y_m_d_H_M_S now).







(* ================================================================= *)
(** ** The stable sort *)

Lemma insert_desc_perm (x : Snapshot) (l : list Snapshot) :
  Permutation (insert_desc x l) (x :: l).
Proof.
  induction l as [|y l IH]; simpl.
  - apply Permutation_refl.
  - destruct (created_at y <=? created_at x).
    + apply Permutation_refl.
    + eapply perm_trans; [apply perm_skip, IH | apply perm_swap].
Qed.

Lemma sort_created_at_reverse_perm (l : list Snapshot) :
  Permutation (sort_created_at_reverse l) l.
Proof.
  induction l as [|x l IH]; simpl.
  - apply perm_nil.
  - eapply perm_trans; [apply insert_desc_perm | apply perm_skip, IH].
Qed.

Lemma insert_desc_descending (x : Snapshot) (l : list Snapshot) :
  descending l -> descending (insert_desc x l).
Proof.
  unfold descending.
  induction l as [|y l IH]; intros Hl; simpl.
  - constructor; constructor.
  - inversion Hl as [|? ? Hl' Hy]; subst.
    destruct (created_at y <=? created_at x) eqn:E.
    + apply Z.leb_le in E.
      constructor; [assumption|].
      constructor; [assumption|].
      eapply Forall_impl; [|exact Hy].
      simpl; intros; lia.
    + apply Z.leb_gt in E.
      constructor; [apply IH; assumption|].
      eapply Permutation_Forall; [apply Permutation_sym, insert_desc_perm|].
      constructor; [lia | assumption].
Qed.

Lemma sort_created_at_reverse_descending (l : list Snapshot) :
  descending (sort_created_at_reverse l).
Proof.
  induction l as [|x l IH]; simpl.
  - constructor.
  - apply insert_desc_descending, IH.
Qed.

(** Stability: a list that is already newest-first is left as it is. *)
Lemma sort_created_at_reverse_fixed (l : list Snapshot) :
  descending l -> sort_created_at_reverse l = l.
Proof.
  unfold descending.
  induction l as [|x l IH]; intros Hl; simpl; [reflexivity|].
  inversion Hl as [|? ? Hl' Hx]; subst.
  rewrite (IH Hl').
  destruct l as [|y l]; simpl; [reflexivity|].
  inversion Hx; subst.
  destruct (created_at y <=? created_at x) eqn:E; [reflexivity|].
  apply Z.leb_gt in E; lia.
Qed.

Lemma descending_app_le (l1 l2 : list Snapshot) :
  descending (l1 ++ l2) ->
  forall d k, In d l2 -> In k l1 -> created_at d <= created_at k.
Proof.
  unfold descending.
  induction l1 as [|x l1 IH]; simpl; intros H d k Hd Hk; [contradiction|].
  inversion H as [|? ? H' Hx]; subst.
  destruct Hk as [->|Hk].
  - rewrite Forall_forall in Hx. apply Hx. apply in_or_app; right; assumption.
  - eapply IH; eassumption.
Qed.

Lemma descending_app_r (l1 l2 : list Snapshot) :
  descending (l1 ++ l2) -> descending l2.
Proof.
  unfold descending.
  induction l1 as [|x l1 IH]; simpl; intros H; [assumption|].
  inversion H; subst. apply IH; assumption.
Qed.

(** *** The slice *)

Lemma slice_from_nonneg {A} (l : list A) (r : Z) :
  0 <= r -> slice_from l r = skipn (Z.to_nat r) l.
Proof.
  intros Hr. unfold slice_from.
  destruct (r <? 0) eqn:E; [apply Z.ltb_lt in E; lia|].
  destruct (Z.le_gt_cases r (Z.of_nat (List.length l))) as [H|H].
  - rewrite Z.min_l by lia. reflexivity.
  - rewrite Z.min_r by lia. rewrite Nat2Z.id.
    rewrite skipn_all. symmetry. apply skipn_all2. lia.
Qed.

(** *** The call *)

Lemma nth_set_nth {A} (n : nat) (x d : A) (l : list A) :
  (n < List.length l)%nat -> nth n (set_nth n x l) d = x.
Proof.
  revert n; induction l as [|y l IH]; intros [|n] H; simpl in *; try lia.
  - reflexivity.
  - apply IH; lia.
Qed.

Lemma nth_set_nth_other {A} (n m : nat) (x d : A) (l : list A) :
  m <> n -> nth m (set_nth n x l) d = nth m l d.
Proof.
  revert n m; induction l as [|y l IH]; intros [|n] [|m] H; simpl;
    try reflexivity; try congruence.
  apply IH; congruence.
Qed.

Lemma set_nth_beyond {A} (n : nat) (x : A) (l : list A) :
  (List.length l <= n)%nat -> set_nth n x l = l.
Proof.
  revert n; induction l as [|y l IH]; intros [|n] H; simpl in *; try lia;
    try reflexivity.
  f_equal; apply IH; lia.
Qed.

(** What the call does to the world: the caller's list object is sorted,
    nothing else moves, and the result is the tail of the sorted list. *)
Lemma identify_snapshots_to_delete_eq (server : ServerConfig) (snapshots : Ref)
    (retain : Z) (w : World) :
  identify_snapshots_to_delete server snapshots retain w =
  (Ok (slice_from (sort_created_at_reverse (deref w snapshots)) retain),
   {| clock := clock w; utc_offset := utc_offset w; network := network w;
      heap := set_nth snapshots (sort_created_at_reverse (deref w snapshots)) (heap w);
      events := events w |}).
Proof.
  unfold identify_snapshots_to_delete, bind, read_list, write_list, ret, deref.
  simpl.
  destruct (Nat.lt_ge_cases snapshots (List.length (heap w))) as [H|H].
  - rewrite nth_set_nth by assumption. reflexivity.
  - rewrite set_nth_beyond by assumption.
    rewrite (nth_overflow (heap w) [] H). reflexivity.
Qed.

Lemma deref_after_identify (snapshots : Ref) (w : World) :
  deref {| clock := clock w; utc_offset := utc_offset w; network := network w;
           heap := set_nth snapshots (sort_created_at_reverse (deref w snapshots)) (heap w);
           events := events w |} snapshots
  = sort_created_at_reverse (deref w snapshots).
Proof.
  unfold deref; simpl.
  destruct (Nat.lt_ge_cases snapshots (List.length (heap w))) as [H|H].
  - apply nth_set_nth; assumption.
  - rewrite set_nth_beyond by assumption.
    rewrite (nth_overflow (heap w) [] H). reflexivity.
Qed.

(* ================================================================= *)
(** ** Retention selector *)

(** C1, as amended.  For every retain count [r >= 0] and every list [S] the
    caller holds, [identify_snapshots_to_delete] returns exactly
    [max(0, |S| - r)] records; the caller's list then reads [kept ++ to_delete]
    with [kept] the [min(r, |S|)] most recent records; every returned record
    is as old as or older than every kept one (a tie in the creation
    timestamp is possible); and the returned records are in descending
    timestamp order. *)
Theorem identify_keeps_most_recent (server : ServerConfig) (snapshots : Ref)
    (r : Z) (w : World) :
  0 <= r ->
  exists kept to_delete w',
    identify_snapshots_to_delete server snapshots r w = (Ok to_delete, w')
    /\ deref w' snapshots = kept ++ to_delete
    /\ Permutation (kept ++ to_delete) (deref w snapshots)
    /\ Z.of_nat (List.length to_delete)
       = Z.max 0 (Z.of_nat (List.length (deref w snapshots)) - r)
    /\ Z.of_nat (List.length kept)
       = Z.min r (Z.of_nat (List.length (deref w snapshots)))
    /\ (forall d k, In d to_delete -> In k kept -> created_at d <= created_at k)
    /\ descending to_delete.
Proof.
  intros Hr.
  set (sorted := sort_created_at_reverse (deref w snapshots)).
  exists (firstn (Z.to_nat r) sorted), (skipn (Z.to_nat r) sorted).
  eexists. rewrite identify_snapshots_to_delete_eq.
  fold sorted. rewrite slice_from_nonneg by assumption.
  split; [reflexivity|].
  rewrite deref_after_identify. fold sorted.
  rewrite firstn_skipn.
  assert (Hlen : List.length sorted = List.length (deref w snapshots))
    by (apply Permutation_length, sort_created_at_reverse_perm).
  assert (Hdesc : descending (firstn (Z.to_nat r) sorted ++ skipn (Z.to_nat r) sorted))
    by (rewrite firstn_skipn; apply sort_created_at_reverse_descending).
  repeat split.
  - apply sort_created_at_reverse_perm.
  - rewrite length_skipn, Hlen. lia.
  - rewrite length_firstn, Hlen. lia.
  - apply descending_app_le; assumption.
  - eapply descending_app_r; eassumption.
Qed.

(** A list of two with retain count 1. *)
Lemma identify_keeps_most_recent_witness :
  0 <= 1
  /\ exists kept to_delete w',
       identify_snapshots_to_delete web 0%nat 1 (world_at 0 [] [oldest_first])
       = (Ok to_delete, w')
       /\ deref w' 0%nat = kept ++ to_delete
       /\ Permutation (kept ++ to_delete) (deref (world_at 0 [] [oldest_first]) 0%nat)
       /\ Z.of_nat (List.length to_delete)
          = Z.max 0 (Z.of_nat (List.length (deref (world_at 0 [] [oldest_first]) 0%nat)) - 1)
       /\ Z.of_nat (List.length kept)
          = Z.min 1 (Z.of_nat (List.length (deref (world_at 0 [] [oldest_first]) 0%nat)))
       /\ (forall d k, In d to_delete -> In k kept -> created_at d <= created_at k)
       /\ descending to_delete.
Proof.
  split; [lia|].
  apply (identify_keeps_most_recent web 0%nat 1 (world_at 0 [] [oldest_first])).
  lia.
Defined.

(** C1 as stated fails: of two snapshots created in the same second and a
    retain count of 1, one is kept and the other returned, and the returned
    one is not strictly older than the kept one. *)
Lemma identify_tie_not_strictly_older :
  ~ (forall to_delete w',
       identify_snapshots_to_delete web 0%nat 1 (world_at 0 [] [same_second])
       = (Ok to_delete, w') ->
       forall d k,
         In d to_delete -> In k (firstn 1 (deref w' 0%nat)) ->
         created_at d < created_at k).
Proof.
  intros H.
  specialize (H _ _ (identify_snapshots_to_delete_eq web 0%nat 1
                       (world_at 0 [] [same_second]))).
  specialize (H (mk_snapshot "102" "web2-20241201120000" 1733054400000000)
                (mk_snapshot "101" "web-20241201120000" 1733054400000000)).
  simpl in H.
  assert (Hlt : 1733054400000000 < 1733054400000000)
    by (apply H; left; reflexivity).
  lia.
Qed.

(** C5, as amended.  The call sorts the caller's list object in place: after
    it the caller's list holds the same records in descending timestamp order
    (records with equal timestamps in their former order), so it is unchanged
    exactly when it was in descending order before.  Nothing else is
    touched (no other list object, no request, no sleep, no log record of the
    kinds kept here), and the result is a function of the list's contents and
    the retain count alone. *)
Theorem identify_sorts_callers_list (server : ServerConfig) (snapshots : Ref)
    (r : Z) (w : World) :
  exists w',
    identify_snapshots_to_delete server snapshots r w
    = (Ok (slice_from (sort_created_at_reverse (deref w snapshots)) r), w')
    /\ deref w' snapshots = sort_created_at_reverse (deref w snapshots)
    /\ Permutation (deref w' snapshots) (deref w snapshots)
    /\ descending (deref w' snapshots)
    /\ (deref w' snapshots = deref w snapshots <-> descending (deref w snapshots))
    /\ (forall other : Ref, other <> snapshots -> deref w' other = deref w other)
    /\ clock w' = clock w /\ network w' = network w /\ events w' = events w.
Proof.
  eexists. split; [apply identify_snapshots_to_delete_eq|].
  rewrite deref_after_identify.
  repeat split.
  - apply sort_created_at_reverse_perm.
  - apply sort_created_at_reverse_descending.
  - intros H. rewrite <- H. apply sort_created_at_reverse_descending.
  - apply sort_created_at_reverse_fixed.
  - intros other Hne. unfold deref; simpl.
    apply nth_set_nth_other; assumption.
Qed.

(** C5 as stated fails: a caller whose list has the older snapshot first
    finds the newer one first after the call, although nothing is selected
    for deletion. *)
Lemma identify_reorders_callers_list :
  ~ (forall to_delete w',
       identify_snapshots_to_delete web 0%nat 2 (world_at 0 [] [oldest_first])
       = (Ok to_delete, w') ->
       deref w' 0%nat = deref (world_at 0 [] [oldest_first]) 0%nat).
Proof.
  intros H.
  specialize (H _ _ (identify_snapshots_to_delete_eq web 0%nat 2
                       (world_at 0 [] [oldest_first]))).
  vm_compute in H. discriminate H.
Qed.

(* ================================================================= *)
(** ** Reasoning about computations *)

Section Closure.

Context {A B : Type}.

Lemma returns_ret (a : A) : returns (ret a).
Proof. intros w. exists a, w. reflexivity. Qed.

Lemma returns_bind (m : M A) (k : A -> M B) :
  returns m -> (forall a, returns (k a)) -> returns (bind m k).
Proof.
  intros Hm Hk w. destruct (Hm w) as (a & w1 & E).
  destruct (Hk a w1) as (b & w2 & E2).
  exists b, w2. unfold bind. rewrite E. exact E2.
Qed.

Lemma returns_halts (m : M A) : returns m -> halts m.
Proof. intros H w. destruct (H w) as (a & w' & E). rewrite E. discriminate. Qed.

Lemma returns_try (m : M A) (h : Exn -> M A) :
  halts m -> (forall e, returns (h e)) -> returns (try_except m h).
Proof.
  intros Hm Hh w. unfold try_except. specialize (Hm w).
  destruct (m w) as [[a|e|] w1]; simpl in Hm.
  - exists a, w1. reflexivity.
  - apply Hh.
  - congruence.
Qed.

Lemma halts_ret (a : A) : halts (ret a).
Proof. intros w. discriminate. Qed.

Lemma halts_raise (e : Exn) : halts (@raise A e).
Proof. intros w. discriminate. Qed.

Lemma halts_bind (m : M A) (k : A -> M B) :
  halts m -> (forall a, halts (k a)) -> halts (bind m k).
Proof.
  intros Hm Hk w. unfold bind. specialize (Hm w).
  destruct (m w) as [[a|e|] w1]; simpl in *.
  - apply Hk.
  - discriminate.
  - congruence.
Qed.

Lemma halts_try (m : M A) (h : Exn -> M A) :
  halts m -> (forall e, halts (h e)) -> halts (try_except m h).
Proof.
  intros Hm Hh w. unfold try_except. specialize (Hm w).
  destruct (m w) as [[a|e|] w1]; simpl in *.
  - discriminate.
  - apply Hh.
  - congruence.
Qed.

Variable Q : Event -> Prop.

Lemma appends_ret (a : A) : appends Q (ret a).
Proof. intros w. exists []. simpl. rewrite app_nil_r. auto. Qed.

Lemma appends_raise (e : Exn) : appends Q (@raise A e).
Proof. intros w. exists []. simpl. rewrite app_nil_r. auto. Qed.

Lemma appends_diverge : appends Q (@diverge A).
Proof. intros w. exists []. simpl. rewrite app_nil_r. auto. Qed.

Lemma appends_bind (m : M A) (k : A -> M B) :
  appends Q m -> (forall a, appends Q (k a)) -> appends Q (bind m k).
Proof.
  intros Hm Hk w. unfold bind. destruct (Hm w) as (n1 & E1 & F1).
  destruct (m w) as [[a|e|] w1]; simpl in *.
  - destruct (Hk a w1) as (n2 & E2 & F2).
    exists (n1 ++ n2). rewrite E2, E1, app_assoc. split; [reflexivity|].
    apply Forall_app; auto.
  - exists n1. auto.
  - exists n1. auto.
Qed.

Lemma appends_try (m : M A) (h : Exn -> M A) :
  appends Q m -> (forall e, appends Q (h e)) -> appends Q (try_except m h).
Proof.
  intros Hm Hh w. unfold try_except. destruct (Hm w) as (n1 & E1 & F1).
  destruct (m w) as [[a|e|] w1]; simpl in *.
  - exists n1. auto.
  - destruct (Hh e w1) as (n2 & E2 & F2).
    exists (n1 ++ n2). rewrite E2, E1, app_assoc. split; [reflexivity|].
    apply Forall_app; auto.
  - exists n1. auto.
Qed.

End Closure.

Lemma returns_emit (e : Event) : returns (emit e).
Proof. intros w. eexists _, _. reflexivity. Qed.

Lemma returns_log (lvl : Level) (msg : string) : returns (log lvl msg).
Proof. apply returns_emit. Qed.

Lemma returns_time_time : returns time_time.
Proof. intros w. eexists _, _. reflexivity. Qed.

Lemma returns_datetime_now : returns datetime_now.
Proof. intros w. eexists _, _. reflexivity. Qed.

Lemma returns_new_list (l : list Snapshot) : returns (new_list l).
Proof. intros w. eexists _, _. reflexivity. Qed.

Lemma sleep_accepted (seconds : Z) :
  0 <= seconds <= SLEEP_MAX -> (seconds <? 0) || (SLEEP_MAX <? seconds) = false.
Proof.
  intros H. apply orb_false_iff. split; apply Z.ltb_ge; lia.
Qed.

Lemma sleep_refused (seconds : Z) :
  seconds < 0 \/ SLEEP_MAX < seconds -> (seconds <? 0) || (SLEEP_MAX <? seconds) = true.
Proof.
  intros H. apply orb_true_iff. destruct H; [left | right]; apply Z.ltb_lt; lia.
Qed.

Lemma sleep_five : (5 <? 0) || (SLEEP_MAX <? 5) = false.
Proof. reflexivity. Qed.

Lemma returns_time_sleep (seconds : Z) :
  0 <= seconds <= SLEEP_MAX -> returns (time_sleep seconds).
Proof.
  intros H w. unfold time_sleep. rewrite (sleep_accepted _ H).
  eexists _, _. reflexivity.
Qed.

Lemma halts_time_sleep (seconds : Z) : halts (time_sleep seconds).
Proof.
  intros w. unfold time_sleep.
  destruct ((seconds <? 0) || (SLEEP_MAX <? seconds)); discriminate.
Qed.

Lemma halts_request (r : Request) : halts (request r).
Proof.
  intros w. unfold request.
  destruct (answer _); discriminate.
Qed.

Lemma halts_raise_for_status (status : Z) : halts (raise_for_status status).
Proof.
  unfold raise_for_status.
  destruct (_ && _); [apply halts_raise | apply halts_ret].
Qed.

Lemma halts_response_json (body : option Json) : halts (response_json body).
Proof. destruct body; [apply halts_ret | apply halts_raise]. Qed.

Lemma returns_for_each {A} (l : list A) (body : A -> M unit) :
  (forall x, returns (body x)) -> returns (for_each l body).
Proof.
  intros H. induction l as [|x l IH]; simpl.
  - apply returns_ret.
  - apply returns_bind; [apply H | intros _; exact IH].
Qed.

Lemma halts_for_attempts (attempts : list Z) (body : Z -> M bool) (after : M bool) :
  (forall a, halts (body a)) -> halts after -> halts (for_attempts attempts body after).
Proof.
  intros Hb Ha. induction attempts as [|a l IH]; simpl; [exact Ha|].
  apply halts_bind; [apply Hb|].
  intros [|]; [apply halts_ret | exact IH].
Qed.

Section Appends.

Variable Q : Event -> Prop.

Lemma appends_emit (e : Event) : Q e -> appends Q (emit e).
Proof. intros H w. exists [e]. simpl. auto. Qed.

Lemma appends_log (lvl : Level) (msg : string) :
  Q (Logged lvl msg) -> appends Q (log lvl msg).
Proof. apply appends_emit. Qed.

Lemma appends_time_time : appends Q time_time.
Proof. intros w. exists []. simpl. rewrite app_nil_r. auto. Qed.

Lemma appends_datetime_now : appends Q datetime_now.
Proof. intros w. exists []. simpl. rewrite app_nil_r. auto. Qed.

Lemma appends_time_sleep (seconds : Z) :
  Q (Slept seconds) -> appends Q (time_sleep seconds).
Proof.
  intros H w. unfold time_sleep.
  destruct ((seconds <? 0) || (SLEEP_MAX <? seconds)); simpl.
  - exists []. rewrite app_nil_r. auto.
  - exists [Slept seconds]. auto.
Qed.

Lemma appends_request (r : Request) : Q (Http r) -> appends Q (request r).
Proof.
  intros H w. exists [Http r]. unfold request.
  destruct (answer _); simpl; auto.
Qed.

Lemma appends_raise_for_status (status : Z) : appends Q (raise_for_status status).
Proof.
  unfold raise_for_status.
  destruct (_ && _); [apply appends_raise | apply appends_ret].
Qed.

Lemma appends_response_json (body : option Json) : appends Q (response_json body).
Proof. destruct body; [apply appends_ret | apply appends_raise]. Qed.

Lemma appends_iterate {S R} (budget : nat) (body : S -> M (Ctl S R)) (s : S) :
  (forall s, appends Q (body s)) -> appends Q (iterate budget body s).
Proof.
  intros H. revert s. induction budget as [|n IH]; intros s; simpl.
  - apply appends_diverge.
  - apply appends_bind; [apply H|].
    intros [s'|r]; [apply IH | apply appends_ret].
Qed.

Lemma appends_for_each {A} (l : list A) (body : A -> M unit) :
  (forall x, appends Q (body x)) -> appends Q (for_each l body).
Proof.
  intros H. induction l as [|x l IH]; simpl.
  - apply appends_ret.
  - apply appends_bind; [apply H | intros _; exact IH].
Qed.

Lemma appends_for_attempts (attempts : list Z) (body : Z -> M bool) (after : M bool) :
  (forall a, appends Q (body a)) -> appends Q after ->
  appends Q (for_attempts attempts body after).
Proof.
  intros Hb Ha. induction attempts as [|a l IH]; simpl; [exact Ha|].
  apply appends_bind; [apply Hb|].
  intros [|]; [apply appends_ret | exact IH].
Qed.

End Appends.

(** Goals [returns m], [halts m] and [appends Q m] for a computation put
    together from the pieces above. *)
Ltac tame :=
  repeat first
    [ apply returns_ret | apply halts_ret | apply appends_ret
    | apply halts_raise | apply appends_raise
    | apply returns_log | apply returns_emit | apply returns_time_time
    | apply returns_datetime_now | apply returns_new_list
    | apply halts_request | apply halts_time_sleep
    | apply halts_raise_for_status | apply halts_response_json
    | apply appends_time_time | apply appends_datetime_now
    | apply appends_raise_for_status | apply appends_response_json
    | apply appends_log; exact I
    | apply appends_emit; exact I
    | apply appends_time_sleep; exact I
    | apply appends_request; exact I
    | apply returns_time_sleep; unfold SLEEP_MAX; lia
    | apply returns_bind; [|intro]
    | apply returns_try; [|intro]
    | apply returns_for_each; intro
    | apply halts_bind; [|intro]
    | apply halts_try; [|intro]
    | apply halts_for_attempts; [intro|]
    | apply appends_bind; [|intro]
    | apply appends_try; [|intro]
    | apply appends_iterate; intro
    | apply appends_for_each; intro
    | apply appends_for_attempts; [intro|]
    | match goal with
      | |- _ (match ?x with _ => _ end) => destruct x
      end
    | apply returns_halts ].

(* ================================================================= *)
(** ** Deletion *)

Lemma returns_do_delete_one (snap : Snapshot) : returns (do_delete_one snap).
Proof. unfold do_delete_one. tame. Qed.

Lemma returns_hz_delete_one (snap : Snapshot) : returns (hz_delete_one snap).
Proof. unfold hz_delete_one. tame. Qed.

Lemma requests_of_app (a b : list Event) :
  requests_of (a ++ b) = requests_of a ++ requests_of b.
Proof.
  induction a as [|[r|s|l m|r] a IH]; simpl; rewrite ?IH; reflexivity.
Qed.

Lemma deleted_ids_app (a b : list Request) :
  deleted_ids (a ++ b) = deleted_ids a ++ deleted_ids b.
Proof.
  induction a as [|[] a IH]; simpl; rewrite ?IH; reflexivity.
Qed.

Lemma delete_requests_app (a b : list Event) :
  delete_requests (a ++ b) = delete_requests a ++ delete_requests b.
Proof.
  unfold delete_requests. rewrite requests_of_app. apply deleted_ids_app.
Qed.

Lemma final_statuses_app (a b : list Event) :
  final_statuses (a ++ b) = final_statuses a ++ final_statuses b.
Proof.
  induction a as [|[r|s|l m|r] a IH]; simpl; rewrite ?IH; reflexivity.
Qed.


(** Unfolds one deletion down to the case analysis on the reply. *)
Ltac open_delete :=
  unfold do_delete_one, hz_delete_one, try_except, bind, request, log, emit, ret,
    next_answer in *;
  simpl in *.

Lemma do_delete_one_contract : deletes_one do_delete_one DeleteDoSnapshot.
Proof.
  split; [|split].
  - intros snap w body H. open_delete.
    destruct (network w) as [|[t a] rest]; simpl in *; [discriminate|].
    subst a. simpl. eexists. split; [reflexivity|].
    simpl. rewrite <- app_assoc. reflexivity.
  - intros snap w H204 H404. open_delete.
    destruct (network w) as [|[t [status body| |]] rest]; simpl in *;
      try (eexists _, _; split; [reflexivity|];
           simpl; rewrite <- app_assoc; reflexivity).
    destruct (status =? 204) eqn:E1;
      [apply Z.eqb_eq in E1; subst; exfalso; eapply H204; reflexivity|].
    destruct (status =? 404) eqn:E2;
      [apply Z.eqb_eq in E2; subst; exfalso; eapply H404; reflexivity|].
    eexists _, _; split; [reflexivity|].
    simpl; rewrite <- app_assoc; reflexivity.
  - intros snap w. open_delete.
    destruct (network w) as [|[t [status body| |]] rest]; simpl;
      try (eexists; repeat split; simpl;
           rewrite <- ?app_assoc, !requests_of_app; simpl;
           rewrite ?app_nil_r; reflexivity).
    destruct (status =? 204); [|destruct (status =? 404)];
      (eexists; repeat split; simpl;
       rewrite <- ?app_assoc, !requests_of_app; simpl;
       rewrite ?app_nil_r; reflexivity).
Qed.

Lemma hz_delete_one_contract : deletes_one hz_delete_one DeleteHetznerImage.
Proof.
  split; [|split].
  - intros snap w body H. open_delete.
    destruct (network w) as [|[t a] rest]; simpl in *; [discriminate|].
    subst a. simpl. eexists. split; [reflexivity|].
    simpl. rewrite <- app_assoc. reflexivity.
  - intros snap w H204 H404. open_delete.
    destruct (network w) as [|[t [status body| |]] rest]; simpl in *;
      try (eexists _, _; split; [reflexivity|];
           simpl; rewrite <- app_assoc; reflexivity).
    destruct (status =? 204) eqn:E1;
      [apply Z.eqb_eq in E1; subst; exfalso; eapply H204; reflexivity|].
    destruct (status =? 404) eqn:E2;
      [apply Z.eqb_eq in E2; subst; exfalso; eapply H404; reflexivity|].
    eexists _, _; split; [reflexivity|].
    simpl; rewrite <- app_assoc; reflexivity.
  - intros snap w. open_delete.
    destruct (network w) as [|[t [status body| |]] rest]; simpl;
      try (eexists; repeat split; simpl;
           rewrite <- ?app_assoc, !requests_of_app; simpl;
           rewrite ?app_nil_r; reflexivity).
    destruct (status =? 204); [|destruct (status =? 404)];
      (eexists; repeat split; simpl;
       rewrite <- ?app_assoc, !requests_of_app; simpl;
       rewrite ?app_nil_r; reflexivity).
Qed.

Lemma for_each_deletes_all (delete_one : Snapshot -> M unit) (req : string -> Request) :
  deletes_one delete_one req -> deletes_all (fun l => for_each l delete_one) req.
Proof.
  intros (_ & _ & H) snapshots.
  induction snapshots as [|snap l IH]; intros w; simpl.
  - exists w. rewrite app_nil_r. split; reflexivity.
  - destruct (H snap w) as (w1 & E1 & R1 & _).
    destruct (IH w1) as (w2 & E2 & R2).
    exists w2. unfold bind. rewrite E1. split; [exact E2|].
    rewrite R2, R1, <- app_assoc. reflexivity.
Qed.

Lemma delete_digitalocean_snapshots_all (server : ServerConfig) :
  deletes_all (delete_digitalocean_snapshots server) DeleteDoSnapshot.
Proof.
  intros [|snap l] w.
  - exists w. simpl. rewrite app_nil_r. split; reflexivity.
  - apply (for_each_deletes_all _ _ do_delete_one_contract (snap :: l) w).
Qed.

Lemma delete_hetzner_snapshots_all (server : ServerConfig) :
  deletes_all (delete_hetzner_snapshots server) DeleteHetznerImage.
Proof.
  intros [|snap l] w.
  - exists w. simpl. rewrite app_nil_r. split; reflexivity.
  - apply (for_each_deletes_all _ _ hz_delete_one_contract (snap :: l) w).
Qed.

(** C8.  For either provider, a delete request that is answered 404 ends
    with a WARNING "not found (likely already deleted)" and no ERROR record;
    any other answer that is not a 204 (another status, a transport error,
    any other exception) ends with one ERROR record; and in every case the
    loop goes on: deleting a list of records returns normally after exactly
    one delete request per record, in the order of the list. *)
Theorem delete_tolerates_failures (server : ServerConfig) :
  deletes_one do_delete_one DeleteDoSnapshot
  /\ deletes_one hz_delete_one DeleteHetznerImage
  /\ deletes_all (delete_digitalocean_snapshots server) DeleteDoSnapshot
  /\ deletes_all (delete_hetzner_snapshots server) DeleteHetznerImage.
Proof.
  split; [exact do_delete_one_contract|].
  split; [exact hz_delete_one_contract|].
  split; [apply delete_digitalocean_snapshots_all | apply delete_hetzner_snapshots_all].
Qed.

(** Three deletions that are answered 404, not at all, and 500: three
    requests all the same, a WARNING for the first, an ERROR for each of the
    other two. *)
Example delete_three_with_failures :
  delete_digitalocean_snapshots web three_to_delete deletions_go_wrong
  = (Ok tt,
     {| clock := 1733146354; utc_offset := 0; network := []; heap := [];
        events :=
          [Http (DeleteDoSnapshot "103");
           Logged WARNING "    Snapshot not found (likely already deleted)";
           Http (DeleteDoSnapshot "102");
           Logged ERROR "    Failed to delete snapshot";
           Http (DeleteDoSnapshot "101");
           Logged ERROR "    Failed to delete snapshot (status)"] |}).
Proof. vm_compute. reflexivity. Qed.

(* ================================================================= *)
(** ** Notification: retry and backoff *)


Lemma py_range_cons (a b : Z) : a < b -> py_range a b = a :: py_range (a + 1) b.
Proof.
  intros H. unfold py_range.
  replace (Z.to_nat (b - a)) with (S (Z.to_nat (b - (a + 1)))) by lia.
  simpl. f_equal; [lia|].
  rewrite <- seq_shift, map_map.
  apply map_ext. intros i. lia.
Qed.

Lemma backoff_delay_nonneg (d attempt : Z) : 0 <= d -> 0 <= d * 2 ^ (attempt - 1).
Proof.
  intros H. apply Z.mul_nonneg_nonneg; [assumption|].
  apply Z.pow_nonneg. lia.
Qed.









(* ================================================================= *)
(** ** Listing *)

Lemma do_collect_eq (server : ServerConfig) (items : list DoItem) :
  forall (acc : list Snapshot) (w : World),
  exists w' logs,
    do_collect server items acc w = (Ok (acc ++ do_records server items), w')
    /\ network w' = network w
    /\ events w' = events w ++ logs
    /\ Forall quiet_event logs.
Proof.
  induction items as [|item items IH]; intros acc w; simpl.
  - exists w, []. rewrite !app_nil_r. repeat split. constructor.
  - destruct (do_matches server item); [|apply IH].
    destruct (do_created_at item) as [t|].
    + destruct (IH (acc ++ [{| snap_id := do_id item; snap_name := do_name item;
                               created_at := t |}]) w) as (w' & logs & E & N & V & F).
      exists w', logs. rewrite E, <- app_assoc. repeat split; assumption.
    + unfold bind, log, emit. simpl.
      match goal with
      | |- context [do_collect server items acc ?w1] =>
          destruct (IH acc w1) as (w' & logs & E & N & V & F)
      end.
      exists w', (Logged ERROR "  Invalid date format for snapshot" :: logs).
      rewrite E. simpl in *. repeat split; try assumption.
      * rewrite V, <- app_assoc. reflexivity.
      * constructor; [exact I | assumption].
Qed.

Lemma hz_collect_eq (server : ServerConfig) (items : list HzItem) :
  forall (acc : list Snapshot) (w : World),
  exists w' logs,
    hz_collect server items acc w = (Ok (acc ++ hz_records server items), w')
    /\ network w' = network w
    /\ events w' = events w ++ logs
    /\ Forall quiet_event logs.
Proof.
  induction items as [|item items IH]; intros acc w; simpl.
  - exists w, []. rewrite !app_nil_r. repeat split. constructor.
  - destruct (hz_matches server item); [|apply IH].
    destruct (hz_created item) as [t|].
    + destruct (IH (acc ++ [{| snap_id := hz_id item; snap_name := hz_description item;
                               created_at := t |}]) w) as (w' & logs & E & N & V & F).
      exists w', logs. rewrite E, <- app_assoc. repeat split; assumption.
    + unfold bind, log, emit. simpl.
      match goal with
      | |- context [hz_collect server items acc ?w1] =>
          destruct (IH acc w1) as (w' & logs & E & N & V & F)
      end.
      exists w', (Logged ERROR "  Invalid date format for snapshot" :: logs).
      rewrite E. simpl in *. repeat split; try assumption.
      * rewrite V, <- app_assoc. reflexivity.
      * constructor; [exact I | assumption].
Qed.

Arguments do_collect : simpl never.
Arguments hz_collect : simpl never.

Lemma status_ok (status : Z) :
  ~ (400 <= status < 600) -> (400 <=? status) && (status <? 600) = false.
Proof.
  intros H. apply andb_false_iff.
  destruct (Z.lt_ge_cases status 400); [left; apply Z.leb_gt; lia|].
  right. apply Z.ltb_ge. lia.
Qed.

Lemma status_bad (status : Z) :
  400 <= status < 600 -> (400 <=? status) && (status <? 600) = true.
Proof.
  intros H. apply andb_true_iff. split; [apply Z.leb_le | apply Z.ltb_lt]; lia.
Qed.

(** A page with items and a next link: its records are added and the loop
    goes on with the next page. *)
Lemma do_page_full (server : ServerConfig) (page : Z) (acc : list Snapshot)
    (w : World) (r : Reply) (rest : list Reply) (data : Json) :
  network w = r :: rest ->
  do_full_page r data ->
  exists w' evs,
    do_page server (page, acc) w
    = (Ok (Continue (page + 1, acc ++ do_records server (js_snapshots data))), w')
    /\ network w' = rest
    /\ events w' = events w ++ evs.
Proof.
  intros Hn (status & Ha & Hs & Hi & Hnext).
  unfold do_page, try_except, bind at 1, request. rewrite Hn, Ha. simpl.
  unfold bind at 1, raise_for_status. rewrite (status_ok _ Hs). simpl.
  unfold bind at 1, ret at 1.
  destruct (js_snapshots data) as [|i items] eqn:Ei; [congruence|].
  unfold bind at 1.
  match goal with
  | |- context [do_collect server (i :: items) acc ?w1] =>
      destruct (do_collect_eq server (i :: items) acc w1) as (w' & logs & E & N & V & _)
  end.
  rewrite E, Hnext. simpl in *.
  exists w', (Http (ListDoSnapshots page) :: logs).
  repeat split; try assumption.
  rewrite V, <- app_assoc. reflexivity.
Qed.

Lemma hz_page_full (server : ServerConfig) (page : Z) (acc : list Snapshot)
    (w : World) (r : Reply) (rest : list Reply) (data : Json) :
  network w = r :: rest ->
  hz_full_page r data ->
  exists w' evs,
    hz_page server (page, acc) w
    = (Ok (Continue (page + 1, acc ++ hz_records server (js_images data))), w')
    /\ network w' = rest
    /\ events w' = events w ++ evs.
Proof.
  intros Hn (status & Ha & Hs & Hi & Hnext).
  unfold hz_page, try_except, bind at 1, request. rewrite Hn, Ha. simpl.
  unfold bind at 1, raise_for_status. rewrite (status_ok _ Hs). simpl.
  unfold bind at 1, ret at 1.
  destruct (js_images data) as [|i items] eqn:Ei; [congruence|].
  unfold bind at 1.
  match goal with
  | |- context [hz_collect server (i :: items) acc ?w1] =>
      destruct (hz_collect_eq server (i :: items) acc w1) as (w' & logs & E & N & V & _)
  end.
  rewrite E, Hnext. simpl in *.
  exists w', (Http (ListHetznerImages page) :: logs).
  repeat split; try assumption.
  rewrite V, <- app_assoc. reflexivity.
Qed.

(** A request that fails: an ERROR record, and the loop is left with what
    had been collected. *)
Lemma do_page_failure (server : ServerConfig) (page : Z) (acc : list Snapshot)
    (w : World) (r : Reply) (rest : list Reply) :
  network w = r :: rest ->
  request_failure r ->
  exists w',
    do_page server (page, acc) w = (Ok (Break acc), w')
    /\ events w'
       = events w ++ [Http (ListDoSnapshots page);
                      Logged ERROR "[DIGITALOCEAN] Failed to fetch snapshots"].
Proof.
  intros Hn Hf. unfold request_failure in Hf.
  unfold do_page, try_except, bind at 1, request. rewrite Hn. simpl.
  destruct (answer r) as [status body| |]; [| |contradiction]; simpl.
  - unfold bind at 1, raise_for_status. rewrite (status_bad _ Hf). simpl.
    eexists. split; [reflexivity|]. simpl. rewrite <- app_assoc. reflexivity.
  - eexists. split; [reflexivity|]. simpl. rewrite <- app_assoc. reflexivity.
Qed.

Lemma hz_page_failure (server : ServerConfig) (page : Z) (acc : list Snapshot)
    (w : World) (r : Reply) (rest : list Reply) :
  network w = r :: rest ->
  request_failure r ->
  exists w',
    hz_page server (page, acc) w = (Ok (Break acc), w')
    /\ events w'
       = events w ++ [Http (ListHetznerImages page);
                      Logged ERROR "[HETZNER] Failed to fetch snapshots"].
Proof.
  intros Hn Hf. unfold request_failure in Hf.
  unfold hz_page, try_except, bind at 1, request. rewrite Hn. simpl.
  destruct (answer r) as [status body| |]; [| |contradiction]; simpl.
  - unfold bind at 1, raise_for_status. rewrite (status_bad _ Hf). simpl.
    eexists. split; [reflexivity|]. simpl. rewrite <- app_assoc. reflexivity.
  - eexists. split; [reflexivity|]. simpl. rewrite <- app_assoc. reflexivity.
Qed.

(** Every round returns, and a round that goes on has used up an answer. *)
Lemma do_page_steps (server : ServerConfig) (st : Z * list Snapshot) (w : World) :
  exists c w',
    do_page server st w = (Ok c, w')
    /\ (forall s', c = Continue s' ->
                   (List.length (network w') < List.length (network w))%nat).
Proof.
  destruct st as [page acc].
  unfold do_page, try_except, bind at 1, request.
  destruct (network w) as [|r rest]; simpl.
  - eexists _, _. split; [reflexivity|]. discriminate.
  - destruct (answer r) as [status body| |]; simpl;
      try (eexists _, _; split; [reflexivity | discriminate]).
    unfold bind at 1, raise_for_status.
    destruct ((400 <=? status) && (status <? 600)); simpl;
      [eexists _, _; split; [reflexivity | discriminate]|].
    destruct body as [data|]; simpl;
      [|eexists _, _; split; [reflexivity | discriminate]].
    unfold bind at 1, ret at 1.
    destruct (js_snapshots data) as [|i items];
      [eexists _, _; split; [reflexivity | discriminate]|].
    unfold bind at 1.
    match goal with
    | |- context [do_collect server (i :: items) acc ?w1] =>
        destruct (do_collect_eq server (i :: items) acc w1) as (w' & logs & E & N & _)
    end.
    rewrite E. simpl in N.
    destruct (js_links_next data); simpl;
      eexists _, _; (split; [reflexivity|]); [|discriminate].
    intros _ _. rewrite N. simpl. lia.
Qed.

Lemma hz_page_steps (server : ServerConfig) (st : Z * list Snapshot) (w : World) :
  exists c w',
    hz_page server st w = (Ok c, w')
    /\ (forall s', c = Continue s' ->
                   (List.length (network w') < List.length (network w))%nat).
Proof.
  destruct st as [page acc].
  unfold hz_page, try_except, bind at 1, request.
  destruct (network w) as [|r rest]; simpl.
  - eexists _, _. split; [reflexivity|]. discriminate.
  - destruct (answer r) as [status body| |]; simpl;
      try (eexists _, _; split; [reflexivity | discriminate]).
    unfold bind at 1, raise_for_status.
    destruct ((400 <=? status) && (status <? 600)); simpl;
      [eexists _, _; split; [reflexivity | discriminate]|].
    destruct body as [data|]; simpl;
      [|eexists _, _; split; [reflexivity | discriminate]].
    unfold bind at 1, ret at 1.
    destruct (js_images data) as [|i items];
      [eexists _, _; split; [reflexivity | discriminate]|].
    unfold bind at 1.
    match goal with
    | |- context [hz_collect server (i :: items) acc ?w1] =>
        destruct (hz_collect_eq server (i :: items) acc w1) as (w' & logs & E & N & _)
    end.
    rewrite E. simpl in N.
    destruct (js_next_page data); simpl;
      eexists _, _; (split; [reflexivity|]); [|discriminate].
    intros _ _. rewrite N. simpl. lia.
Qed.

(** A loop whose rounds use up the scripted answers returns within a budget
    that exceeds their number. *)
Lemma iterate_by_network {S R} (body : S -> M (Ctl S R)) :
  (forall s w, exists c w',
      body s w = (Ok c, w')
      /\ (forall s', c = Continue s' ->
                     (List.length (network w') < List.length (network w))%nat)) ->
  forall budget s w,
    (List.length (network w) < budget)%nat ->
    exists r w', iterate budget body s w = (Ok r, w').
Proof.
  intros Hbody budget. induction budget as [|n IH]; intros s w Hlt; [lia|].
  simpl. unfold bind. destruct (Hbody s w) as (c & w1 & E & Hc). rewrite E.
  destruct c as [s'|r].
  - apply IH. specialize (Hc s' eq_refl). lia.
  - exists r, w1. reflexivity.
Qed.

Lemma get_digitalocean_snapshots_returns (server : ServerConfig) :
  returns (get_digitalocean_snapshots server).
Proof.
  intros w. unfold get_digitalocean_snapshots.
  apply iterate_by_network; [apply do_page_steps | lia].
Qed.

Lemma get_hetzner_snapshots_returns (server : ServerConfig) :
  returns (get_hetzner_snapshots server).
Proof.
  intros w. unfold get_hetzner_snapshots.
  apply iterate_by_network; [apply hz_page_steps | lia].
Qed.

Lemma get_snapshots_returns (server : ServerConfig) : returns (get_snapshots server).
Proof.
  unfold get_snapshots.
  destruct (String.eqb (provider server) "digitalocean");
    [apply get_digitalocean_snapshots_returns|].
  destruct (String.eqb (provider server) "hetzner");
    [apply get_hetzner_snapshots_returns|].
  tame.
Qed.

(** The pages before the failure, one after the other. *)
Lemma do_pages_until_failure (server : ServerConfig) (bad : Reply) (rest : list Reply) :
  request_failure bad ->
  forall (replies : list Reply) (pages : list Json),
    Forall2 do_full_page replies pages ->
    forall (budget : nat) (page : Z) (acc : list Snapshot) (w : World),
      network w = replies ++ bad :: rest ->
      (List.length replies < budget)%nat ->
      exists w' evs,
        iterate budget (do_page server) (page, acc) w
        = (Ok (acc ++ flat_map (fun data => do_records server (js_snapshots data)) pages),
           w')
        /\ events w'
           = events w ++ evs
             ++ [Logged ERROR "[DIGITALOCEAN] Failed to fetch snapshots"].
Proof.
  intros Hbad replies pages HF.
  induction HF as [|r data replies pages Hr HF IH];
    intros budget page acc w Hn Hlt;
    (destruct budget as [|budget]; [simpl in Hlt; lia|]); simpl iterate.
  - destruct (do_page_failure server page acc w bad rest Hn Hbad) as (w' & E & V).
    unfold bind. rewrite E. simpl. rewrite app_nil_r.
    exists w', [Http (ListDoSnapshots page)]. split; [reflexivity | exact V].
  - destruct (do_page_full server page acc w r (replies ++ bad :: rest) data Hn Hr)
      as (w1 & e1 & E1 & N1 & V1).
    unfold bind. rewrite E1.
    destruct (IH budget (page + 1) (acc ++ do_records server (js_snapshots data)) w1 N1
                ltac:(simpl in Hlt; lia)) as (w' & evs & E & V).
    exists w', (e1 ++ evs). rewrite E. simpl. rewrite <- app_assoc.
    split; [reflexivity|].
    rewrite V, V1, <- !app_assoc. reflexivity.
Qed.

Lemma hz_pages_until_failure (server : ServerConfig) (bad : Reply) (rest : list Reply) :
  request_failure bad ->
  forall (replies : list Reply) (pages : list Json),
    Forall2 hz_full_page replies pages ->
    forall (budget : nat) (page : Z) (acc : list Snapshot) (w : World),
      network w = replies ++ bad :: rest ->
      (List.length replies < budget)%nat ->
      exists w' evs,
        iterate budget (hz_page server) (page, acc) w
        = (Ok (acc ++ flat_map (fun data => hz_records server (js_images data)) pages),
           w')
        /\ events w'
           = events w ++ evs
             ++ [Logged ERROR "[HETZNER] Failed to fetch snapshots"].
Proof.
  intros Hbad replies pages HF.
  induction HF as [|r data replies pages Hr HF IH];
    intros budget page acc w Hn Hlt;
    (destruct budget as [|budget]; [simpl in Hlt; lia|]); simpl iterate.
  - destruct (hz_page_failure server page acc w bad rest Hn Hbad) as (w' & E & V).
    unfold bind. rewrite E. simpl. rewrite app_nil_r.
    exists w', [Http (ListHetznerImages page)]. split; [reflexivity | exact V].
  - destruct (hz_page_full server page acc w r (replies ++ bad :: rest) data Hn Hr)
      as (w1 & e1 & E1 & N1 & V1).
    unfold bind. rewrite E1.
    destruct (IH budget (page + 1) (acc ++ hz_records server (js_images data)) w1 N1
                ltac:(simpl in Hlt; lia)) as (w' & evs & E & V).
    exists w', (e1 ++ evs). rewrite E. simpl. rewrite <- app_assoc.
    split; [reflexivity|].
    rewrite V, V1, <- !app_assoc. reflexivity.
Qed.

(** C6, as amended.  When a request of the paginated listing fails (a
    transport error or a 4xx/5xx status), [get_*_snapshots] logs an ERROR and
    returns the records of the pages fetched before the failure: the empty
    list when the first request fails, the records collected so far when a
    later one does.  It never raises, so the workflow continues. *)
Theorem listing_keeps_pages_before_failure (server : ServerConfig) (w : World)
    (replies : list Reply) (pages : list Json) (bad : Reply) (rest : list Reply) :
  network w = replies ++ bad :: rest ->
  request_failure bad ->
  (exists l w', get_snapshots server w = (Ok l, w'))
  /\ (Forall2 do_full_page replies pages ->
      exists w' evs,
        get_digitalocean_snapshots server w
        = (Ok (flat_map (fun data => do_records server (js_snapshots data)) pages), w')
        /\ events w'
           = events w ++ evs ++ [Logged ERROR "[DIGITALOCEAN] Failed to fetch snapshots"])
  /\ (Forall2 hz_full_page replies pages ->
      exists w' evs,
        get_hetzner_snapshots server w
        = (Ok (flat_map (fun data => hz_records server (js_images data)) pages), w')
        /\ events w'
           = events w ++ evs ++ [Logged ERROR "[HETZNER] Failed to fetch snapshots"]).
Proof.
  intros Hn Hbad. split; [apply get_snapshots_returns|]. split; intros HF.
  - unfold get_digitalocean_snapshots.
    apply (do_pages_until_failure server bad rest Hbad replies pages HF
             (S (List.length (network w))) 1 [] w Hn).
    rewrite Hn, length_app. simpl. lia.
  - unfold get_hetzner_snapshots.
    apply (hz_pages_until_failure server bad rest Hbad replies pages HF
             (S (List.length (network w))) 1 [] w Hn).
    rewrite Hn, length_app. simpl. lia.
Qed.

(** One page arrives, the request for the next fails: the record of the
    first page is returned. *)
Lemma listing_keeps_pages_before_failure_witness :
  (exists w' evs,
      get_digitalocean_snapshots web do_second_page_fails
      = (Ok [mk_snapshot "101" "web-20241201120000" 1733054400000000], w')
      /\ events w'
         = evs ++ [Logged ERROR "[DIGITALOCEAN] Failed to fetch snapshots"])
  /\ (exists w' evs,
         get_hetzner_snapshots db hz_second_page_fails
         = (Ok [mk_snapshot "501" "db-20241201120000" 1733054400000000], w')
         /\ events w'
            = evs ++ [Logged ERROR "[HETZNER] Failed to fetch snapshots"]).
Proof.
  split.
  - destruct (listing_keeps_pages_before_failure web do_second_page_fails
                [reply (Responded 200 (Some do_first_page))] [do_first_page]
                (reply Failed) [] eq_refl I) as (_ & H & _).
    apply H. constructor; [|constructor].
    exists 200. repeat split; simpl; try lia; discriminate.
  - destruct (listing_keeps_pages_before_failure db hz_second_page_fails
                [reply (Responded 200 (Some hz_first_page))] [hz_first_page]
                (reply Failed) [] eq_refl I) as (_ & _ & H).
    apply H. constructor; [|constructor].
    exists 200. repeat split; simpl; try lia; discriminate.
Defined.

(** C6 as stated fails: the request for the second page fails, and the
    listing returns the snapshot of the first page, not an empty list. *)
Lemma listing_partial_after_failure :
  ~ (forall l w', get_snapshots web do_second_page_fails = (Ok l, w') -> l = []).
Proof.
  intros H.
  remember (get_snapshots web do_second_page_fails) as res eqn:E.
  vm_compute in E. subst res.
  specialize (H _ _ eq_refl). discriminate H.
Qed.

(* ================================================================= *)
(** ** Creation *)

Lemma do_poll_round (action_id start_time timeout : Z) (w : World) :
  poll_round "completed" "errored" start_time timeout w
    (do_poll action_id start_time timeout tt w).
Proof.
  remember (do_poll action_id start_time timeout tt w) as res eqn:E.
  unfold poll_round.
  unfold do_poll, bind at 1, time_time in E. cbv beta iota in E.
  destruct (clock w - start_time <? timeout) eqn:Ec;
    [apply Z.ltb_lt in Ec
    | apply Z.ltb_ge in Ec; subst res; left; split; [reflexivity | lia]].
  right.
  unfold try_except, bind at 1, request in E.
  destruct (network w) as [|r rest] eqn:En; simpl in E;
    unfold bind, ret, time_sleep, raise_for_status, response_json, raise in E;
    simpl in E.
  - subst res. right; right; left.
    eexists. split; [reflexivity|]. simpl. rewrite ?En. repeat split; simpl; lia.
  - destruct (answer r) as [status body| |] eqn:Ea; simpl in E.
    + destruct ((400 <=? status) && (status <? 600)); simpl in E;
        [subst res; right; right; left; eexists; split; [reflexivity|];
         simpl; rewrite ?En; repeat split; simpl; lia|].
      destruct body as [data|]; simpl in E;
        [|subst res; right; right; right; eexists; reflexivity].
      destruct (String.eqb (js_action_status data) "completed") eqn:E1.
      * subst res. left. eexists. split; [reflexivity|]. simpl.
        apply String.eqb_eq in E1.
        split; [exists [], r, status, data; rewrite ?En; simpl; auto|].
        split; [reflexivity | discriminate].
      * destruct (String.eqb (js_action_status data) "errored") eqn:E2.
        -- subst res. right; left. eexists. reflexivity.
        -- subst res. right; right; left. eexists. split; [reflexivity|].
           simpl. rewrite ?En. repeat split; simpl; lia.
    + subst res. right; right; left. eexists. split; [reflexivity|].
      simpl. rewrite ?En. repeat split; simpl; lia.
    + subst res. right; right; right. eexists. reflexivity.
Qed.

Lemma hz_poll_round (action_id start_time timeout : Z) (w : World) :
  poll_round "success" "error" start_time timeout w
    (hz_poll action_id start_time timeout tt w).
Proof.
  remember (hz_poll action_id start_time timeout tt w) as res eqn:E.
  unfold poll_round.
  unfold hz_poll, bind at 1, time_time in E. cbv beta iota in E.
  destruct (clock w - start_time <? timeout) eqn:Ec;
    [apply Z.ltb_lt in Ec
    | apply Z.ltb_ge in Ec; subst res; left; split; [reflexivity | lia]].
  right.
  unfold try_except, bind at 1, request in E.
  destruct (network w) as [|r rest] eqn:En; simpl in E;
    unfold bind, ret, time_sleep, raise_for_status, response_json, raise in E;
    simpl in E.
  - subst res. right; right; left.
    eexists. split; [reflexivity|]. simpl. rewrite ?En. repeat split; simpl; lia.
  - destruct (answer r) as [status body| |] eqn:Ea; simpl in E.
    + destruct ((400 <=? status) && (status <? 600)); simpl in E;
        [subst res; right; right; left; eexists; split; [reflexivity|];
         simpl; rewrite ?En; repeat split; simpl; lia|].
      destruct body as [data|]; simpl in E;
        [|subst res; right; right; right; eexists; reflexivity].
      destruct (String.eqb (js_action_status data) "success") eqn:E1.
      * subst res. left. eexists. split; [reflexivity|]. simpl.
        apply String.eqb_eq in E1.
        split; [exists [], r, status, data; rewrite ?En; simpl; auto|].
        split; [reflexivity | discriminate].
      * destruct (String.eqb (js_action_status data) "error") eqn:E2.
        -- subst res. right; left. eexists. reflexivity.
        -- subst res. right; right; left. eexists. split; [reflexivity|].
           simpl. rewrite ?En. repeat split; simpl; lia.
    + subst res. right; right; left. eexists. split; [reflexivity|].
      simpl. rewrite ?En. repeat split; simpl; lia.
    + subst res. right; right; right. eexists. reflexivity.
Qed.

Section PollLoop.

Variables (done failed : string) (start_time timeout : Z).
Variable body : unit -> M (Ctl unit string).
Hypothesis body_round :
  forall w, poll_round done failed start_time timeout w (body tt w).

(** The loop stops: a round that goes on has slept five seconds, and no
    round goes on once [timeout] seconds have passed. *)
Lemma poll_loop_halts (budget : nat) :
  forall w,
    (0 < budget)%nat ->
    timeout - (clock w - start_time) < Z.of_nat budget ->
    fst (iterate budget body tt w) <> Diverged.
Proof.
  induction budget as [|n IH]; intros w Hpos Hlt; [lia|].
  simpl. unfold bind.
  destruct (body_round w)
    as [[E _]|[(w1 & E & _)|[(w1 & E)|[(w1 & E & Hc & Ht & _)|(w1 & E)]]]];
    rewrite E; simpl; try discriminate.
  apply IH; lia.
Qed.

(** The loop returns the provider's word for success only after an answer
    that carries it. *)
Lemma poll_loop_done (budget : nat) :
  done <> "timeout"%string -> done <> failed ->
  forall w w',
    iterate budget body tt w = (Ok done, w') ->
    last_answer_reports done w w'.
Proof.
  intros Hd1 Hd2. induction budget as [|n IH]; intros w w' H; [discriminate|].
  simpl in H. unfold bind in H.
  destruct (body_round w)
    as [[E _]|[(w1 & E & Hl & _)|[(w1 & E)|[(w1 & E & _ & _ & Hn)|(w1 & E)]]]];
    rewrite E in H; simpl in H.
  - inversion H. congruence.
  - inversion H; subst. exact Hl.
  - inversion H. congruence.
  - apply IH in H. destruct H as (earlier & last & status & data & Hw1 & Ha & Hs).
    rewrite Hn in Hw1. unfold last_answer_reports.
    destruct (network w) as [|r rest]; simpl in Hw1.
    + destruct earlier; discriminate.
    + exists (r :: earlier), last, status, data. subst rest.
      split; [reflexivity|]. split; assumption.
  - discriminate.
Qed.

End PollLoop.

Lemma wait_for_digitalocean_action_halts (action_id timeout : Z) :
  halts (_wait_for_digitalocean_action action_id timeout).
Proof.
  intros w. unfold _wait_for_digitalocean_action, bind, time_time.
  apply (poll_loop_halts "completed" "errored" (clock w) timeout).
  - intros w0. apply do_poll_round.
  - lia.
  - lia.
Qed.

Lemma wait_for_hetzner_action_halts (action_id timeout : Z) :
  halts (_wait_for_hetzner_action action_id timeout).
Proof.
  intros w. unfold _wait_for_hetzner_action, bind, time_time.
  apply (poll_loop_halts "success" "error" (clock w) timeout).
  - intros w0. apply hz_poll_round.
  - lia.
  - lia.
Qed.

Lemma wait_for_digitalocean_action_completed (action_id timeout : Z) (w w' : World) :
  _wait_for_digitalocean_action action_id timeout w = (Ok "completed"%string, w') ->
  last_answer_reports "completed" w w'.
Proof.
  unfold _wait_for_digitalocean_action, bind, time_time.
  apply (poll_loop_done "completed" "errored" (clock w) timeout);
    [intros w0; apply do_poll_round | discriminate | discriminate].
Qed.

Lemma wait_for_hetzner_action_success (action_id timeout : Z) (w w' : World) :
  _wait_for_hetzner_action action_id timeout w = (Ok "success"%string, w') ->
  last_answer_reports "success" w w'.
Proof.
  unfold _wait_for_hetzner_action, bind, time_time.
  apply (poll_loop_done "success" "error" (clock w) timeout);
    [intros w0; apply hz_poll_round | discriminate | discriminate].
Qed.

Lemma create_digitalocean_snapshot_returns (cfg : Config) (server : ServerConfig) :
  returns (create_digitalocean_snapshot cfg server).
Proof.
  unfold create_digitalocean_snapshot.
  apply returns_bind; [apply returns_datetime_now | intros now].
  apply returns_try; [|intros []; tame].
  apply halts_bind; [apply halts_request | intros resp].
  apply halts_bind; [apply halts_raise_for_status | intros _].
  apply halts_bind; [apply halts_response_json | intros data].
  destruct (truthy_num (js_action_id data)); [|tame].
  apply halts_bind; [apply wait_for_digitalocean_action_halts | intros s].
  tame.
Qed.

Lemma create_hetzner_snapshot_returns (cfg : Config) (server : ServerConfig) :
  returns (create_hetzner_snapshot cfg server).
Proof.
  unfold create_hetzner_snapshot.
  apply returns_bind; [apply returns_datetime_now | intros now].
  apply returns_try; [|intros []; tame].
  apply halts_bind; [apply halts_request | intros resp].
  apply halts_bind; [apply halts_raise_for_status | intros _].
  apply halts_bind; [apply halts_response_json | intros data].
  destruct (truthy_num (js_action_id data) && truthy_num (js_image_id data)); [|tame].
  apply halts_bind; [apply wait_for_hetzner_action_halts | intros s].
  tame.
Qed.

Lemma create_snapshot_returns (cfg : Config) (server : ServerConfig) :
  returns (create_snapshot cfg server).
Proof.
  unfold create_snapshot.
  destruct (String.eqb (provider server) "digitalocean");
    [apply create_digitalocean_snapshot_returns|].
  destruct (String.eqb (provider server) "hetzner");
    [apply create_hetzner_snapshot_returns|].
  tame.
Qed.

Arguments _wait_for_digitalocean_action : simpl never.
Arguments _wait_for_hetzner_action : simpl never.
Arguments strftime_YmdHMS : simpl never.
Arguments snapshot_name_of : simpl never.

(** Whatever happens after it, the first thing a guarded block that begins
    with a request does is that request. *)
Lemma request_comes_first {A} (r : Request) (k : Z * option Json -> M A)
    (h : Exn -> M A) :
  (forall x, appends (fun _ => True) (k x)) ->
  (forall e, appends (fun _ => True) (h e)) ->
  forall w, exists evs,
    events (snd (try_except (bind (request r) k) h w)) = events w ++ Http r :: evs.
Proof.
  intros Hk Hh w.
  assert (Hreq : forall (m : M A),
             appends (fun _ => True) m ->
             forall w1, events w1 = events w ++ [Http r] ->
                        exists evs, events (snd (m w1)) = events w ++ Http r :: evs).
  { intros m Hm w1 E1. destruct (Hm w1) as (new & E & _).
    exists new. rewrite E, E1, <- app_assoc. reflexivity. }
  unfold try_except, bind, request.
  destruct (answer _); simpl.
  - match goal with
    | |- context [k ?x ?w1] =>
        destruct (Hreq (try_except (k x) h) ltac:(apply appends_try; auto) w1 eq_refl)
          as (evs & E)
    end.
    exists evs. unfold try_except in E. exact E.
  - apply Hreq; [apply Hh | reflexivity].
  - apply Hreq; [apply Hh | reflexivity].
Qed.

(** Leaves of the case analysis of a creation that ends without a name. *)
Ltac no_name :=
  unfold bind, log, emit, ret; simpl;
  let H := fresh in intros H; inversion H; left; reflexivity.

Lemma create_digitalocean_snapshot_result (cfg : Config) (server : ServerConfig)
    (w w' : World) (o : option string) :
  create_digitalocean_snapshot cfg server w = (Ok o, w') ->
  o = None
  \/ (o = Some (local_name server w) /\ last_answer_reports "completed" w w').
Proof.
  unfold create_digitalocean_snapshot, bind at 1, datetime_now. cbv beta iota.
  unfold try_except, bind at 1, request.
  destruct (network w) as [|r rest] eqn:En; simpl; [no_name|].
  destruct (answer r) as [status body| |] eqn:Ea; simpl; [|no_name|no_name].
  unfold bind at 1, raise_for_status.
  destruct ((400 <=? status) && (status <? 600)); simpl; [no_name|].
  destruct body as [data|]; simpl; [|no_name].
  unfold bind at 1, ret at 1.
  destruct (truthy_num (js_action_id data)); [|no_name].
  unfold bind at 1.
  match goal with
  | |- context [_wait_for_digitalocean_action ?a ?t ?w1] =>
      destruct (_wait_for_digitalocean_action a t w1) as [[s|e|] w2] eqn:Ew
  end.
  - destruct (String.eqb s "completed") eqn:Es; [|no_name].
    apply String.eqb_eq in Es. subst s.
    unfold ret. intros H. inversion H; subst. right. split; [reflexivity|].
    apply wait_for_digitalocean_action_completed in Ew.
    destruct Ew as (earlier & last & st & d & Hw & Ha & Hs). simpl in Hw.
    exists (r :: earlier), last, st, d. rewrite En, Hw. auto.
  - destruct e; no_name.
  - discriminate.
Qed.

Lemma create_hetzner_snapshot_result (cfg : Config) (server : ServerConfig)
    (w w' : World) (o : option string) :
  create_hetzner_snapshot cfg server w = (Ok o, w') ->
  o = None
  \/ (o = Some (local_name server w) /\ last_answer_reports "success" w w').
Proof.
  unfold create_hetzner_snapshot, bind at 1, datetime_now. cbv beta iota.
  unfold try_except, bind at 1, request.
  destruct (network w) as [|r rest] eqn:En; simpl; [no_name|].
  destruct (answer r) as [status body| |] eqn:Ea; simpl; [|no_name|no_name].
  unfold bind at 1, raise_for_status.
  destruct ((400 <=? status) && (status <? 600)); simpl; [no_name|].
  destruct body as [data|]; simpl; [|no_name].
  unfold bind at 1, ret at 1.
  destruct (truthy_num (js_action_id data) && truthy_num (js_image_id data)); [|no_name].
  unfold bind at 1.
  match goal with
  | |- context [_wait_for_hetzner_action ?a ?t ?w1] =>
      destruct (_wait_for_hetzner_action a t w1) as [[s|e|] w2] eqn:Ew
  end.
  - destruct (String.eqb s "success") eqn:Es; [|no_name].
    apply String.eqb_eq in Es. subst s.
    unfold ret. intros H. inversion H; subst. right. split; [reflexivity|].
    apply wait_for_hetzner_action_success in Ew.
    destruct Ew as (earlier & last & st & d & Hw & Ha & Hs). simpl in Hw.
    exists (r :: earlier), last, st, d. rewrite En, Hw. auto.
  - destruct e; no_name.
  - discriminate.
Qed.

(* ================================================================= *)
(** ** What the steps other than deletion leave alone *)

Lemma appends_weaken {A} (Q Q' : Event -> Prop) (m : M A) :
  (forall e, Q e -> Q' e) -> appends Q m -> appends Q' m.
Proof.
  intros HQ Hm w. destruct (Hm w) as (new & E & F).
  exists new. split; [exact E|]. eapply Forall_impl; eassumption.
Qed.

Lemma do_collect_quiet (server : ServerConfig) (items : list DoItem)
    (acc : list Snapshot) : appends quiet_event (do_collect server items acc).
Proof.
  intros w. destruct (do_collect_eq server items acc w) as (w' & logs & E & _ & V & F).
  exists logs. rewrite E. auto.
Qed.

Lemma hz_collect_quiet (server : ServerConfig) (items : list HzItem)
    (acc : list Snapshot) : appends quiet_event (hz_collect server items acc).
Proof.
  intros w. destruct (hz_collect_eq server items acc w) as (w' & logs & E & _ & V & F).
  exists logs. rewrite E. auto.
Qed.

Lemma get_snapshots_quiet (server : ServerConfig) :
  appends quiet_event (get_snapshots server).
Proof.
  unfold get_snapshots.
  destruct (String.eqb (provider server) "digitalocean").
  - intros w. unfold get_digitalocean_snapshots.
    apply appends_iterate. intros [page acc]. unfold do_page.
    apply appends_try; [|intros []; tame].
    apply appends_bind; [tame | intros resp].
    apply appends_bind; [tame | intros _].
    apply appends_bind; [tame | intros data].
    destruct (js_snapshots data); [tame|].
    apply appends_bind; [apply do_collect_quiet | intros found; tame].
  - destruct (String.eqb (provider server) "hetzner"); [|tame].
    intros w. unfold get_hetzner_snapshots.
    apply appends_iterate. intros [page acc]. unfold hz_page.
    apply appends_try; [|intros []; tame].
    apply appends_bind; [tame | intros resp].
    apply appends_bind; [tame | intros _].
    apply appends_bind; [tame | intros data].
    destruct (js_images data); [tame|].
    apply appends_bind; [apply hz_collect_quiet | intros found; tame].
Qed.

Lemma wait_for_digitalocean_action_quiet (action_id timeout : Z) :
  appends quiet_event (_wait_for_digitalocean_action action_id timeout).
Proof. unfold _wait_for_digitalocean_action, do_poll. tame. Qed.

Lemma wait_for_hetzner_action_quiet (action_id timeout : Z) :
  appends quiet_event (_wait_for_hetzner_action action_id timeout).
Proof. unfold _wait_for_hetzner_action, hz_poll. tame. Qed.

Lemma create_snapshot_quiet (cfg : Config) (server : ServerConfig) :
  appends quiet_event (create_snapshot cfg server).
Proof.
  unfold create_snapshot.
  destruct (String.eqb (provider server) "digitalocean").
  - unfold create_digitalocean_snapshot.
    apply appends_bind; [tame | intros now].
    apply appends_try; [|intros []; tame].
    apply appends_bind; [tame | intros resp].
    apply appends_bind; [tame | intros _].
    apply appends_bind; [tame | intros data].
    destruct (truthy_num (js_action_id data)); [|tame].
    apply appends_bind; [apply wait_for_digitalocean_action_quiet | intros s; tame].
  - destruct (String.eqb (provider server) "hetzner"); [|tame].
    unfold create_hetzner_snapshot.
    apply appends_bind; [tame | intros now].
    apply appends_try; [|intros []; tame].
    apply appends_bind; [tame | intros resp].
    apply appends_bind; [tame | intros _].
    apply appends_bind; [tame | intros data].
    destruct (truthy_num (js_action_id data) && truthy_num (js_image_id data)); [|tame].
    apply appends_bind; [apply wait_for_hetzner_action_quiet | intros s; tame].
Qed.

Lemma send_telegram_notification_quiet (cfg : Config) (bot_token chat_id : option string)
    (retries base_delay : option Z) :
  appends quiet_event (send_telegram_notification cfg bot_token chat_id retries base_delay).
Proof. unfold send_telegram_notification, telegram_attempt. tame. Qed.

Lemma send_webhook_notification_quiet (cfg : Config) (webhook_url : option string)
    (retries base_delay : option Z) :
  appends quiet_event (send_webhook_notification cfg webhook_url retries base_delay).
Proof. unfold send_webhook_notification, webhook_attempt. tame. Qed.

Lemma send_telegram_notification_halts (cfg : Config) (bot_token chat_id : option string)
    (retries base_delay : option Z) :
  halts (send_telegram_notification cfg bot_token chat_id retries base_delay).
Proof. unfold send_telegram_notification, telegram_attempt. tame. Qed.

Lemma send_webhook_notification_halts (cfg : Config) (webhook_url : option string)
    (retries base_delay : option Z) :
  halts (send_webhook_notification cfg webhook_url retries base_delay).
Proof. unfold send_webhook_notification, webhook_attempt. tame. Qed.

(* ================================================================= *)
(** ** Creation: the name and when it is returned *)

Lemma create_digitalocean_snapshot_first_event (cfg : Config) (server : ServerConfig)
    (w : World) :
  exists evs,
    events (snd (create_digitalocean_snapshot cfg server w))
    = events w ++ Http (CreateDoSnapshot (server_id server) (local_name server w)) :: evs.
Proof.
  unfold create_digitalocean_snapshot, bind at 1, datetime_now. cbv beta iota.
  apply request_comes_first; [intros resp | intros []; tame].
  apply appends_weaken with (Q := quiet_event); [trivial|].
  apply appends_bind; [tame | intros _].
  apply appends_bind; [tame | intros data].
  destruct (truthy_num (js_action_id data)); [|tame].
  apply appends_bind; [apply wait_for_digitalocean_action_quiet | intros s; tame].
Qed.

Lemma create_hetzner_snapshot_first_event (cfg : Config) (server : ServerConfig)
    (w : World) :
  exists evs,
    events (snd (create_hetzner_snapshot cfg server w))
    = events w ++ Http (CreateHetznerImage (server_id server) (local_name server w)) :: evs.
Proof.
  unfold create_hetzner_snapshot, bind at 1, datetime_now. cbv beta iota.
  apply request_comes_first; [intros resp | intros []; tame].
  apply appends_weaken with (Q := quiet_event); [trivial|].
  apply appends_bind; [tame | intros _].
  apply appends_bind; [tame | intros data].
  destruct (truthy_num (js_action_id data) && truthy_num (js_image_id data)); [|tame].
  apply appends_bind; [apply wait_for_hetzner_action_quiet | intros s; tame].
Qed.

(** C9, as amended.  For either provider [create_*_snapshot] asks for a
    snapshot named with the server's name, a hyphen and the host's local time
    as YYYYMMDDHHMMSS ([datetime.now()] without a time zone, not UTC).  It
    always returns, never raises; what it returns is that name or nothing;
    and it returns the name only when the last answer it received was a
    poll response that reports the action "completed" (DigitalOcean) or
    "success" (Hetzner). *)
Theorem create_returns_name_only_on_success (cfg : Config) (server : ServerConfig)
    (w : World) :
  (exists o w' evs,
      create_digitalocean_snapshot cfg server w = (Ok o, w')
      /\ events w'
         = events w
           ++ Http (CreateDoSnapshot (server_id server) (local_name server w)) :: evs
      /\ (o = None
          \/ (o = Some (local_name server w)
              /\ last_answer_reports "completed" w w')))
  /\ (exists o w' evs,
         create_hetzner_snapshot cfg server w = (Ok o, w')
         /\ events w'
            = events w
              ++ Http (CreateHetznerImage (server_id server) (local_name server w)) :: evs
         /\ (o = None
             \/ (o = Some (local_name server w)
                 /\ last_answer_reports "success" w w'))).
Proof.
  split.
  - destruct (create_digitalocean_snapshot_returns cfg server w) as (o & w' & E).
    destruct (create_digitalocean_snapshot_first_event cfg server w) as (evs & V).
    rewrite E in V. simpl in V.
    exists o, w', evs. split; [exact E|]. split; [exact V|].
    eapply create_digitalocean_snapshot_result; exact E.
  - destruct (create_hetzner_snapshot_returns cfg server w) as (o & w' & E).
    destruct (create_hetzner_snapshot_first_event cfg server w) as (evs & V).
    rewrite E in V. simpl in V.
    exists o, w', evs. split; [exact E|]. split; [exact V|].
    eapply create_hetzner_snapshot_result; exact E.
Qed.

(** C9 as stated fails: on a host one hour ahead of UTC, at 13:32:34 UTC, the
    snapshot is named after 14:32:34. *)
Lemma create_name_is_not_utc :
  ~ (forall o w',
       create_digitalocean_snapshot default_config web
         (one_hour_ahead do_creation_goes_well) = (Ok o, w') ->
       o = None \/ o = Some (utc_name web (one_hour_ahead do_creation_goes_well))).
Proof.
  intros H.
  remember (create_digitalocean_snapshot default_config web
              (one_hour_ahead do_creation_goes_well)) as res eqn:E.
  vm_compute in E. subst res.
  specialize (H _ _ eq_refl).
  vm_compute in H. destruct H as [H|H]; discriminate H.
Qed.

(** A creation that goes well returns the name, with the local time in it. *)
Example create_digitalocean_snapshot_goes_well :
  fst (create_digitalocean_snapshot default_config web
         (one_hour_ahead do_creation_goes_well))
  = Ok (Some "web-20241202143234"%string).
Proof. vm_compute. reflexivity. Qed.

Example create_hetzner_snapshot_goes_well :
  fst (create_hetzner_snapshot default_config db
         (one_hour_ahead hz_creation_goes_well))
  = Ok (Some "db-20241202143234"%string).
Proof. vm_compute. reflexivity. Qed.

(** A creation that is still "in-progress" after the 900 seconds of the
    default configuration returns nothing, 181 requests and 180 sleeps of
    five seconds later. *)
Example create_digitalocean_snapshot_times_out :
  let res := create_digitalocean_snapshot default_config web
               (one_hour_ahead never_finishes) in
  fst res = Ok None
  /\ clock (snd res) = 1733146354 + 900
  /\ List.length (requests_of (events (snd res))) = 181%nat.
Proof. vm_compute. repeat split. Qed.

(* ================================================================= *)
(** ** The workflow of one server *)

Lemma quiet_events_delete_nothing (new : list Event) :
  Forall quiet_event new -> delete_requests new = [] /\ final_statuses new = [].
Proof.
  unfold delete_requests.
  induction 1 as [|e new He _ [IH1 IH2]]; [split; reflexivity|].
  destruct e as [[]|s|l m|r]; simpl in *; try contradiction; auto.
Qed.

Lemma no_status_events (new : list Event) :
  Forall no_status new -> final_statuses new = [].
Proof.
  induction 1 as [|e new He _ IH]; [reflexivity|].
  destruct e; simpl in *; try contradiction; auto.
Qed.

(** A step that is quiet leaves the delete requests and the FINAL_STATUS
    lines as they were. *)
Lemma quiet_step {A} (m : M A) (w : World) :
  appends quiet_event m ->
  delete_requests (events (snd (m w))) = delete_requests (events w)
  /\ final_statuses (events (snd (m w))) = final_statuses (events w).
Proof.
  intros Hm. destruct (Hm w) as (new & E & F).
  destruct (quiet_events_delete_nothing new F) as [D S].
  rewrite E, delete_requests_app, final_statuses_app, D, S, !app_nil_r.
  split; reflexivity.
Qed.

Lemma delete_snapshots_no_status (server : ServerConfig) (l : list Snapshot) :
  appends no_status (delete_snapshots server l).
Proof.
  unfold delete_snapshots, delete_digitalocean_snapshots, delete_hetzner_snapshots,
    do_delete_one, hz_delete_one.
  tame.
Qed.

Lemma delete_snapshots_returns (server : ServerConfig) (l : list Snapshot) :
  returns (delete_snapshots server l).
Proof.
  unfold delete_snapshots, delete_digitalocean_snapshots, delete_hetzner_snapshots.
  destruct (String.eqb (provider server) "digitalocean");
    [destruct l; [tame | apply returns_for_each, returns_do_delete_one]|].
  destruct (String.eqb (provider server) "hetzner");
    [destruct l; [tame | apply returns_for_each, returns_hz_delete_one]|].
  tame.
Qed.

(** With a provider the script does not know, nothing is listed. *)
Lemma get_snapshots_unknown_provider (server : ServerConfig) (w w' : World)
    (l : list Snapshot) :
  String.eqb (provider server) "digitalocean" = false ->
  String.eqb (provider server) "hetzner" = false ->
  get_snapshots server w = (Ok l, w') -> l = [].
Proof.
  unfold get_snapshots. intros -> ->.
  unfold bind, log, emit, ret. simpl. intros H. inversion H. reflexivity.
Qed.

Lemma deleted_ids_do (l : list Snapshot) :
  deleted_ids (map (fun snap => DeleteDoSnapshot (snap_id snap)) l) = map snap_id l.
Proof. induction l as [|x l IH]; simpl; rewrite ?IH; reflexivity. Qed.

Lemma deleted_ids_hz (l : list Snapshot) :
  deleted_ids (map (fun snap => DeleteHetznerImage (snap_id snap)) l) = map snap_id l.
Proof. induction l as [|x l IH]; simpl; rewrite ?IH; reflexivity. Qed.

(** With a provider the script knows, deleting a list asks for the deletion
    of each of its records, in order. *)
Lemma delete_snapshots_requests (server : ServerConfig) (l : list Snapshot) (w : World) :
  String.eqb (provider server) "digitalocean" = true
  \/ String.eqb (provider server) "hetzner" = true ->
  exists w',
    delete_snapshots server l w = (Ok tt, w')
    /\ delete_requests (events w') = delete_requests (events w) ++ map snap_id l.
Proof.
  intros Hp. unfold delete_snapshots, delete_requests.
  destruct (String.eqb (provider server) "digitalocean").
  - destruct (delete_digitalocean_snapshots_all server l w) as (w' & E & R).
    exists w'. split; [exact E|].
    rewrite R, deleted_ids_app, deleted_ids_do. reflexivity.
  - destruct Hp as [Hp|Hp]; [discriminate|]. rewrite Hp.
    destruct (delete_hetzner_snapshots_all server l w) as (w' & E & R).
    exists w'. split; [exact E|].
    rewrite R, deleted_ids_app, deleted_ids_hz. reflexivity.
Qed.

Lemma snapshot_name_of_truthy (server : ServerConfig) (timestamp : string) :
  truthy (Some (snapshot_name_of server timestamp)) = true.
Proof.
  unfold truthy, snapshot_name_of.
  destruct (server_name server); reflexivity.
Qed.

(** What [create_snapshot] returns is nothing or the name with the local
    time in it, which is not the empty string. *)
Lemma create_snapshot_result (cfg : Config) (server : ServerConfig) (w w' : World)
    (o : option string) :
  create_snapshot cfg server w = (Ok o, w') ->
  o = None \/ o = Some (local_name server w).
Proof.
  unfold create_snapshot.
  destruct (String.eqb (provider server) "digitalocean").
  - intros H. apply create_digitalocean_snapshot_result in H. tauto.
  - destruct (String.eqb (provider server) "hetzner").
    + intros H. apply create_hetzner_snapshot_result in H. tauto.
    + no_name.
Qed.

(** [write_final_status] writes the FINAL_STATUS line first; what follows
    (the notifications) neither deletes anything nor writes another such
    line, and returns or raises. *)
Lemma write_final_status_events (cfg : Config) (server : ServerConfig)
    (snapshot_name : string) (total_snapshots : nat) (status : string) (w : World) :
  fst (write_final_status cfg server snapshot_name total_snapshots status w) <> Diverged
  /\ exists tail,
       events (snd (write_final_status cfg server snapshot_name total_snapshots status w))
       = events w
         ++ FinalStatus {| rr_provider := provider server;
                           rr_server := server_name server;
                           rr_status := status;
                           rr_snapshot_name := snapshot_name;
                           rr_total_snapshots := total_snapshots |} :: tail
       /\ Forall quiet_event tail.
Proof.
  unfold write_final_status, bind at 1, emit. cbv beta iota zeta.
  match goal with
  | |- fst (?m ?we) <> _ /\ _ =>
      assert (H1 : halts m);
      [| assert (H2 : appends quiet_event m);
         [| split; [apply H1|];
            destruct (H2 we) as (tail & E & F);
            exists tail; split; [|exact F];
            etransitivity; [exact E|];
            simpl; rewrite <- app_assoc; reflexivity ] ]
  end.
  - apply halts_bind; [|intros _].
    + destruct (telegram_enabled server); [|tame].
      destruct (truthy (telegram_bot_token server) && truthy (telegram_chat_id server)).
      * apply halts_bind; [apply send_telegram_notification_halts | intros; tame].
      * destruct (truthy (TELEGRAM_BOT_TOKEN cfg) && truthy (TELEGRAM_CHAT_ID cfg));
          [|tame].
        apply halts_bind; [apply send_telegram_notification_halts | intros; tame].
    + match goal with |- halts (if ?c then _ else _) => destruct c end; [|tame].
      apply halts_bind; [apply send_webhook_notification_halts | intros; tame].
  - apply appends_bind; [|intros _].
    + destruct (telegram_enabled server); [|tame].
      destruct (truthy (telegram_bot_token server) && truthy (telegram_chat_id server)).
      * apply appends_bind; [apply send_telegram_notification_quiet | intros; tame].
      * destruct (truthy (TELEGRAM_BOT_TOKEN cfg) && truthy (TELEGRAM_CHAT_ID cfg));
          [|tame].
        apply appends_bind; [apply send_telegram_notification_quiet | intros; tame].
    + match goal with |- appends _ (if ?c then _ else _) => destruct c end; [|tame].
      apply appends_bind; [apply send_webhook_notification_quiet | intros; tame].
Qed.

Lemma nth_length_app {A} (l : list A) (x d : A) : nth (List.length l) (l ++ [x]) d = x.
Proof. induction l as [|y l IH]; simpl; auto. Qed.

Lemma set_nth_length_app {A} (l : list A) (x y : A) :
  set_nth (List.length l) y (l ++ [x]) = l ++ [y].
Proof. induction l as [|z l IH]; simpl; [reflexivity | rewrite IH; reflexivity]. Qed.

Lemma slice_from_nil {A} (r : Z) : slice_from (@nil A) r = [].
Proof. unfold slice_from. apply skipn_nil. Qed.

(** The five steps, one after the other. *)
Lemma manage_steps (cfg : Config) (server : ServerConfig) (w : World) :
  exists listed w1 created w2 w3 updated w4,
    get_snapshots server w = (Ok listed, w1)
    /\ create_snapshot cfg server (with_sorted_list w1 listed) = (Ok created, w2)
    /\ (created = None \/ created = Some (local_name server w1))
    /\ ((slice_from (sort_created_at_reverse listed) (retain_last_snapshots server) = []
         /\ w3 = w2)
        \/ (slice_from (sort_created_at_reverse listed) (retain_last_snapshots server) <> []
            /\ delete_snapshots server
                 (slice_from (sort_created_at_reverse listed) (retain_last_snapshots server))
                 w2 = (Ok tt, w3)))
    /\ delete_requests (events w3)
       = delete_requests (events w2)
         ++ map snap_id
              (slice_from (sort_created_at_reverse listed) (retain_last_snapshots server))
    /\ final_statuses (events w3) = final_statuses (events w2)
    /\ get_snapshots server w3 = (Ok updated, w4)
    /\ manage_snapshots_for_server cfg server w
       = write_final_status cfg server
           (rr_snapshot_name (run_result_of server created (List.length updated)))
           (List.length updated)
           (rr_status (run_result_of server created (List.length updated))) w4.
Proof.
  destruct (get_snapshots_returns server w) as (listed & w1 & E1).
  destruct (create_snapshot_returns cfg server (with_sorted_list w1 listed))
    as (created & w2 & E2).
  remember (slice_from (sort_created_at_reverse listed)
              (retain_last_snapshots server)) as to_delete eqn:Eto.
  assert (Hdel : exists w3,
             (match to_delete with
              | [] => ret tt
              | _ => delete_snapshots server to_delete
              end) w2 = (Ok tt, w3)
             /\ ((to_delete = [] /\ w3 = w2)
                 \/ (to_delete <> [] /\ delete_snapshots server to_delete w2 = (Ok tt, w3)))
             /\ delete_requests (events w3)
                = delete_requests (events w2) ++ map snap_id to_delete
             /\ final_statuses (events w3) = final_statuses (events w2)).
  { destruct to_delete as [|snap rest].
    - exists w2. simpl. rewrite app_nil_r. auto.
    - assert (Hp : String.eqb (provider server) "digitalocean" = true
                   \/ String.eqb (provider server) "hetzner" = true).
      { destruct (String.eqb (provider server) "digitalocean") eqn:P1; [auto|].
        destruct (String.eqb (provider server) "hetzner") eqn:P2; [auto|].
        exfalso.
        rewrite (get_snapshots_unknown_provider server w w1 listed P1 P2 E1) in Eto.
        simpl in Eto. rewrite slice_from_nil in Eto. discriminate. }
      destruct (delete_snapshots_requests server (snap :: rest) w2 Hp) as (w3 & E3 & D3).
      exists w3. split; [exact E3|].
      split; [right; split; [discriminate | exact E3]|].
      split; [exact D3|].
      destruct (delete_snapshots_no_status server (snap :: rest) w2) as (new & V & F).
      rewrite E3 in V. simpl in V.
      rewrite V, final_statuses_app, (no_status_events new F), app_nil_r.
      reflexivity. }
  destruct Hdel as (w3 & E3 & Hcase & D3 & S3).
  destruct (get_snapshots_returns server w3) as (updated & w4 & E4).
  exists listed, w1, created, w2, w3, updated, w4.
  rewrite <- Eto.
  assert (Hname := create_snapshot_result cfg server _ _ _ E2).
  split; [exact E1|]. split; [exact E2|]. split; [exact Hname|].
  split; [exact Hcase|]. split; [exact D3|]. split; [exact S3|]. split; [exact E4|].
  unfold manage_snapshots_for_server.
  unfold bind at 1. rewrite E1.
  unfold bind at 1, new_list.
  unfold bind at 1. rewrite identify_snapshots_to_delete_eq.
  unfold deref. simpl heap. rewrite nth_length_app, set_nth_length_app.
  simpl clock; simpl utc_offset; simpl network; simpl events.
  fold (with_sorted_list w1 listed). rewrite <- Eto.
  unfold bind at 1. rewrite E2.
  unfold bind at 1. rewrite E3.
  unfold bind at 1. rewrite E4.
  destruct Hname as [->| ->]; [reflexivity|].
  unfold local_name. rewrite snapshot_name_of_truthy. reflexivity.
Qed.

Lemma slice_from_incl {A} (l : list A) (r : Z) : incl (slice_from l r) l.
Proof.
  unfold slice_from. intros x Hx.
  match goal with
  | H : In x (skipn ?n l) |- _ => rewrite <- (firstn_skipn n l)
  end.
  apply in_or_app. right. exact Hx.
Qed.

(** The FINAL_STATUS lines and delete requests up to the last listing. *)
Lemma manage_events (cfg : Config) (server : ServerConfig) (w : World)
    (listed : list Snapshot) (w1 : World) (created : option string) (w2 w3 : World)
    (updated : list Snapshot) (w4 : World) :
  get_snapshots server w = (Ok listed, w1) ->
  create_snapshot cfg server (with_sorted_list w1 listed) = (Ok created, w2) ->
  get_snapshots server w3 = (Ok updated, w4) ->
  (delete_requests (events w2) = delete_requests (events w)
   /\ final_statuses (events w2) = final_statuses (events w))
  /\ (delete_requests (events w4) = delete_requests (events w3)
      /\ final_statuses (events w4) = final_statuses (events w3)).
Proof.
  intros E1 E2 E4.
  pose proof (quiet_step _ w (get_snapshots_quiet server)) as [D1 S1].
  rewrite E1 in D1, S1. simpl in D1, S1.
  pose proof (quiet_step _ (with_sorted_list w1 listed) (create_snapshot_quiet cfg server))
    as [D2 S2].
  rewrite E2 in D2, S2. simpl in D2, S2.
  pose proof (quiet_step _ w3 (get_snapshots_quiet server)) as [D4 S4].
  rewrite E4 in D4, S4. simpl in D4, S4.
  rewrite D2, S2, D1, S1, D4, S4. auto.
Qed.

(** C2.  In the workflow of one server the FINAL_STATUS line (the run's
    result) is written once; its status is "success" exactly when
    [create_snapshot] returned a name, and then the line carries that name;
    when [create_snapshot] returned nothing (failure, error, time-out) the
    line carries "none", and the delete requests for the candidates selected
    from the first listing have been issued all the same, after the
    creation step whatever its outcome. *)
Theorem workflow_status_follows_creation (cfg : Config) (server : ServerConfig)
    (w : World) :
  exists listed w1 created w2 w3 updated w4,
    get_snapshots server w = (Ok listed, w1)
    /\ create_snapshot cfg server (with_sorted_list w1 listed) = (Ok created, w2)
    /\ ((slice_from (sort_created_at_reverse listed) (retain_last_snapshots server) = []
         /\ w3 = w2)
        \/ (slice_from (sort_created_at_reverse listed) (retain_last_snapshots server) <> []
            /\ delete_snapshots server
                 (slice_from (sort_created_at_reverse listed) (retain_last_snapshots server))
                 w2 = (Ok tt, w3)))
    /\ delete_requests (events w3)
       = delete_requests (events w2)
         ++ map snap_id
              (slice_from (sort_created_at_reverse listed) (retain_last_snapshots server))
    /\ get_snapshots server w3 = (Ok updated, w4)
    /\ fst (manage_snapshots_for_server cfg server w) <> Diverged
    /\ final_statuses (events (snd (manage_snapshots_for_server cfg server w)))
       = final_statuses (events w) ++ [run_result_of server created (List.length updated)]
    /\ delete_requests (events (snd (manage_snapshots_for_server cfg server w)))
       = delete_requests (events w3)
    /\ (rr_status (run_result_of server created (List.length updated)) = "success"%string
        <-> exists name, created = Some name)
    /\ (created = None ->
        rr_status (run_result_of server created (List.length updated)) = "failure"%string
        /\ rr_snapshot_name (run_result_of server created (List.length updated))
           = "none"%string).
Proof.
  destruct (manage_steps cfg server w)
    as (listed & w1 & created & w2 & w3 & updated & w4
        & E1 & E2 & Hname & Hcase & D3 & S3 & E4 & Em).
  exists listed, w1, created, w2, w3, updated, w4.
  destruct (manage_events cfg server w listed w1 created w2 w3 updated w4 E1 E2 E4)
    as [[D2 S2] [D4 S4]].
  destruct (write_final_status_events cfg server
              (rr_snapshot_name (run_result_of server created (List.length updated)))
              (List.length updated)
              (rr_status (run_result_of server created (List.length updated))) w4)
    as (Hh & tail & V & F).
  destruct (quiet_events_delete_nothing tail F) as [Dt St].
  rewrite Em.
  split; [exact E1|]. split; [exact E2|]. split; [exact Hcase|].
  split; [exact D3|]. split; [exact E4|].
  split; [exact Hh|].
  split.
  { rewrite V, final_statuses_app. simpl. rewrite St, S4, S3, S2. reflexivity. }
  split.
  { rewrite V, delete_requests_app.
    change (FinalStatus ?r :: tail) with ([FinalStatus r] ++ tail).
    rewrite delete_requests_app, Dt, D4. simpl. rewrite app_nil_r. reflexivity. }
  split.
  { destruct created as [name|]; simpl; split; intros H.
    - exists name. reflexivity.
    - reflexivity.
    - discriminate.
    - destruct H as (name & H). discriminate. }
  intros ->. simpl. split; reflexivity.
Qed.

(** C7.  The delete requests of a workflow are those for the candidates
    selected from the list that was fetched before [create_snapshot] was
    called, and none is issued before the creation step has ended.  A
    snapshot that was not on that list, as the one the creation step makes,
    is not among them, whatever the list and the retain count. *)
Theorem created_snapshot_is_not_deleted (cfg : Config) (server : ServerConfig)
    (w : World) :
  exists listed w1 created w2,
    get_snapshots server w = (Ok listed, w1)
    /\ create_snapshot cfg server (with_sorted_list w1 listed) = (Ok created, w2)
    /\ delete_requests (events w2) = delete_requests (events w)
    /\ delete_requests (events (snd (manage_snapshots_for_server cfg server w)))
       = delete_requests (events w)
         ++ map snap_id
              (slice_from (sort_created_at_reverse listed) (retain_last_snapshots server))
    /\ incl (slice_from (sort_created_at_reverse listed) (retain_last_snapshots server))
         listed
    /\ forall new_id,
         ~ In new_id (map snap_id listed) ->
         ~ In new_id
             (map snap_id
                (slice_from (sort_created_at_reverse listed)
                   (retain_last_snapshots server))).
Proof.
  destruct (manage_steps cfg server w)
    as (listed & w1 & created & w2 & w3 & updated & w4
        & E1 & E2 & Hname & Hcase & D3 & S3 & E4 & Em).
  exists listed, w1, created, w2.
  destruct (manage_events cfg server w listed w1 created w2 w3 updated w4 E1 E2 E4)
    as [[D2 S2] [D4 S4]].
  destruct (write_final_status_events cfg server
              (rr_snapshot_name (run_result_of server created (List.length updated)))
              (List.length updated)
              (rr_status (run_result_of server created (List.length updated))) w4)
    as (Hh & tail & V & F).
  destruct (quiet_events_delete_nothing tail F) as [Dt St].
  assert (Hincl : incl (slice_from (sort_created_at_reverse listed)
                          (retain_last_snapshots server)) listed).
  { intros x Hx. apply slice_from_incl in Hx.
    eapply Permutation_in; [apply sort_created_at_reverse_perm | exact Hx]. }
  split; [exact E1|]. split; [exact E2|]. split; [exact D2|].
  split.
  { rewrite Em, V, delete_requests_app.
    change (FinalStatus ?r :: tail) with ([FinalStatus r] ++ tail).
    rewrite delete_requests_app, Dt, D4, D3, D2. simpl. rewrite app_nil_r.
    reflexivity. }
  split; [exact Hincl|].
  intros new_id Hnew Hin. apply Hnew.
  apply in_map_iff in Hin. destruct Hin as (x & Hx & Hin).
  apply in_map_iff. exists x. split; [exact Hx | apply Hincl; exact Hin].
Qed.

(** Five snapshots, retain 3, the creation goes well: the two oldest are
    deleted, the status is "success" and the final count is 4. *)
Example workflow_five_snapshots_retain_3 :
  let res := manage_snapshots_for_server default_config web_retain_3
               five_snapshots_retain_3 in
  fst res = Ok tt
  /\ delete_requests (events (snd res)) = ["102"; "101"]%string
  /\ final_statuses (events (snd res))
     = [{| rr_provider := "digitalocean"; rr_server := "web"; rr_status := "success";
           rr_snapshot_name := "web-20241202133234"; rr_total_snapshots := 4 |}].
Proof. vm_compute. repeat split. Qed.

(** The creation times out: status "failure", name "none", and the two
    oldest snapshots are deleted all the same. *)
Example workflow_creation_times_out :
  let res := manage_snapshots_for_server hasty_config web_retain_3
               five_snapshots_creation_times_out in
  fst res = Ok tt
  /\ delete_requests (events (snd res)) = ["102"; "101"]%string
  /\ final_statuses (events (snd res))
     = [{| rr_provider := "digitalocean"; rr_server := "web"; rr_status := "failure";
           rr_snapshot_name := "none"; rr_total_snapshots := 3 |}].
Proof. vm_compute. repeat split. Qed.

(* ================================================================= *)
(** ** The run over all servers *)

Lemma manage_snapshots_for_server_halts (cfg : Config) (server : ServerConfig) :
  halts (manage_snapshots_for_server cfg server).
Proof.
  intros w.
  destruct (manage_steps cfg server w)
    as (listed & w1 & created & w2 & w3 & updated & w4 & _ & _ & _ & _ & _ & _ & _ & Em).
  rewrite Em. apply write_final_status_events.
Qed.

Lemma count_of_cons (p : Result unit -> bool) (r : Result unit) (l : list (Result unit)) :
  count_of p (r :: l) = one_if (p r) + count_of p l.
Proof.
  unfold count_of, one_if. simpl. destruct (p r); simpl List.length; lia.
Qed.

Lemma sleep_cases (seconds : Z) :
  (0 <= seconds <= SLEEP_MAX
   /\ (seconds <? 0) || (SLEEP_MAX <? seconds) = false)
  \/ ((seconds < 0 \/ SLEEP_MAX < seconds)
      /\ (seconds <? 0) || (SLEEP_MAX <? seconds) = true).
Proof.
  destruct (Z.lt_ge_cases seconds 0) as [H|H].
  - right. split; [left; exact H | apply sleep_refused; left; exact H].
  - destruct (Z.lt_ge_cases SLEEP_MAX seconds) as [H'|H'].
    + right. split; [right; exact H' | apply sleep_refused; right; exact H'].
    + left. split; [lia | apply sleep_accepted; lia].
Qed.

(** One round of the loop of [run], whatever the workflow: it always goes
    on to the next server; a workflow that returned is counted as a success,
    one that raised as a failure; and the inter-server sleep, which raises on
    a delay that [time.sleep] does not accept, then adds a failure to the
    success already counted. *)
Lemma run_one_counts (manage : ServerConfig -> M unit) (cfg : Config)
    (total idx : Z) (server : ServerConfig) (c : Counts) (w : World) :
  fst (manage server w) <> Diverged ->
  exists c',
    run_one manage cfg total idx server c w
    = (Ok c', snd (run_one manage cfg total idx server
                     {| success_count := 0; failure_count := 0 |} w))
    /\ success_count c'
       = success_count c + one_if (returned (fst (manage server w)))
    /\ failure_count c + one_if (raised (fst (manage server w))) <= failure_count c'
    /\ (0 <= DELAY_BETWEEN_SERVERS cfg <= SLEEP_MAX ->
        failure_count c'
        = failure_count c + one_if (raised (fst (manage server w))))
    /\ (DELAY_BETWEEN_SERVERS cfg < 0 \/ SLEEP_MAX < DELAY_BETWEEN_SERVERS cfg ->
        failure_count c'
        = failure_count c + one_if (raised (fst (manage server w)))
          + one_if (returned (fst (manage server w)) && (idx <? total - 1))).
Proof.
  intros Hh. unfold run_one.
  destruct (manage server w) as [[[]|e|] w1]; simpl in Hh; [| |congruence].
  - destruct (idx <? total - 1).
    + unfold time_sleep.
      destruct (sleep_cases (DELAY_BETWEEN_SERVERS cfg)) as [[Hr ->]|[Hr ->]];
        (eexists; split; [reflexivity|]); simpl; repeat split; intros; lia.
    + eexists. split; [reflexivity|]. simpl. repeat split; intros; lia.
  - eexists. split; [reflexivity|]. simpl. repeat split; intros; lia.
Qed.

Lemma run_loop_counts (manage : ServerConfig -> M unit) (cfg : Config) (total : Z)
    (servers : list ServerConfig) :
  (forall server, halts (manage server)) ->
  forall (idx : Z) (c : Counts) (w : World),
  exists c' w',
    run_loop manage cfg total idx servers c w = (Ok c', w')
    /\ success_count c'
       = success_count c
         + count_of returned (workflow_results manage cfg total idx servers w)
    /\ failure_count c
       + count_of raised (workflow_results manage cfg total idx servers w)
       <= failure_count c'
    /\ (0 <= DELAY_BETWEEN_SERVERS cfg <= SLEEP_MAX ->
        failure_count c'
        = failure_count c
          + count_of raised (workflow_results manage cfg total idx servers w)).
Proof.
  intros Hh.
  induction servers as [|server rest IH]; intros idx c w; simpl.
  - exists c, w. unfold count_of. simpl. repeat split; lia.
  - destruct (run_one_counts manage cfg total idx server c w (Hh server w))
      as (c1 & E1 & S1 & F1 & G1 & _).
    unfold bind. rewrite E1.
    destruct (IH (idx + 1) c1
                (snd (run_one manage cfg total idx server
                        {| success_count := 0; failure_count := 0 |} w)))
      as (c' & w' & E & S & F & G).
    exists c', w'. rewrite !count_of_cons.
    split; [exact E|]. split; [lia|]. split; [lia|].
    intros Hd. specialize (G Hd). specialize (G1 Hd). lia.
Qed.



(** A workflow that raises (the webhook call crashes) and one that returns:
    one failure and one success are counted, exit code 2.  The one that
    raises alone: exit code 1.  No server: exit code 0. *)
Example run_partial_failure :
  fst (run default_config [hooked; web] webhook_call_crashes)
  = Ok ({| success_count := 1; failure_count := 1 |}, 2).
Proof. vm_compute. reflexivity. Qed.

Example run_total_failure :
  fst (run default_config [hooked] webhook_call_crashes)
  = Ok ({| success_count := 0; failure_count := 1 |}, 1).
Proof. vm_compute. reflexivity. Qed.

Example main_without_servers :
  fst (main default_config [] network_down) = Ok 0.
Proof. reflexivity. Qed.

Lemma workflow_results_length (manage : ServerConfig -> M unit) (cfg : Config)
    (total : Z) (servers : list ServerConfig) :
  forall idx w,
    List.length (workflow_results manage cfg total idx servers w) = List.length servers.
Proof.
  induction servers as [|s l IH]; intros idx w; simpl; [reflexivity|].
  rewrite IH. reflexivity.
Qed.

Lemma count_of_all_returned (l : list (Result unit)) :
  Forall (fun r => r = Ok tt) l ->
  count_of returned l = Z.of_nat (List.length l) /\ count_of raised l = 0.
Proof.
  induction 1 as [|r l Hr _ [IH1 IH2]]; [split; reflexivity|].
  rewrite !count_of_cons, IH1, IH2. subst r.
  unfold one_if, returned, raised. simpl List.length. split; lia.
Qed.





(* ================================================================= *)
(** ** More on the retention selector *)

Lemma insert_desc_same_instant (x : Snapshot) (l : list Snapshot) (t : Z) :
  filter (fun s => created_at s =? t) (insert_desc x l)
  = filter (fun s => created_at s =? t) (x :: l).
Proof.
  induction l as [|y l IH]; simpl; [reflexivity|].
  destruct (created_at y <=? created_at x) eqn:E; [reflexivity|].
  apply Z.leb_gt in E. simpl. simpl in IH. rewrite IH.
  destruct (created_at x =? t) eqn:Ex; [|reflexivity].
  apply Z.eqb_eq in Ex.
  destruct (created_at y =? t) eqn:Ey; [|reflexivity].
  apply Z.eqb_eq in Ey. lia.
Qed.

(** X1.  The sort of [identify_snapshots_to_delete] is stable: the
    snapshots that carry one and the same creation timestamp stand in the
    sorted list in the order they had in the listing.  Of two snapshots of
    the same instant the one listed later is therefore the first to be
    selected for deletion. *)
Theorem sort_keeps_order_of_equal_timestamps (l : list Snapshot) (t : Z) :
  filter (fun s => created_at s =? t) (sort_created_at_reverse l)
  = filter (fun s => created_at s =? t) l.
Proof.
  induction l as [|x l IH]; [reflexivity|].
  simpl sort_created_at_reverse. rewrite insert_desc_same_instant.
  simpl. rewrite IH. reflexivity.
Qed.

Lemma slice_from_negative {A} (l : list A) (r : Z) :
  r < 0 ->
  slice_from l r
  = skipn (List.length l - Z.to_nat (Z.min (- r) (Z.of_nat (List.length l)))) l.
Proof.
  intros Hr. unfold slice_from.
  destruct (r <? 0) eqn:E; [|apply Z.ltb_ge in E; lia].
  f_equal. lia.
Qed.

(** X2.  A negative retain count (the configuration accepts any integer) is
    Python's slice from the end: with [r < 0] the call returns the
    [min(-r, |S|)] oldest records, in descending order, and keeps all the
    others, each of which is as recent as or more recent than every returned
    one. *)
Theorem identify_negative_retain (server : ServerConfig) (snapshots : Ref)
    (r : Z) (w : World) :
  r < 0 ->
  exists kept to_delete w',
    identify_snapshots_to_delete server snapshots r w = (Ok to_delete, w')
    /\ deref w' snapshots = kept ++ to_delete
    /\ Permutation (kept ++ to_delete) (deref w snapshots)
    /\ Z.of_nat (List.length to_delete)
       = Z.min (- r) (Z.of_nat (List.length (deref w snapshots)))
    /\ (forall d k, In d to_delete -> In k kept -> created_at d <= created_at k)
    /\ descending to_delete.
Proof.
  intros Hr.
  set (sorted := sort_created_at_reverse (deref w snapshots)).
  assert (Hlen : List.length sorted = List.length (deref w snapshots))
    by (apply Permutation_length, sort_created_at_reverse_perm).
  set (n := (List.length sorted
             - Z.to_nat (Z.min (- r) (Z.of_nat (List.length sorted))))%nat).
  exists (firstn n sorted), (skipn n sorted).
  eexists. rewrite identify_snapshots_to_delete_eq.
  fold sorted. rewrite slice_from_negative by assumption. fold n.
  split; [reflexivity|].
  rewrite deref_after_identify. fold sorted.
  rewrite firstn_skipn.
  assert (Hdesc : descending (firstn n sorted ++ skipn n sorted))
    by (rewrite firstn_skipn; apply sort_created_at_reverse_descending).
  repeat split.
  - apply sort_created_at_reverse_perm.
  - rewrite length_skipn. unfold n. rewrite <- Hlen. lia.
  - apply descending_app_le; assumption.
  - eapply descending_app_r; eassumption.
Qed.

(** A retain count of -1 on a list of two: the older one goes. *)
Lemma identify_negative_retain_witness :
  exists kept to_delete w',
    identify_snapshots_to_delete web 0%nat (-1) (world_at 0 [] [oldest_first])
    = (Ok to_delete, w')
    /\ deref w' 0%nat = kept ++ to_delete
    /\ Permutation (kept ++ to_delete) (deref (world_at 0 [] [oldest_first]) 0%nat)
    /\ Z.of_nat (List.length to_delete)
       = Z.min (- -1) (Z.of_nat (List.length (deref (world_at 0 [] [oldest_first]) 0%nat)))
    /\ (forall d k, In d to_delete -> In k kept -> created_at d <= created_at k)
    /\ descending to_delete.
Proof.
  apply (identify_negative_retain web 0%nat (-1) (world_at 0 [] [oldest_first])).
  lia.
Defined.

(** X3.  The two ends of the retain count.  With a retain count of 0 every
    listed snapshot is returned for deletion (the whole list, newest first);
    with a retain count of at least the length of the list nothing is
    returned. *)
Theorem identify_retain_ends (server : ServerConfig) (snapshots : Ref)
    (r : Z) (w : World) :
  (r = 0 ->
   fst (identify_snapshots_to_delete server snapshots r w)
   = Ok (sort_created_at_reverse (deref w snapshots)))
  /\ (Z.of_nat (List.length (deref w snapshots)) <= r ->
      fst (identify_snapshots_to_delete server snapshots r w) = Ok []).
Proof.
  rewrite identify_snapshots_to_delete_eq. simpl. split; intros H.
  - subst r. rewrite slice_from_nonneg by lia. reflexivity.
  - rewrite slice_from_nonneg by lia.
    rewrite skipn_all2; [reflexivity|].
    rewrite (Permutation_length (sort_created_at_reverse_perm (deref w snapshots))).
    lia.
Qed.

(* ================================================================= *)
(** ** Notification: delivery after failed attempts *)






(* ================================================================= *)
(** ** Listing: all pages *)

Lemma do_page_last (server : ServerConfig) (page : Z) (acc : list Snapshot)
    (w : World) (r : Reply) (rest : list Reply) (data : Json) :
  network w = r :: rest ->
  do_last_page r data ->
  exists w',
    do_page server (page, acc) w
    = (Ok (Break (acc ++ do_records server (js_snapshots data))), w')
    /\ network w' = rest.
Proof.
  intros Hn (status & Ha & Hs & Hlast).
  unfold do_page, try_except, bind at 1, request. rewrite Hn, Ha. simpl.
  unfold bind at 1, raise_for_status. rewrite (status_ok _ Hs). simpl.
  unfold bind at 1, ret at 1.
  destruct (js_snapshots data) as [|i items] eqn:Ei.
  - simpl. rewrite app_nil_r. eexists. split; reflexivity.
  - destruct Hlast as [Hl|Hl]; [discriminate|].
    unfold bind at 1.
    match goal with
    | |- context [do_collect server (i :: items) acc ?w1] =>
        destruct (do_collect_eq server (i :: items) acc w1) as (w' & logs & E & N & _)
    end.
    rewrite E, Hl. simpl in *. exists w'. split; [reflexivity | exact N].
Qed.

Lemma hz_page_last (server : ServerConfig) (page : Z) (acc : list Snapshot)
    (w : World) (r : Reply) (rest : list Reply) (data : Json) :
  network w = r :: rest ->
  hz_last_page r data ->
  exists w',
    hz_page server (page, acc) w
    = (Ok (Break (acc ++ hz_records server (js_images data))), w')
    /\ network w' = rest.
Proof.
  intros Hn (status & Ha & Hs & Hlast).
  unfold hz_page, try_except, bind at 1, request. rewrite Hn, Ha. simpl.
  unfold bind at 1, raise_for_status. rewrite (status_ok _ Hs). simpl.
  unfold bind at 1, ret at 1.
  destruct (js_images data) as [|i items] eqn:Ei.
  - simpl. rewrite app_nil_r. eexists. split; reflexivity.
  - destruct Hlast as [Hl|Hl]; [discriminate|].
    unfold bind at 1.
    match goal with
    | |- context [hz_collect server (i :: items) acc ?w1] =>
        destruct (hz_collect_eq server (i :: items) acc w1) as (w' & logs & E & N & _)
    end.
    rewrite E, Hl. simpl in *. exists w'. split; [reflexivity | exact N].
Qed.

Lemma do_pages_until_last (server : ServerConfig) (last : Reply) (data : Json)
    (rest : list Reply) :
  do_last_page last data ->
  forall (replies : list Reply) (pages : list Json),
    Forall2 do_full_page replies pages ->
    forall (budget : nat) (page : Z) (acc : list Snapshot) (w : World),
      network w = replies ++ last :: rest ->
      (List.length replies < budget)%nat ->
      exists w',
        iterate budget (do_page server) (page, acc) w
        = (Ok (acc ++ flat_map (fun p => do_records server (js_snapshots p))
                        (pages ++ [data])), w')
        /\ network w' = rest.
Proof.
  intros Hlast replies pages HF.
  induction HF as [|r p replies pages Hr HF IH];
    intros budget page acc w Hn Hlt;
    (destruct budget as [|budget]; [simpl in Hlt; lia|]); simpl iterate.
  - destruct (do_page_last server page acc w last rest data Hn Hlast) as (w' & E & N).
    unfold bind. rewrite E. simpl. rewrite app_nil_r.
    exists w'. split; [reflexivity | exact N].
  - destruct (do_page_full server page acc w r (replies ++ last :: rest) p Hn Hr)
      as (w1 & e1 & E1 & N1 & _).
    unfold bind. rewrite E1.
    destruct (IH budget (page + 1) (acc ++ do_records server (js_snapshots p)) w1 N1
                ltac:(simpl in Hlt; lia)) as (w' & E & N).
    exists w'. rewrite E. simpl. rewrite <- app_assoc.
    split; [reflexivity | exact N].
Qed.

Lemma hz_pages_until_last (server : ServerConfig) (last : Reply) (data : Json)
    (rest : list Reply) :
  hz_last_page last data ->
  forall (replies : list Reply) (pages : list Json),
    Forall2 hz_full_page replies pages ->
    forall (budget : nat) (page : Z) (acc : list Snapshot) (w : World),
      network w = replies ++ last :: rest ->
      (List.length replies < budget)%nat ->
      exists w',
        iterate budget (hz_page server) (page, acc) w
        = (Ok (acc ++ flat_map (fun p => hz_records server (js_images p))
                        (pages ++ [data])), w')
        /\ network w' = rest.
Proof.
  intros Hlast replies pages HF.
  induction HF as [|r p replies pages Hr HF IH];
    intros budget page acc w Hn Hlt;
    (destruct budget as [|budget]; [simpl in Hlt; lia|]); simpl iterate.
  - destruct (hz_page_last server page acc w last rest data Hn Hlast) as (w' & E & N).
    unfold bind. rewrite E. simpl. rewrite app_nil_r.
    exists w'. split; [reflexivity | exact N].
  - destruct (hz_page_full server page acc w r (replies ++ last :: rest) p Hn Hr)
      as (w1 & e1 & E1 & N1 & _).
    unfold bind. rewrite E1.
    destruct (IH budget (page + 1) (acc ++ hz_records server (js_images p)) w1 N1
                ltac:(simpl in Hlt; lia)) as (w' & E & N).
    exists w'. rewrite E. simpl. rewrite <- app_assoc.
    split; [reflexivity | exact N].
Qed.

Lemma in_do_records (server : ServerConfig) (items : list DoItem) (s : Snapshot) :
  In s (do_records server items)
  <-> exists item t,
        In item items /\ do_matches server item = true
        /\ do_created_at item = Some t /\ s = do_record item t.
Proof.
  induction items as [|i items IH]; simpl.
  - split; [contradiction | intros (item & t & [] & _)].
  - destruct (do_matches server i) eqn:Em; [destruct (do_created_at i) as [t|] eqn:Ec|].
    + simpl. rewrite IH. split.
      * intros [<-|(item & t' & Hi & H)];
          [exists i, t; auto | exists item, t'; tauto].
      * intros (item & t' & [->|Hi] & Hm & Hc & ->).
        -- left. rewrite Ec in Hc. inversion Hc. reflexivity.
        -- right. exists item, t'. auto.
    + rewrite IH. split.
      * intros (item & t' & Hi & H). exists item, t'. tauto.
      * intros (item & t' & [->|Hi] & Hm & Hc & ->); [congruence|].
        exists item, t'. auto.
    + rewrite IH. split.
      * intros (item & t' & Hi & H). exists item, t'. tauto.
      * intros (item & t' & [->|Hi] & Hm & Hc & ->); [congruence|].
        exists item, t'. auto.
Qed.

Lemma in_hz_records (server : ServerConfig) (items : list HzItem) (s : Snapshot) :
  In s (hz_records server items)
  <-> exists item t,
        In item items /\ hz_matches server item = true
        /\ hz_created item = Some t /\ s = hz_record item t.
Proof.
  induction items as [|i items IH]; simpl.
  - split; [contradiction | intros (item & t & [] & _)].
  - destruct (hz_matches server i) eqn:Em; [destruct (hz_created i) as [t|] eqn:Ec|].
    + simpl. rewrite IH. split.
      * intros [<-|(item & t' & Hi & H)];
          [exists i, t; auto | exists item, t'; tauto].
      * intros (item & t' & [->|Hi] & Hm & Hc & ->).
        -- left. rewrite Ec in Hc. inversion Hc. reflexivity.
        -- right. exists item, t'. auto.
    + rewrite IH. split.
      * intros (item & t' & Hi & H). exists item, t'. tauto.
      * intros (item & t' & [->|Hi] & Hm & Hc & ->); [congruence|].
        exists item, t'. auto.
    + rewrite IH. split.
      * intros (item & t' & Hi & H). exists item, t'. tauto.
      * intros (item & t' & [->|Hi] & Hm & Hc & ->); [congruence|].
        exists item, t'. auto.
Qed.

(** X5.  A listing that meets no failure returns, in the order of the pages
    and of the items on them, a record for every item that matches the
    server and whose date parses, and for no other: the pages are requested
    one after the other until one comes without items or without a pointer
    to a next page, and exactly those replies are used up.  An item matches
    by its resource id or, whatever droplet it belongs to, by a name that
    contains the server's name (DigitalOcean); by a description that contains
    the server's name (Hetzner). *)
Theorem listing_returns_all_pages (server : ServerConfig) (w : World)
    (replies : list Reply) (pages : list Json) (last : Reply) (data : Json)
    (rest : list Reply) :
  network w = replies ++ last :: rest ->
  (Forall2 do_full_page replies pages -> do_last_page last data ->
   exists l w',
     get_digitalocean_snapshots server w = (Ok l, w')
     /\ l = flat_map (fun p => do_records server (js_snapshots p)) (pages ++ [data])
     /\ network w' = rest
     /\ forall s,
          In s l
          <-> exists page item t,
                In page (pages ++ [data]) /\ In item (js_snapshots page)
                /\ do_matches server item = true
                /\ do_created_at item = Some t /\ s = do_record item t)
  /\ (Forall2 hz_full_page replies pages -> hz_last_page last data ->
      exists l w',
        get_hetzner_snapshots server w = (Ok l, w')
        /\ l = flat_map (fun p => hz_records server (js_images p)) (pages ++ [data])
        /\ network w' = rest
        /\ forall s,
             In s l
             <-> exists page item t,
                   In page (pages ++ [data]) /\ In item (js_images page)
                   /\ hz_matches server item = true
                   /\ hz_created item = Some t /\ s = hz_record item t).
Proof.
  intros Hn. split; intros HF Hlast.
  - destruct (do_pages_until_last server last data rest Hlast replies pages HF
                (S (List.length (network w))) 1 [] w Hn) as (w' & E & N).
    { rewrite Hn, length_app. simpl. lia. }
    eexists _, w'. split; [exact E|]. split; [reflexivity|]. split; [exact N|].
    intros s. simpl. rewrite in_flat_map. split.
    + intros (page & Hp & Hs). apply in_do_records in Hs.
      destruct Hs as (item & t & H). exists page, item, t. tauto.
    + intros (page & item & t & Hp & H). exists page. split; [exact Hp|].
      apply in_do_records. exists item, t. exact H.
  - destruct (hz_pages_until_last server last data rest Hlast replies pages HF
                (S (List.length (network w))) 1 [] w Hn) as (w' & E & N).
    { rewrite Hn, length_app. simpl. lia. }
    eexists _, w'. split; [exact E|]. split; [reflexivity|]. split; [exact N|].
    intros s. simpl. rewrite in_flat_map. split.
    + intros (page & Hp & Hs). apply in_hz_records in Hs.
      destruct Hs as (item & t & H). exists page, item, t. tauto.
    + intros (page & item & t & Hp & H). exists page. split; [exact Hp|].
      apply in_hz_records. exists item, t. exact H.
Qed.

(** Two pages for the server "web" (droplet 42): its own snapshot of the
    first page, and from the second page the snapshot "web2-..." of droplet
    43, whose name contains "web"; the item with the broken date and the one
    of "db" are left out. *)
Lemma listing_returns_all_pages_witness :
  exists w',
    get_digitalocean_snapshots web do_two_pages
    = (Ok [mk_snapshot "101" "web-20241201120000" 1733054400000000;
           mk_snapshot "201" "web2-20241130120000" 1732968000000000], w')
    /\ network w' = [].
Proof.
  destruct (listing_returns_all_pages web do_two_pages
              [reply (Responded 200 (Some do_first_page))] [do_first_page]
              (reply (Responded 200 (Some do_second_page))) do_second_page []
              eq_refl) as [H _].
  destruct H as (l & w' & E & -> & N & _).
  - constructor; [|constructor].
    exists 200. repeat split; simpl; try lia; discriminate.
  - exists 200. split; [reflexivity|]. split; [lia|]. right. reflexivity.
  - exists w'. split; [exact E | exact N].
Defined.

Lemma prefix_append (s t : string) : String.prefix s (String.append s t) = true.
Proof.
  induction s as [|c s IH]; simpl.
  - destruct t; reflexivity.
  - destruct (Ascii.ascii_dec c c); [exact IH | congruence].
Qed.

Lemma prefix_contains (needle haystack : string) :
  String.prefix needle haystack = true -> contains needle haystack = true.
Proof. intros H. destruct haystack; cbn [contains]; rewrite H; reflexivity. Qed.

Lemma contains_append (s t : string) : contains s (String.append s t) = true.
Proof. apply prefix_contains, prefix_append. Qed.

(** X6.  A snapshot the script creates is one the script finds again: an
    item that carries the name [create_*_snapshot] generates, as its name
    (DigitalOcean) or its description (Hetzner), passes the filter of
    [get_*_snapshots] for the same server, whatever its resource id. *)
Theorem created_name_matches_listing_filter (server : ServerConfig) (w : World) :
  (forall item : DoItem,
      do_name item = local_name server w -> do_matches server item = true)
  /\ (forall item : HzItem,
        hz_description item = local_name server w -> hz_matches server item = true).
Proof.
  unfold do_matches, hz_matches, local_name, snapshot_name_of.
  split; intros item ->; rewrite contains_append.
  - apply orb_true_r.
  - reflexivity.
Qed.

(* ================================================================= *)
(** ** Creation: the bound on the polling *)

Lemma do_poll_over (action_id start_time timeout : Z) (w : World) :
  ~ (clock w - start_time < timeout) ->
  do_poll action_id start_time timeout tt w = (Ok (Break "timeout"%string), w).
Proof.
  intros H. unfold do_poll, bind, time_time.
  destruct (clock w - start_time <? timeout) eqn:E; [apply Z.ltb_lt in E; lia|].
  reflexivity.
Qed.

Lemma hz_poll_over (action_id start_time timeout : Z) (w : World) :
  ~ (clock w - start_time < timeout) ->
  hz_poll action_id start_time timeout tt w = (Ok (Break "timeout"%string), w).
Proof.
  intros H. unfold hz_poll, bind, time_time.
  destruct (clock w - start_time <? timeout) eqn:E; [apply Z.ltb_lt in E; lia|].
  reflexivity.
Qed.

Lemma do_poll_pending (action_id start_time timeout : Z) (w : World) :
  clock w - start_time < timeout ->
  Forall do_pending (firstn 1 (network w)) ->
  exists w',
    do_poll action_id start_time timeout tt w = (Ok (Continue tt), w')
    /\ clock w + 5 <= clock w'
    /\ network w' = tl (network w)
    /\ events w' = events w ++ [Http (GetDoAction action_id); Slept 5].
Proof.
  intros Hc Hp. apply Z.ltb_lt in Hc.
  unfold do_poll, bind at 1, time_time. cbv beta iota. rewrite Hc.
  unfold try_except, bind, request, raise_for_status, response_json, raise, ret,
    time_sleep.
  destruct (network w) as [|r rest]; simpl.
  - eexists. repeat split; simpl; try lia. rewrite <- app_assoc. reflexivity.
  - inversion Hp as [|? ? Hr _]; subst. unfold do_pending in Hr.
    destruct (answer r) as [status body| |]; simpl; [| |contradiction].
    + destruct Hr as [Hs|(data & -> & H1 & H2)].
      * rewrite (status_bad _ Hs). simpl.
        eexists. repeat split; simpl; try lia. rewrite <- app_assoc. reflexivity.
      * destruct ((400 <=? status) && (status <? 600)); simpl;
          [eexists; repeat split; simpl; try lia; rewrite <- app_assoc; reflexivity|].
        apply String.eqb_neq in H1, H2. rewrite H1, H2. simpl.
        eexists. repeat split; simpl; try lia. rewrite <- app_assoc. reflexivity.
    + eexists. repeat split; simpl; try lia. rewrite <- app_assoc. reflexivity.
Qed.

Lemma hz_poll_pending (action_id start_time timeout : Z) (w : World) :
  clock w - start_time < timeout ->
  Forall hz_pending (firstn 1 (network w)) ->
  exists w',
    hz_poll action_id start_time timeout tt w = (Ok (Continue tt), w')
    /\ clock w + 5 <= clock w'
    /\ network w' = tl (network w)
    /\ events w' = events w ++ [Http (GetHetznerAction action_id); Slept 5].
Proof.
  intros Hc Hp. apply Z.ltb_lt in Hc.
  unfold hz_poll, bind at 1, time_time. cbv beta iota. rewrite Hc.
  unfold try_except, bind, request, raise_for_status, response_json, raise, ret,
    time_sleep.
  destruct (network w) as [|r rest]; simpl.
  - eexists. repeat split; simpl; try lia. rewrite <- app_assoc. reflexivity.
  - inversion Hp as [|? ? Hr _]; subst. unfold hz_pending in Hr.
    destruct (answer r) as [status body| |]; simpl; [| |contradiction].
    + destruct Hr as [Hs|(data & -> & H1 & H2)].
      * rewrite (status_bad _ Hs). simpl.
        eexists. repeat split; simpl; try lia. rewrite <- app_assoc. reflexivity.
      * destruct ((400 <=? status) && (status <? 600)); simpl;
          [eexists; repeat split; simpl; try lia; rewrite <- app_assoc; reflexivity|].
        apply String.eqb_neq in H1, H2. rewrite H1, H2. simpl.
        eexists. repeat split; simpl; try lia. rewrite <- app_assoc. reflexivity.
    + eexists. repeat split; simpl; try lia. rewrite <- app_assoc. reflexivity.
Qed.

Lemma Forall_tl {A} (P : A -> Prop) (l : list A) :
  Forall P l -> Forall P (firstn 1 l) /\ Forall P (tl l).
Proof.
  intros H. destruct l; simpl; [auto|].
  inversion H; subst. auto.
Qed.

Section PollingBound.

Variables (P : Reply -> Prop) (req : Request) (start_time timeout : Z).
Variable body : unit -> M (Ctl unit string).
Hypothesis body_over :
  forall w, ~ (clock w - start_time < timeout) ->
            body tt w = (Ok (Break "timeout"%string), w).
Hypothesis body_pending :
  forall w,
    clock w - start_time < timeout ->
    Forall P (firstn 1 (network w)) ->
    exists w',
      body tt w = (Ok (Continue tt), w')
      /\ clock w + 5 <= clock w'
      /\ network w' = tl (network w)
      /\ events w' = events w ++ [Http req; Slept 5].

(** As long as every answer leaves the action pending the loop ends with
    "timeout", not before [timeout] seconds have passed, and every round
    but the first began at least five seconds after the one before. *)
Lemma polling_times_out (budget : nat) :
  forall w,
    (0 < budget)%nat ->
    timeout - (clock w - start_time) < Z.of_nat budget ->
    Forall P (network w) ->
    exists w' k,
      iterate budget body tt w = (Ok "timeout"%string, w')
      /\ events w' = events w ++ poll_rounds req k
      /\ timeout <= clock w' - start_time
      /\ (k = O \/ (clock w - start_time) + 5 * (Z.of_nat k - 1) < timeout).
Proof.
  induction budget as [|n IH]; intros w Hpos Hlt Hall; [lia|].
  simpl iterate. unfold bind.
  destruct (Z.lt_ge_cases (clock w - start_time) timeout) as [Hc|Hc].
  - destruct (Forall_tl P _ Hall) as [H1 Ht].
    destruct (body_pending w Hc H1) as (w1 & E & Hclock & Hn & V).
    rewrite E. rewrite <- Hn in Ht.
    destruct (IH w1 ltac:(lia) ltac:(lia) Ht) as (w' & k & E' & V' & Hd & Hk).
    exists w', (S k). split; [exact E'|].
    split; [rewrite V', V, <- app_assoc; reflexivity|].
    split; [exact Hd|].
    right. destruct Hk as [->|Hk]; lia.
  - rewrite body_over by lia.
    exists w, O. split; [reflexivity|].
    split; [unfold poll_rounds; simpl; rewrite app_nil_r; reflexivity|].
    split; [lia | left; reflexivity].
Qed.

End PollingBound.

(** X7.  While every poll is answered "in-progress" ("running" for
    Hetzner), with another non-terminal status, with an HTTP error or not at
    all, [_wait_for_*_action] does nothing but poll and sleep five seconds
    in turn, and ends with "timeout": not before [timeout] seconds have
    passed since it began, after at most [ceil(timeout / 5)] polls, and
    without any poll when [timeout <= 0]. *)
Theorem waiting_is_bounded (action_id timeout : Z) (w : World) :
  (Forall do_pending (network w) ->
   exists w' k,
     _wait_for_digitalocean_action action_id timeout w = (Ok "timeout"%string, w')
     /\ events w' = events w ++ poll_rounds (GetDoAction action_id) k
     /\ timeout <= clock w' - clock w
     /\ (k = O \/ 5 * (Z.of_nat k - 1) < timeout))
  /\ (Forall hz_pending (network w) ->
      exists w' k,
        _wait_for_hetzner_action action_id timeout w = (Ok "timeout"%string, w')
        /\ events w' = events w ++ poll_rounds (GetHetznerAction action_id) k
        /\ timeout <= clock w' - clock w
        /\ (k = O \/ 5 * (Z.of_nat k - 1) < timeout)).
Proof.
  split; intros Hall.
  - unfold _wait_for_digitalocean_action, bind, time_time.
    destruct (polling_times_out do_pending (GetDoAction action_id) (clock w) timeout
                (do_poll action_id (clock w) timeout)
                (do_poll_over action_id (clock w) timeout)
                (do_poll_pending action_id (clock w) timeout)
                (S (Z.to_nat timeout)) w ltac:(lia) ltac:(lia) Hall)
      as (w' & k & E & V & Hd & Hk).
    exists w', k. repeat split; try assumption. destruct Hk; [auto | right; lia].
  - unfold _wait_for_hetzner_action, bind, time_time.
    destruct (polling_times_out hz_pending (GetHetznerAction action_id) (clock w) timeout
                (hz_poll action_id (clock w) timeout)
                (hz_poll_over action_id (clock w) timeout)
                (hz_poll_pending action_id (clock w) timeout)
                (S (Z.to_nat timeout)) w ltac:(lia) ltac:(lia) Hall)
      as (w' & k & E & V & Hd & Hk).
    exists w', k. repeat split; try assumption. destruct Hk; [auto | right; lia].
Qed.

(** Leaves of the case analysis of a creation that is not accepted. *)
Ltac one_request_one_error :=
  eexists _, _; split; [reflexivity|];
  split; [reflexivity|]; simpl; rewrite <- app_assoc; reflexivity.

(** X8.  When the request that asks for the snapshot fails (a transport
    error, a 4xx or 5xx status) or is answered without a usable action id
    (for Hetzner: action id and image id), [create_*_snapshot] returns
    nothing after that one request and one ERROR record: it does not poll,
    does not sleep and does not ask again. *)
Theorem creation_not_accepted (cfg : Config) (server : ServerConfig) (w : World) :
  (Forall do_not_accepted (firstn 1 (network w)) ->
   exists w' msg,
     create_digitalocean_snapshot cfg server w = (Ok None, w')
     /\ network w' = tl (network w)
     /\ events w'
        = events w
          ++ [Http (CreateDoSnapshot (server_id server) (local_name server w));
              Logged ERROR msg])
  /\ (Forall hz_not_accepted (firstn 1 (network w)) ->
      exists w' msg,
        create_hetzner_snapshot cfg server w = (Ok None, w')
        /\ network w' = tl (network w)
        /\ events w'
           = events w
             ++ [Http (CreateHetznerImage (server_id server) (local_name server w));
                 Logged ERROR msg]).
Proof.
  split; intros Hf.
  - unfold create_digitalocean_snapshot, bind at 1, datetime_now. cbv beta iota.
    fold (local_name server w).
    unfold try_except, bind, request, raise_for_status, response_json, raise, ret,
      log, emit.
    destruct (network w) as [|r rest]; simpl; [one_request_one_error|].
    inversion Hf as [|? ? Hr _]; subst.
    destruct Hr as [Hr|(status & data & Ha & Hs & Hid)].
    + unfold request_failure in Hr.
      destruct (answer r) as [status body| |]; simpl; [| |contradiction].
      * rewrite (status_bad _ Hr). simpl. one_request_one_error.
      * one_request_one_error.
    + rewrite Ha. simpl. rewrite (status_ok _ Hs). simpl. rewrite Hid.
      one_request_one_error.
  - unfold create_hetzner_snapshot, bind at 1, datetime_now. cbv beta iota.
    fold (local_name server w).
    unfold try_except, bind, request, raise_for_status, response_json, raise, ret,
      log, emit.
    destruct (network w) as [|r rest]; simpl; [one_request_one_error|].
    inversion Hf as [|? ? Hr _]; subst.
    destruct Hr as [Hr|(status & data & Ha & Hs & Hid)].
    + unfold request_failure in Hr.
      destruct (answer r) as [status body| |]; simpl; [| |contradiction].
      * rewrite (status_bad _ Hr). simpl. one_request_one_error.
      * one_request_one_error.
    + rewrite Ha. simpl. rewrite (status_ok _ Hs). simpl. rewrite Hid.
      one_request_one_error.
Qed.

(* ================================================================= *)
(** ** A provider the script does not know *)

Lemma get_snapshots_unknown (server : ServerConfig) (w : World) :
  String.eqb (provider server) "digitalocean" = false ->
  String.eqb (provider server) "hetzner" = false ->
  get_snapshots server w
  = (Ok [], {| clock := clock w; utc_offset := utc_offset w; network := network w;
               heap := heap w;
               events := events w ++ [Logged ERROR "Unknown provider"] |}).
Proof. unfold get_snapshots. intros -> ->. reflexivity. Qed.

Lemma create_snapshot_unknown (cfg : Config) (server : ServerConfig) (w : World) :
  String.eqb (provider server) "digitalocean" = false ->
  String.eqb (provider server) "hetzner" = false ->
  create_snapshot cfg server w
  = (Ok None, {| clock := clock w; utc_offset := utc_offset w; network := network w;
                 heap := heap w;
                 events := events w ++ [Logged ERROR "Unknown provider"] |}).
Proof. unfold create_snapshot. intros -> ->. reflexivity. Qed.

(** X9.  For a server whose provider is neither "digitalocean" nor
    "hetzner" the workflow makes no request to any provider and sleeps
    nowhere: it logs "Unknown provider" three times (listing, creation,
    final listing; there is nothing to delete) and hands
    [write_final_status] the status "failure", the name "none" and a count
    of 0. *)
Theorem unknown_provider_workflow (cfg : Config) (server : ServerConfig) (w : World) :
  String.eqb (provider server) "digitalocean" = false ->
  String.eqb (provider server) "hetzner" = false ->
  exists w1,
    manage_snapshots_for_server cfg server w
    = write_final_status cfg server "none" 0 "failure" w1
    /\ clock w1 = clock w
    /\ network w1 = network w
    /\ events w1
       = events w ++ [Logged ERROR "Unknown provider"; Logged ERROR "Unknown provider";
                      Logged ERROR "Unknown provider"].
Proof.
  intros H1 H2. unfold manage_snapshots_for_server.
  unfold bind at 1. rewrite (get_snapshots_unknown server w H1 H2).
  unfold bind at 1, new_list.
  unfold bind at 1. rewrite identify_snapshots_to_delete_eq.
  unfold deref. simpl heap. rewrite nth_length_app, set_nth_length_app.
  simpl sort_created_at_reverse. rewrite slice_from_nil.
  unfold bind at 1. rewrite (create_snapshot_unknown cfg server _ H1 H2).
  unfold bind at 1, ret at 1.
  unfold bind at 1. rewrite (get_snapshots_unknown server _ H1 H2).
  simpl.
  eexists. split; [reflexivity|]. simpl.
  repeat split. rewrite <- !app_assoc. reflexivity.
Qed.

(** A server with the provider "aws" while no network is there at all. *)
Lemma unknown_provider_workflow_witness :
  exists w1,
    manage_snapshots_for_server default_config elsewhere network_down
    = write_final_status default_config elsewhere "none" 0 "failure" w1
    /\ clock w1 = clock network_down
    /\ network w1 = network network_down
    /\ events w1
       = events network_down
         ++ [Logged ERROR "Unknown provider"; Logged ERROR "Unknown provider";
             Logged ERROR "Unknown provider"].
Proof.
  apply (unknown_provider_workflow default_config elsewhere network_down);
    reflexivity.
Defined.

(* ================================================================= *)
(** ** The run: every server gets its turn *)

(** The one FINAL_STATUS line of a workflow. *)
Lemma manage_final_status (cfg : Config) (server : ServerConfig) (w : World) :
  exists line,
    final_statuses (events (snd (manage_snapshots_for_server cfg server w)))
    = final_statuses (events w) ++ [line]
    /\ rr_server line = server_name server
    /\ rr_provider line = provider server.
Proof.
  destruct (manage_steps cfg server w)
    as (listed & w1 & created & w2 & w3 & updated & w4
        & E1 & E2 & Hname & Hcase & D3 & S3 & E4 & Em).
  destruct (manage_events cfg server w listed w1 created w2 w3 updated w4 E1 E2 E4)
    as [[D2 S2] [D4 S4]].
  destruct (write_final_status_events cfg server
              (rr_snapshot_name (run_result_of server created (List.length updated)))
              (List.length updated)
              (rr_status (run_result_of server created (List.length updated))) w4)
    as (Hh & tail & V & F).
  destruct (quiet_events_delete_nothing tail F) as [Dt St].
  eexists. rewrite Em, V, final_statuses_app. simpl.
  rewrite St, S4, S3, S2. split; [reflexivity|]. split; reflexivity.
Qed.

Lemma run_one_final_status (cfg : Config) (total idx : Z) (server : ServerConfig)
    (c : Counts) (w : World) :
  exists line,
    final_statuses
      (events (snd (run_one (manage_snapshots_for_server cfg) cfg total idx server c w)))
    = final_statuses (events w) ++ [line]
    /\ rr_server line = server_name server
    /\ rr_provider line = provider server.
Proof.
  destruct (manage_final_status cfg server w) as (line & F & Hs & Hp).
  exists line. split; [|auto].
  unfold run_one.
  destruct (manage_snapshots_for_server cfg server w) as [[[]|e|] w1]; simpl in F;
    try exact F.
  - destruct (idx <? total - 1); [|exact F].
    unfold time_sleep.
    destruct ((DELAY_BETWEEN_SERVERS cfg <? 0)
              || (SLEEP_MAX <? DELAY_BETWEEN_SERVERS cfg)); simpl;
      rewrite final_statuses_app, F; simpl; rewrite app_nil_r; reflexivity.
  - simpl. rewrite final_statuses_app, F. simpl. rewrite app_nil_r. reflexivity.
Qed.

Lemma run_loop_final_statuses (cfg : Config) (total : Z) (servers : list ServerConfig) :
  forall (idx : Z) (c : Counts) (w : World),
  exists lines,
    final_statuses
      (events (snd (run_loop (manage_snapshots_for_server cfg) cfg total idx servers
                      c w)))
    = final_statuses (events w) ++ lines
    /\ map rr_server lines = map server_name servers
    /\ map rr_provider lines = map provider servers.
Proof.
  induction servers as [|server rest IH]; intros idx c w; simpl.
  - exists []. rewrite app_nil_r. auto.
  - destruct (run_one_final_status cfg total idx server c w) as (line & F & Hs & Hp).
    destruct (run_one_counts (manage_snapshots_for_server cfg) cfg total idx server c w
                (manage_snapshots_for_server_halts cfg server w)) as (c1 & E1 & _).
    unfold bind. rewrite E1. rewrite E1 in F. simpl in F.
    destruct (IH (idx + 1) c1
                (snd (run_one (manage_snapshots_for_server cfg) cfg total idx server
                        {| success_count := 0; failure_count := 0 |} w)))
      as (lines & F' & Hs' & Hp').
    exists (line :: lines). rewrite F', F, <- app_assoc. simpl.
    rewrite Hs, Hp, Hs', Hp'. auto.
Qed.

(** X10.  [run] never stops the batch: whatever happens to one server
    (a creation that fails, a workflow that raises, a sleep that raises),
    every configured server gets its workflow and its FINAL_STATUS line, one
    line per server, in the order of the configuration. *)
Theorem run_reaches_every_server (cfg : Config) (servers : list ServerConfig)
    (w : World) :
  exists lines,
    final_statuses (events (snd (run cfg servers w)))
    = final_statuses (events w) ++ lines
    /\ map rr_server lines = map server_name servers
    /\ map rr_provider lines = map provider servers.
Proof.
  destruct (run_loop_final_statuses cfg (Z.of_nat (List.length servers)) servers 0
              {| success_count := 0; failure_count := 0 |} w)
    as (lines & F & Hs & Hp).
  destruct (run_loop_counts (manage_snapshots_for_server cfg) cfg
              (Z.of_nat (List.length servers)) servers
              (manage_snapshots_for_server_halts cfg) 0
              {| success_count := 0; failure_count := 0 |} w)
    as (c & w1 & E & _).
  exists lines. split; [|auto].
  rewrite E in F. simpl in F.
  unfold run, run_of, bind at 1. rewrite E. unfold exit_code_of, bind, log, emit, ret.
  destruct (failure_count c >? 0); [destruct (success_count c =? 0)|]; simpl;
    rewrite ?final_statuses_app, F; simpl; rewrite ?app_nil_r; reflexivity.
Qed.

(* ================================================================= *)
(** ** Ordinary errors stay inside the workflow *)

Section Shrinks.

Context {A B : Type}.

Lemma shrinks_ret (a : A) : shrinks (ret a).
Proof. intros w. exists O. reflexivity. Qed.

Lemma shrinks_raise (e : Exn) : shrinks (@raise A e).
Proof. intros w. exists O. reflexivity. Qed.

Lemma shrinks_diverge : shrinks (@diverge A).
Proof. intros w. exists O. reflexivity. Qed.

Lemma shrinks_bind (m : M A) (k : A -> M B) :
  shrinks m -> (forall a, shrinks (k a)) -> shrinks (bind m k).
Proof.
  intros Hm Hk w. unfold bind. destruct (Hm w) as (n1 & E1).
  destruct (m w) as [[a|e|] w1]; simpl in *; try (exists n1; exact E1).
  destruct (Hk a w1) as (n2 & E2).
  exists (n2 + n1)%nat. rewrite E2, E1, skipn_skipn. reflexivity.
Qed.

Lemma shrinks_try (m : M A) (h : Exn -> M A) :
  shrinks m -> (forall e, shrinks (h e)) -> shrinks (try_except m h).
Proof.
  intros Hm Hh w. unfold try_except. destruct (Hm w) as (n1 & E1).
  destruct (m w) as [[a|e|] w1]; simpl in *; try (exists n1; exact E1).
  destruct (Hh e w1) as (n2 & E2).
  exists (n2 + n1)%nat. rewrite E2, E1, skipn_skipn. reflexivity.
Qed.

End Shrinks.

Lemma shrinks_emit (e : Event) : shrinks (emit e).
Proof. intros w. exists O. reflexivity. Qed.

Lemma shrinks_log (lvl : Level) (msg : string) : shrinks (log lvl msg).
Proof. apply shrinks_emit. Qed.

Lemma shrinks_time_time : shrinks time_time.
Proof. intros w. exists O. reflexivity. Qed.

Lemma shrinks_datetime_now : shrinks datetime_now.
Proof. intros w. exists O. reflexivity. Qed.

Lemma shrinks_time_sleep (seconds : Z) : shrinks (time_sleep seconds).
Proof.
  intros w. exists O. unfold time_sleep.
  destruct ((seconds <? 0) || (SLEEP_MAX <? seconds)); reflexivity.
Qed.

Lemma shrinks_request (r : Request) : shrinks (request r).
Proof.
  intros w. exists 1%nat. unfold request.
  destruct (answer _); simpl; destruct (network w); reflexivity.
Qed.

Lemma shrinks_raise_for_status (status : Z) : shrinks (raise_for_status status).
Proof.
  unfold raise_for_status.
  destruct (_ && _); [apply shrinks_raise | apply shrinks_ret].
Qed.

Lemma shrinks_response_json (body : option Json) : shrinks (response_json body).
Proof. destruct body; [apply shrinks_ret | apply shrinks_raise]. Qed.

Lemma shrinks_iterate {S R} (budget : nat) (body : S -> M (Ctl S R)) (s : S) :
  (forall s, shrinks (body s)) -> shrinks (iterate budget body s).
Proof.
  intros H. revert s. induction budget as [|n IH]; intros s; simpl.
  - apply shrinks_diverge.
  - apply shrinks_bind; [apply H|].
    intros [s'|r]; [apply IH | apply shrinks_ret].
Qed.

Lemma shrinks_for_each {A} (l : list A) (body : A -> M unit) :
  (forall x, shrinks (body x)) -> shrinks (for_each l body).
Proof.
  intros H. induction l as [|x l IH]; simpl.
  - apply shrinks_ret.
  - apply shrinks_bind; [apply H | intros _; exact IH].
Qed.

Lemma shrinks_do_collect (server : ServerConfig) (items : list DoItem)
    (acc : list Snapshot) : shrinks (do_collect server items acc).
Proof.
  intros w. destruct (do_collect_eq server items acc w) as (w' & logs & E & N & _).
  exists O. rewrite E. exact N.
Qed.

Lemma shrinks_hz_collect (server : ServerConfig) (items : list HzItem)
    (acc : list Snapshot) : shrinks (hz_collect server items acc).
Proof.
  intros w. destruct (hz_collect_eq server items acc w) as (w' & logs & E & N & _).
  exists O. rewrite E. exact N.
Qed.

(** Goals [shrinks m]. *)
Ltac shrink :=
  repeat first
    [ apply shrinks_ret | apply shrinks_raise | apply shrinks_log
    | apply shrinks_emit | apply shrinks_time_time | apply shrinks_datetime_now
    | apply shrinks_time_sleep | apply shrinks_request
    | apply shrinks_raise_for_status | apply shrinks_response_json
    | apply shrinks_do_collect | apply shrinks_hz_collect
    | apply shrinks_bind; [|intro]
    | apply shrinks_try; [|intro]
    | apply shrinks_iterate; intro
    | apply shrinks_for_each; intro
    | match goal with
      | |- shrinks (match ?x with _ => _ end) => destruct x
      end ].

Lemma get_snapshots_shrinks (server : ServerConfig) : shrinks (get_snapshots server).
Proof.
  unfold get_snapshots.
  destruct (String.eqb (provider server) "digitalocean").
  - intros w. unfold get_digitalocean_snapshots.
    apply shrinks_iterate. intros [page acc]. unfold do_page. shrink.
  - destruct (String.eqb (provider server) "hetzner"); [|shrink].
    intros w. unfold get_hetzner_snapshots.
    apply shrinks_iterate. intros [page acc]. unfold hz_page. shrink.
Qed.

Lemma create_snapshot_shrinks (cfg : Config) (server : ServerConfig) :
  shrinks (create_snapshot cfg server).
Proof.
  unfold create_snapshot, create_digitalocean_snapshot, create_hetzner_snapshot,
    _wait_for_digitalocean_action, _wait_for_hetzner_action, do_poll, hz_poll.
  shrink.
Qed.

Lemma delete_snapshots_shrinks (server : ServerConfig) (l : list Snapshot) :
  shrinks (delete_snapshots server l).
Proof.
  unfold delete_snapshots, delete_digitalocean_snapshots, delete_hetzner_snapshots,
    do_delete_one, hz_delete_one.
  shrink.
Qed.

Lemma Forall_skipn {A} (P : A -> Prop) (k : nat) (l : list A) :
  Forall P l -> Forall P (skipn k l).
Proof.
  revert l. induction k as [|k IH]; intros l H; [exact H|].
  destruct l; simpl; [constructor|]. inversion H; subst. apply IH. assumption.
Qed.

(** A step that always returns is calm. *)
Lemma returns_shrinks_calm {A} (m : M A) : returns m -> shrinks m -> calm m.
Proof.
  intros Hr Hs w Hw. destruct (Hr w) as (a & w' & E). destruct (Hs w) as (k & N).
  rewrite E in *. simpl in *. split; [|exists a; reflexivity].
  rewrite N. apply Forall_skipn. exact Hw.
Qed.

Section Calm.

Context {A B : Type}.

Lemma calm_ret (a : A) : calm (ret a).
Proof. intros w Hw. split; [exact Hw | exists a; reflexivity]. Qed.

Lemma calm_semi (m : M A) : calm m -> semi_calm m.
Proof. intros H w Hw. destruct (H w Hw) as [Hn Ha]. auto. Qed.

Lemma calm_bind (m : M A) (k : A -> M B) :
  calm m -> (forall a, calm (k a)) -> calm (bind m k).
Proof.
  intros Hm Hk w Hw. unfold bind. destruct (Hm w Hw) as [Hn (a & Ha)].
  destruct (m w) as [r w1]. simpl in *. subst r. apply Hk. exact Hn.
Qed.

Lemma semi_calm_bind (m : M A) (k : A -> M B) :
  semi_calm m -> (forall a, semi_calm (k a)) -> semi_calm (bind m k).
Proof.
  intros Hm Hk w Hw. unfold bind. destruct (Hm w Hw) as [Hn [(a & Ha)|Ha]];
    destruct (m w) as [r w1]; simpl in *; subst r.
  - apply Hk. exact Hn.
  - simpl. auto.
Qed.

Lemma calm_try (m : M A) (h : Exn -> M A) :
  semi_calm m -> calm (h RequestException) -> calm (try_except m h).
Proof.
  intros Hm Hh w Hw. unfold try_except. destruct (Hm w Hw) as [Hn [(a & Ha)|Ha]];
    destruct (m w) as [r w1]; simpl in *; subst r.
  - simpl. split; [exact Hn | exists a; reflexivity].
  - apply Hh. exact Hn.
Qed.

End Calm.

Lemma calm_log (lvl : Level) (msg : string) : calm (log lvl msg).
Proof. intros w Hw. split; [exact Hw | exists tt; reflexivity]. Qed.

Lemma calm_time_sleep (seconds : Z) :
  0 <= seconds <= SLEEP_MAX -> calm (time_sleep seconds).
Proof.
  intros H w Hw. unfold time_sleep. rewrite (sleep_accepted _ H).
  split; [exact Hw | exists tt; reflexivity].
Qed.

Lemma semi_calm_request (r : Request) : semi_calm (request r).
Proof.
  intros w Hw. unfold request.
  destruct (network w) as [|x rest]; simpl.
  - split; [constructor | right; reflexivity].
  - inversion Hw as [|? ? Hx Hrest]; subst. unfold not_crashed in Hx.
    destruct (answer x) as [status body| |]; simpl.
    + split; [exact Hrest | left; eexists; reflexivity].
    + split; [exact Hrest | right; reflexivity].
    + congruence.
Qed.

Lemma calm_for_attempts (attempts : list Z) (body : Z -> M bool) (after : M bool) :
  (forall a, In a attempts -> calm (body a)) -> calm after ->
  calm (for_attempts attempts body after).
Proof.
  intros Hb Ha. induction attempts as [|a l IH]; simpl; [exact Ha|].
  apply calm_bind; [apply Hb; left; reflexivity|].
  intros [|]; [apply calm_ret | apply IH].
  intros a' Hin. apply Hb. right. exact Hin.
Qed.

Lemma in_py_range (a lo hi : Z) : In a (py_range lo hi) -> lo <= a < hi.
Proof.
  unfold py_range. intros H. apply in_map_iff in H.
  destruct H as (i & <- & Hi). apply in_seq in Hi. lia.
Qed.

Lemma telegram_attempt_calm (token chat : string) (N d attempt : Z) :
  (attempt < N -> 0 <= d * 2 ^ (attempt - 1) <= SLEEP_MAX) ->
  calm (telegram_attempt token chat N d attempt).
Proof.
  intros Hd. unfold telegram_attempt.
  apply calm_bind.
  - apply calm_try.
    + apply semi_calm_bind; [apply semi_calm_request | intros resp].
      apply calm_semi.
      destruct (fst resp =? 200);
        [apply calm_ret | apply calm_bind; [apply calm_log | intros; apply calm_ret]].
    + apply calm_bind; [apply calm_log | intros; apply calm_ret].
  - intros [|]; [apply calm_ret|].
    destruct (attempt <? N) eqn:E; [|apply calm_ret].
    apply Z.ltb_lt in E.
    apply calm_bind; [|intros; apply calm_ret].
    apply calm_time_sleep, Hd, E.
Qed.

Lemma webhook_attempt_calm (url : string) (N d attempt : Z) :
  (attempt < N -> 0 <= d * 2 ^ (attempt - 1) <= SLEEP_MAX) ->
  calm (webhook_attempt url N d attempt).
Proof.
  intros Hd. unfold webhook_attempt.
  apply calm_bind.
  - apply calm_try.
    + apply semi_calm_bind; [apply semi_calm_request | intros resp].
      apply calm_semi.
      destruct ((200 <=? fst resp) && (fst resp <? 300));
        [apply calm_ret | apply calm_bind; [apply calm_log | intros; apply calm_ret]].
    + apply calm_bind; [apply calm_log | intros; apply calm_ret].
  - intros [|]; [apply calm_ret|].
    destruct (attempt <? N) eqn:E; [|apply calm_ret].
    apply Z.ltb_lt in E.
    apply calm_bind; [|intros; apply calm_ret].
    apply calm_time_sleep, Hd, E.
Qed.

Lemma send_telegram_notification_calm (cfg : Config) (bot_token chat_id : option string) :
  waits_accepted (TELEGRAM_BASE_DELAY_BETWEEN_RETRIES cfg) (TELEGRAM_RETRIES cfg) ->
  calm (send_telegram_notification cfg bot_token chat_id None None).
Proof.
  intros Hd. unfold send_telegram_notification.
  destruct (_ || _); [apply calm_ret|].
  apply calm_for_attempts.
  - intros a Ha. apply in_py_range in Ha.
    apply telegram_attempt_calm. intros Hlt. apply Hd. cbn [if_not_none] in *. lia.
  - apply calm_bind; [apply calm_log | intros; apply calm_ret].
Qed.

Lemma send_webhook_notification_calm (cfg : Config) (webhook_url : option string) :
  waits_accepted (WEBHOOK_BASE_DELAY_BETWEEN_RETRIES cfg) (WEBHOOK_RETRIES cfg) ->
  calm (send_webhook_notification cfg webhook_url (Some (WEBHOOK_RETRIES cfg))
          (Some (WEBHOOK_BASE_DELAY_BETWEEN_RETRIES cfg))).
Proof.
  intros Hd. unfold send_webhook_notification.
  destruct (negb _); [apply calm_ret|].
  apply calm_for_attempts.
  - intros a Ha. apply in_py_range in Ha.
    apply webhook_attempt_calm. intros Hlt. apply Hd. cbn [if_not_none] in *. lia.
  - apply calm_bind; [apply calm_log | intros; apply calm_ret].
Qed.

Lemma write_final_status_calm (cfg : Config) (server : ServerConfig)
    (snapshot_name : string) (total_snapshots : nat) (status : string) :
  waits_accepted (TELEGRAM_BASE_DELAY_BETWEEN_RETRIES cfg) (TELEGRAM_RETRIES cfg) ->
  waits_accepted (WEBHOOK_BASE_DELAY_BETWEEN_RETRIES cfg) (WEBHOOK_RETRIES cfg) ->
  calm (write_final_status cfg server snapshot_name total_snapshots status).
Proof.
  intros Ht Hw. unfold write_final_status. cbv zeta.
  apply calm_bind; [intros w H; split; [exact H | exists tt; reflexivity] | intros _].
  apply calm_bind; [|intros _].
  - destruct (telegram_enabled server); [|apply calm_ret].
    destruct (truthy (telegram_bot_token server) && truthy (telegram_chat_id server)).
    + apply calm_bind; [apply send_telegram_notification_calm, Ht | intros; apply calm_ret].
    + destruct (truthy (TELEGRAM_BOT_TOKEN cfg) && truthy (TELEGRAM_CHAT_ID cfg));
        [|apply calm_ret].
      apply calm_bind; [apply send_telegram_notification_calm, Ht | intros; apply calm_ret].
  - match goal with |- calm (if ?c then _ else _) => destruct c end; [|apply calm_ret].
    apply calm_bind; [apply send_webhook_notification_calm, Hw | intros; apply calm_ret].
Qed.

(** The workflow without the payload of the webhook. *)
Lemma manage_snapshots_for_server_calm (cfg : Config) (server : ServerConfig) :
  waits_accepted (TELEGRAM_BASE_DELAY_BETWEEN_RETRIES cfg) (TELEGRAM_RETRIES cfg) ->
  waits_accepted (WEBHOOK_BASE_DELAY_BETWEEN_RETRIES cfg) (WEBHOOK_RETRIES cfg) ->
  calm (manage_snapshots_for_server cfg server).
Proof.
  intros Ht Hw. unfold manage_snapshots_for_server.
  apply calm_bind;
    [apply returns_shrinks_calm; [apply get_snapshots_returns | apply get_snapshots_shrinks]
    | intros listed].
  apply calm_bind; [intros w H; split; [exact H | eexists; reflexivity] | intros snapshots].
  apply calm_bind.
  { intros w H. rewrite identify_snapshots_to_delete_eq. simpl.
    split; [exact H | eexists; reflexivity]. }
  intros to_delete.
  apply calm_bind;
    [apply returns_shrinks_calm;
       [apply create_snapshot_returns | apply create_snapshot_shrinks]
    | intros snapshot_name].
  apply calm_bind.
  { destruct to_delete; [apply calm_ret|].
    apply returns_shrinks_calm;
      [apply delete_snapshots_returns | apply delete_snapshots_shrinks]. }
  intros _.
  apply calm_bind;
    [apply returns_shrinks_calm; [apply get_snapshots_returns | apply get_snapshots_shrinks]
    | intros updated].
  apply write_final_status_calm; assumption.
Qed.



(* ================================================================= *)
(** ** Where the notifications go *)

Section ProviderSteps.

Variable Q : Event -> Prop.
Hypothesis HQ : forall e, provider_event e -> Q e.

Ltac steps :=
  repeat first
    [ apply appends_ret | apply appends_raise
    | apply appends_time_time | apply appends_datetime_now
    | apply appends_raise_for_status | apply appends_response_json
    | apply appends_log; apply HQ; exact I
    | apply appends_emit; apply HQ; exact I
    | apply appends_time_sleep; apply HQ; exact I
    | apply appends_request; apply HQ; exact I
    | apply appends_bind; [|intro]
    | apply appends_try; [|intro]
    | apply appends_iterate; intro
    | apply appends_for_each; intro
    | match goal with
      | |- appends _ (match ?x with _ => _ end) => destruct x
      end ].

Lemma do_collect_appends (server : ServerConfig) (items : list DoItem) :
  forall acc, appends Q (do_collect server items acc).
Proof.
  induction items as [|item items IH]; intros acc;
    unfold do_collect; fold do_collect; [steps|].
  destruct (do_matches server item); [|apply IH].
  destruct (do_created_at item); [apply IH|].
  apply appends_bind; [steps | intros _; apply IH].
Qed.

Lemma hz_collect_appends (server : ServerConfig) (items : list HzItem) :
  forall acc, appends Q (hz_collect server items acc).
Proof.
  induction items as [|item items IH]; intros acc;
    unfold hz_collect; fold hz_collect; [steps|].
  destruct (hz_matches server item); [|apply IH].
  destruct (hz_created item); [apply IH|].
  apply appends_bind; [steps | intros _; apply IH].
Qed.

Lemma get_snapshots_appends (server : ServerConfig) : appends Q (get_snapshots server).
Proof.
  unfold get_snapshots.
  destruct (String.eqb (provider server) "digitalocean").
  - intros w. unfold get_digitalocean_snapshots.
    apply appends_iterate. intros [page acc]. unfold do_page.
    apply appends_try; [|intros []; steps].
    apply appends_bind; [steps | intros resp].
    apply appends_bind; [steps | intros _].
    apply appends_bind; [steps | intros data].
    destruct (js_snapshots data); [steps|].
    apply appends_bind; [apply do_collect_appends | intros found; steps].
  - destruct (String.eqb (provider server) "hetzner"); [|steps].
    intros w. unfold get_hetzner_snapshots.
    apply appends_iterate. intros [page acc]. unfold hz_page.
    apply appends_try; [|intros []; steps].
    apply appends_bind; [steps | intros resp].
    apply appends_bind; [steps | intros _].
    apply appends_bind; [steps | intros data].
    destruct (js_images data); [steps|].
    apply appends_bind; [apply hz_collect_appends | intros found; steps].
Qed.

Lemma create_snapshot_appends (cfg : Config) (server : ServerConfig) :
  appends Q (create_snapshot cfg server).
Proof.
  unfold create_snapshot, create_digitalocean_snapshot, create_hetzner_snapshot,
    _wait_for_digitalocean_action, _wait_for_hetzner_action, do_poll, hz_poll.
  steps.
Qed.

Lemma delete_snapshots_appends (server : ServerConfig) (l : list Snapshot) :
  appends Q (delete_snapshots server l).
Proof.
  unfold delete_snapshots, delete_digitalocean_snapshots, delete_hetzner_snapshots,
    do_delete_one, hz_delete_one.
  steps.
Qed.

Lemma appends_nothing {A} (m : M A) :
  (forall w, events (snd (m w)) = events w) -> appends Q m.
Proof. intros H w. exists []. rewrite app_nil_r. split; [apply H | constructor]. Qed.

(** The workflow puts on the record what its provider steps and
    [write_final_status] put there. *)
Lemma manage_snapshots_for_server_appends (cfg : Config) (server : ServerConfig) :
  (forall snapshot_name total_snapshots status,
      appends Q (write_final_status cfg server snapshot_name total_snapshots status)) ->
  appends Q (manage_snapshots_for_server cfg server).
Proof.
  intros Hw. unfold manage_snapshots_for_server.
  apply appends_bind; [apply get_snapshots_appends | intros listed].
  apply appends_bind; [apply appends_nothing; reflexivity | intros snapshots].
  apply appends_bind.
  { apply appends_nothing. intros w. rewrite identify_snapshots_to_delete_eq.
    reflexivity. }
  intros to_delete.
  apply appends_bind; [apply create_snapshot_appends | intros snapshot_name].
  apply appends_bind;
    [destruct to_delete; [apply appends_ret | apply delete_snapshots_appends] | intros _].
  apply appends_bind; [apply get_snapshots_appends | intros updated].
  apply Hw.
Qed.

End ProviderSteps.

Lemma or_else_truthy (x y : option string) : truthy x = true -> or_else x y = x.
Proof. intros H. unfold or_else. rewrite H. reflexivity. Qed.

Lemma or_none_truthy (x : option string) : truthy (or_none x) = truthy x.
Proof. unfold or_none. destruct (truthy x) eqn:E; [exact E | reflexivity]. Qed.

Lemma or_none_keeps (x : option string) : truthy x = true -> or_none x = x.
Proof. intros H. unfold or_none. rewrite H. reflexivity. Qed.

Lemma send_telegram_notification_addressed (cfg : Config)
    (bot_token chat_id : option string) (retries base_delay : option Z) (url : string) :
  appends (addressed_to (str_of (or_else bot_token (TELEGRAM_BOT_TOKEN cfg)))
             (str_of (or_else chat_id (TELEGRAM_CHAT_ID cfg))) url)
    (send_telegram_notification cfg bot_token chat_id retries base_delay).
Proof.
  unfold send_telegram_notification.
  destruct (_ || _); [apply appends_ret|].
  apply appends_for_attempts; [intros a | tame].
  unfold telegram_attempt.
  apply appends_bind; [|intros [|]; tame].
  apply appends_try; [|intros []; tame].
  apply appends_bind; [|intros resp; tame].
  apply appends_request. simpl. split; reflexivity.
Qed.

Lemma send_webhook_notification_addressed (cfg : Config) (webhook_url : option string)
    (retries base_delay : option Z) (token chat : string) :
  appends (addressed_to token chat (str_of webhook_url))
    (send_webhook_notification cfg webhook_url retries base_delay).
Proof.
  unfold send_webhook_notification.
  destruct (negb _); [apply appends_ret|].
  apply appends_for_attempts; [intros a | tame].
  unfold webhook_attempt.
  apply appends_bind; [|intros [|]; tame].
  apply appends_try; [|intros []; tame].
  apply appends_bind; [|intros resp; tame].
  apply appends_request. simpl. reflexivity.
Qed.

(** For a server whose credentials are settled, [write_final_status] sends
    to the credentials the server carries and never takes its second look at
    the global ones. *)
Lemma write_final_status_addressed (cfg : Config) (server : ServerConfig)
    (snapshot_name : string) (total_snapshots : nat) (status : string) :
  settled cfg server ->
  appends (addressed_to (str_of (telegram_bot_token server))
             (str_of (telegram_chat_id server)) (str_of (webhook_url server)))
    (write_final_status cfg server snapshot_name total_snapshots status).
Proof.
  intros [Ht Hh]. unfold write_final_status. cbv zeta.
  apply appends_bind; [apply appends_emit; exact I | intros _].
  apply appends_bind; [|intros _].
  - destruct (telegram_enabled server); [|apply appends_ret].
    destruct (truthy (telegram_bot_token server) && truthy (telegram_chat_id server))
      eqn:Eown.
    + apply andb_prop in Eown. destruct Eown as [E1 E2].
      apply appends_bind; [|intros; apply appends_ret].
      pose proof (send_telegram_notification_addressed cfg (telegram_bot_token server)
                    (telegram_chat_id server) None None (str_of (webhook_url server)))
        as H.
      rewrite !or_else_truthy in H by assumption. exact H.
    + destruct (truthy (TELEGRAM_BOT_TOKEN cfg) && truthy (TELEGRAM_CHAT_ID cfg))
        eqn:Eglobal; [|apply appends_ret].
      specialize (Ht eq_refl eq_refl). discriminate.
  - destruct (webhook_enabled server); [|apply appends_ret].
    destruct (truthy (webhook_url server)) eqn:Eown.
    + rewrite Eown.
      apply appends_bind; [|intros; apply appends_ret].
      apply send_webhook_notification_addressed.
    + destruct (truthy (WEBHOOK_URL cfg)) eqn:Eglobal; [|apply appends_ret].
      specialize (Hh eq_refl eq_refl). discriminate.
Qed.

Lemma write_final_status_no_telegram (cfg : Config) (server : ServerConfig)
    (snapshot_name : string) (total_snapshots : nat) (status : string) :
  telegram_enabled server = false ->
  appends no_telegram (write_final_status cfg server snapshot_name total_snapshots status).
Proof.
  intros E. unfold write_final_status. cbv zeta. rewrite E.
  apply appends_bind; [apply appends_emit; exact I | intros _].
  apply appends_bind; [apply appends_ret | intros _].
  match goal with |- appends _ (if ?c then _ else _) => destruct c end;
    [|apply appends_ret].
  apply appends_bind; [|intros; apply appends_ret].
  unfold send_webhook_notification, webhook_attempt. tame.
Qed.

Lemma write_final_status_no_webhook (cfg : Config) (server : ServerConfig)
    (snapshot_name : string) (total_snapshots : nat) (status : string) :
  webhook_enabled server = false ->
  appends no_webhook (write_final_status cfg server snapshot_name total_snapshots status).
Proof.
  intros E. unfold write_final_status. cbv zeta. rewrite E. simpl truthy. cbv iota.
  apply appends_bind; [apply appends_emit; exact I | intros _].
  apply appends_bind; [|intros _; apply appends_ret].
  unfold send_telegram_notification, telegram_attempt. tame.
Qed.

Lemma provider_event_no_telegram (e : Event) : provider_event e -> no_telegram e.
Proof. destruct e as [[]| | |]; simpl; auto. Qed.

Lemma provider_event_no_webhook (e : Event) : provider_event e -> no_webhook e.
Proof. destruct e as [[]| | |]; simpl; auto. Qed.

Lemma provider_event_addressed (token chat url : string) (e : Event) :
  provider_event e -> addressed_to token chat url e.
Proof. destruct e as [[]| | |]; simpl; tauto. Qed.

(** What [load_configs] makes of a file's Telegram settings. *)
Lemma load_configs_telegram_facts (cfg : Config) (sw : Switches) (d : ServerData)
    (w : World) :
  exists en tok chat w1,
    load_configs_telegram cfg sw d w = (Ok (en, (tok, chat)), w1)
    /\ network w1 = network w
    /\ (en = true ->
        truthy (TELEGRAM_BOT_TOKEN cfg) && truthy (TELEGRAM_CHAT_ID cfg) = true ->
        truthy tok && truthy chat = true)
    /\ (sd_telegram_enabled d = Some false
        \/ (sd_telegram_enabled d = None /\ TELEGRAM_ENABLED sw = false) ->
        en = false /\ w1 = w)
    /\ (sd_telegram_enabled d = Some true ->
        (truthy (sd_telegram_bot_token d) && truthy (sd_telegram_chat_id d) = true ->
         en = true /\ tok = sd_telegram_bot_token d /\ chat = sd_telegram_chat_id d
         /\ w1 = w)
        /\ (truthy (sd_telegram_bot_token d) && truthy (sd_telegram_chat_id d) = false ->
            truthy (TELEGRAM_BOT_TOKEN cfg) && truthy (TELEGRAM_CHAT_ID cfg) = true ->
            en = true /\ tok = TELEGRAM_BOT_TOKEN cfg /\ chat = TELEGRAM_CHAT_ID cfg
            /\ w1 = w)
        /\ (truthy (sd_telegram_bot_token d) && truthy (sd_telegram_chat_id d) = false ->
            truthy (TELEGRAM_BOT_TOKEN cfg) && truthy (TELEGRAM_CHAT_ID cfg) = false ->
            en = false
            /\ events w1
               = events w
                 ++ [Logged ERROR
                       "[CONFIG] Telegram enabled in JSON but no credentials found"]))
    /\ (sd_telegram_enabled d = None ->
        TELEGRAM_ENABLED sw = true ->
        en = true /\ w1 = w
        /\ tok = (if truthy (sd_telegram_bot_token d) then sd_telegram_bot_token d
                  else if truthy (TELEGRAM_BOT_TOKEN cfg) then TELEGRAM_BOT_TOKEN cfg
                       else sd_telegram_bot_token d)
        /\ chat = (if truthy (sd_telegram_chat_id d) then sd_telegram_chat_id d
                   else if truthy (TELEGRAM_CHAT_ID cfg) then TELEGRAM_CHAT_ID cfg
                        else sd_telegram_chat_id d)).
Proof.
  unfold load_configs_telegram. cbv zeta.
  destruct (sd_telegram_enabled d) as [[|]|];
    [| | destruct (TELEGRAM_ENABLED sw)];
    destruct (truthy (sd_telegram_bot_token d)) eqn:E1;
    destruct (truthy (sd_telegram_chat_id d)) eqn:E2;
    destruct (truthy (TELEGRAM_BOT_TOKEN cfg)) eqn:G1;
    destruct (truthy (TELEGRAM_CHAT_ID cfg)) eqn:G2;
    cbn [negb orb andb];
    eexists _, _, _, _; (split; [reflexivity|]);
    cbn [network events snd fst];
    repeat match goal with
           | |- _ /\ _ => split
           | |- _ -> _ => intro
           | H : _ \/ _ |- _ => destruct H
           | H : _ /\ _ |- _ => destruct H
           end;
    try reflexivity; try discriminate; try congruence;
    try (rewrite ?E1, ?E2, ?G1, ?G2; reflexivity).
Qed.

(** What [load_configs] makes of a file's webhook settings. *)
Lemma load_configs_webhook_facts (cfg : Config) (sw : Switches) (d : ServerData)
    (w : World) :
  exists en url w1,
    load_configs_webhook cfg sw d w = (Ok (en, url), w1)
    /\ network w1 = network w
    /\ (en = true -> truthy (WEBHOOK_URL cfg) = true -> truthy url = true)
    /\ (sd_webhook_enabled d = Some false
        \/ (sd_webhook_enabled d = None /\ WEBHOOK_ENABLED sw = false) ->
        en = false /\ w1 = w)
    /\ (sd_webhook_enabled d = Some true ->
        (truthy (sd_webhook_url d) = true ->
         en = true /\ url = sd_webhook_url d /\ w1 = w)
        /\ (truthy (sd_webhook_url d) = false -> truthy (WEBHOOK_URL cfg) = true ->
            en = true /\ url = WEBHOOK_URL cfg /\ w1 = w)
        /\ (truthy (sd_webhook_url d) = false -> truthy (WEBHOOK_URL cfg) = false ->
            en = false
            /\ events w1
               = events w
                 ++ [Logged ERROR "[CONFIG] Webhook enabled in JSON but no URL found"]))
    /\ (sd_webhook_enabled d = None ->
        WEBHOOK_ENABLED sw = true ->
        en = true /\ w1 = w
        /\ url = (if truthy (sd_webhook_url d) then sd_webhook_url d
                  else if truthy (WEBHOOK_URL cfg) then WEBHOOK_URL cfg
                       else sd_webhook_url d)).
Proof.
  unfold load_configs_webhook. cbv zeta.
  destruct (sd_webhook_enabled d) as [[|]|];
    [| | destruct (WEBHOOK_ENABLED sw)];
    destruct (truthy (sd_webhook_url d)) eqn:E1;
    destruct (truthy (WEBHOOK_URL cfg)) eqn:G1;
    cbn [negb orb andb];
    eexists _, _, _; (split; [reflexivity|]);
    cbn [network events snd fst];
    repeat match goal with
           | |- _ /\ _ => split
           | |- _ -> _ => intro
           | H : _ \/ _ |- _ => destruct H
           | H : _ /\ _ |- _ => destruct H
           end;
    try reflexivity; try discriminate; try congruence;
    try (rewrite ?E1, ?G1; reflexivity).
Qed.

(** [load_configs_server] in terms of its two halves. *)
Lemma load_configs_server_eq (cfg : Config) (sw : Switches) (d : ServerData)
    (w : World) :
  exists en tok chat w1 wen url w2,
    load_configs_telegram cfg sw d w = (Ok (en, (tok, chat)), w1)
    /\ load_configs_webhook cfg sw d w1 = (Ok (wen, url), w2)
    /\ load_configs_server cfg sw d w
       = (Ok {| provider := sd_provider d;
                server_id := sd_id d;
                server_name := sd_name d;
                api_token := sd_api_token d;
                retain_last_snapshots := sd_retain_last_snapshots d;
                telegram_enabled := en;
                telegram_bot_token := or_none tok;
                telegram_chat_id := or_none chat;
                webhook_enabled := wen;
                webhook_url := or_none url |}, w2).
Proof.
  destruct (load_configs_telegram_facts cfg sw d w) as (en & tok & chat & w1 & Et & _).
  destruct (load_configs_webhook_facts cfg sw d w1) as (wen & url & w2 & Eh & _).
  exists en, tok, chat, w1, wen, url, w2.
  split; [exact Et|]. split; [exact Eh|].
  unfold load_configs_server, bind. rewrite Et, Eh. reflexivity.
Qed.

(** Every server that [load_configs] builds is settled. *)
Lemma load_configs_server_settled (cfg : Config) (sw : Switches) (d : ServerData)
    (w : World) :
  exists server w',
    load_configs_server cfg sw d w = (Ok server, w')
    /\ network w' = network w
    /\ settled cfg server.
Proof.
  destruct (load_configs_server_eq cfg sw d w)
    as (en & tok & chat & w1 & wen & url & w2 & Et & Eh & E).
  destruct (load_configs_telegram_facts cfg sw d w)
    as (en' & tok' & chat' & w1' & Et' & N1 & S1 & _).
  rewrite Et in Et'. inversion Et'; subst en' tok' chat' w1'. clear Et'.
  destruct (load_configs_webhook_facts cfg sw d w1)
    as (wen' & url' & w2' & Eh' & N2 & S2 & _).
  rewrite Eh in Eh'. inversion Eh'; subst wen' url' w2'. clear Eh'.
  eexists _, _. split; [exact E|]. split; [congruence|].
  split; simpl; rewrite ?or_none_truthy; assumption.
Qed.

(** X13.  A channel that is switched off stays silent.  When the "enabled"
    key of a server's "telegram" object is false, or is not a boolean (or
    missing) while the global switch is off, the server that [load_configs]
    builds has Telegram disabled and its whole workflow sends no request to
    Telegram, whatever credentials the file and [snapshots.config] hold.  The
    same holds for the webhook. *)
Theorem switched_off_channels_stay_silent (cfg : Config) (sw : Switches)
    (d : ServerData) (w : World) :
  exists server,
    fst (load_configs_server cfg sw d w) = Ok server
    /\ (sd_telegram_enabled d = Some false
        \/ (sd_telegram_enabled d = None /\ TELEGRAM_ENABLED sw = false) ->
        telegram_enabled server = false
        /\ appends no_telegram (manage_snapshots_for_server cfg server))
    /\ (sd_webhook_enabled d = Some false
        \/ (sd_webhook_enabled d = None /\ WEBHOOK_ENABLED sw = false) ->
        webhook_enabled server = false
        /\ appends no_webhook (manage_snapshots_for_server cfg server)).
Proof.
  destruct (load_configs_server_eq cfg sw d w)
    as (en & tok & chat & w1 & wen & url & w2 & Et & Eh & E).
  destruct (load_configs_telegram_facts cfg sw d w)
    as (en' & tok' & chat' & w1' & Et' & _ & _ & Off1 & _).
  rewrite Et in Et'. inversion Et'; subst en' tok' chat' w1'. clear Et'.
  destruct (load_configs_webhook_facts cfg sw d w1)
    as (wen' & url' & w2' & Eh' & _ & _ & Off2 & _).
  rewrite Eh in Eh'. inversion Eh'; subst wen' url' w2'. clear Eh'.
  eexists. split; [rewrite E; reflexivity|].
  split; intros H.
  - destruct (Off1 H) as [Een _]. split; [exact Een|].
    apply manage_snapshots_for_server_appends; [apply provider_event_no_telegram|].
    intros. apply write_final_status_no_telegram. exact Een.
  - destruct (Off2 H) as [Een _]. split; [exact Een|].
    apply manage_snapshots_for_server_appends; [apply provider_event_no_webhook|].
    intros. apply write_final_status_no_webhook. exact Een.
Qed.

(** X14.  A server that [load_configs] has built is notified at the
    credentials it carries: every request of its workflow to Telegram goes to
    the bot token and chat id stored in its [ServerConfig], every webhook
    request to the URL stored there, so that the second look of
    [write_final_status] at the global credentials is never taken.  When the
    file says "enabled": true, the stored Telegram pair is the file's pair or
    the global pair, never one of each. *)
Theorem loaded_server_notified_at_stored_address (cfg : Config) (sw : Switches)
    (d : ServerData) (w : World) :
  exists server,
    fst (load_configs_server cfg sw d w) = Ok server
    /\ appends (addressed_to (str_of (telegram_bot_token server))
                  (str_of (telegram_chat_id server)) (str_of (webhook_url server)))
         (manage_snapshots_for_server cfg server)
    /\ (sd_telegram_enabled d = Some true ->
        telegram_enabled server = true ->
        (telegram_bot_token server = sd_telegram_bot_token d
         /\ telegram_chat_id server = sd_telegram_chat_id d)
        \/ (telegram_bot_token server = TELEGRAM_BOT_TOKEN cfg
            /\ telegram_chat_id server = TELEGRAM_CHAT_ID cfg)).
Proof.
  destruct (load_configs_server_settled cfg sw d w) as (server & w' & E & _ & Hs).
  exists server. split; [rewrite E; reflexivity|].
  split.
  - apply manage_snapshots_for_server_appends; [apply provider_event_addressed|].
    intros. apply write_final_status_addressed. exact Hs.
  - destruct (load_configs_server_eq cfg sw d w)
      as (en & tok & chat & w1 & wen & url & w2 & Et & Eh & E').
    rewrite E in E'. inversion E'; subst server w'. clear E'. simpl.
    destruct (load_configs_telegram_facts cfg sw d w)
      as (en' & tok' & chat' & w1' & Et' & _ & _ & _ & On & _).
    rewrite Et in Et'. inversion Et'; subst en' tok' chat' w1'. clear Et'.
    intros Hjson Hen. destruct (On Hjson) as (Own & Global & Neither).
    destruct (truthy (sd_telegram_bot_token d) && truthy (sd_telegram_chat_id d)) eqn:Eo.
    + destruct (Own eq_refl) as (_ & -> & -> & _).
      apply andb_prop in Eo. destruct Eo as [E1 E2].
      left. rewrite !or_none_keeps by assumption. auto.
    + destruct (truthy (TELEGRAM_BOT_TOKEN cfg) && truthy (TELEGRAM_CHAT_ID cfg)) eqn:Eg.
      * destruct (Global eq_refl eq_refl) as (_ & -> & -> & _).
        apply andb_prop in Eg. destruct Eg as [E1 E2].
        right. rewrite !or_none_keeps by assumption. auto.
      * destruct (Neither eq_refl eq_refl) as [Hoff _]. congruence.
Qed.

Section Begins.

Context {A B : Type}.
Variable e : Event.

Lemma begins_bind (m : M A) (k : A -> M B) :
  begins e m -> (forall a, appends quiet_event (k a)) -> begins e (bind m k).
Proof.
  intros Hm Hk w. unfold bind. destruct (Hm w) as (tail & E).
  destruct (m w) as [[a|x|] w1]; simpl in *; try (exists tail; exact E).
  destruct (Hk a w1) as (new & E2 & _).
  exists (tail ++ new). rewrite E2, E, <- app_assoc. reflexivity.
Qed.

Lemma begins_try (m : M A) (h : Exn -> M A) :
  begins e m -> (forall x, appends quiet_event (h x)) -> begins e (try_except m h).
Proof.
  intros Hm Hh w. unfold try_except. destruct (Hm w) as (tail & E).
  destruct (m w) as [[a|x|] w1]; simpl in *; try (exists tail; exact E).
  destruct (Hh x w1) as (new & E2 & _).
  exists (tail ++ new). rewrite E2, E, <- app_assoc. reflexivity.
Qed.

End Begins.

Lemma begins_request (r : Request) : begins (Http r) (request r).
Proof.
  intros w. exists []. unfold request. destruct (answer _); reflexivity.
Qed.

Lemma begins_after_emit {A} (e0 e : Event) (m : M A) :
  begins e m ->
  forall w, exists tail, events (snd ((emit e0 ;;; m) w)) = events w ++ e0 :: e :: tail.
Proof.
  intros Hm w. unfold bind, emit.
  match goal with |- context [m ?w1] => destruct (Hm w1) as (tail & E) end.
  exists tail. etransitivity; [exact E|]. simpl. rewrite <- app_assoc. reflexivity.
Qed.

(** With credentials and at least one attempt allowed, the first thing
    [send_telegram_notification] does is to call Telegram. *)
Lemma send_telegram_notification_begins (cfg : Config) (bot_token chat_id : option string) :
  truthy bot_token = true -> truthy chat_id = true ->
  1 <= TELEGRAM_RETRIES cfg ->
  begins (Http (TelegramSend (str_of bot_token) (str_of chat_id)))
    (send_telegram_notification cfg bot_token chat_id None None).
Proof.
  intros E1 E2 Hn. unfold send_telegram_notification.
  rewrite !or_else_truthy by assumption. rewrite E1, E2. cbn [negb orb if_not_none].
  rewrite py_range_cons by lia. cbn [for_attempts].
  apply begins_bind.
  - unfold telegram_attempt. apply begins_bind; [|intros [|]; tame].
    apply begins_try; [|intros []; tame].
    apply begins_bind; [apply begins_request | intros resp; tame].
  - intros [|]; [tame|]. unfold telegram_attempt. tame.
Qed.

(** A server with Telegram enabled and both credentials: the call to
    Telegram follows the FINAL_STATUS line at once. *)
Lemma write_final_status_begins_telegram (cfg : Config) (server : ServerConfig)
    (snapshot_name : string) (total_snapshots : nat) (status : string) (w : World) :
  telegram_enabled server = true ->
  truthy (telegram_bot_token server) = true ->
  truthy (telegram_chat_id server) = true ->
  1 <= TELEGRAM_RETRIES cfg ->
  exists tail,
    events (snd (write_final_status cfg server snapshot_name total_snapshots status w))
    = events w
      ++ FinalStatus {| rr_provider := provider server;
                        rr_server := server_name server;
                        rr_status := status;
                        rr_snapshot_name := snapshot_name;
                        rr_total_snapshots := total_snapshots |}
      :: Http (TelegramSend (str_of (telegram_bot_token server))
                 (str_of (telegram_chat_id server)))
      :: tail.
Proof.
  intros Een E1 E2 Hn. unfold write_final_status. cbv zeta.
  rewrite Een, E1, E2. cbn [andb].
  apply begins_after_emit.
  apply begins_bind.
  - apply begins_bind; [|intros; tame].
    apply send_telegram_notification_begins; assumption.
  - intros _.
    match goal with |- appends _ (if ?c then _ else _) => destruct c end; [|tame].
    apply appends_bind; [apply send_webhook_notification_quiet | intros; tame].
Qed.

Lemma load_configs_telegram_quiet (cfg : Config) (sw : Switches) (d : ServerData) :
  appends quiet_event (load_configs_telegram cfg sw d).
Proof. unfold load_configs_telegram. cbv zeta. tame. Qed.

Lemma load_configs_webhook_quiet (cfg : Config) (sw : Switches) (d : ServerData) :
  appends quiet_event (load_configs_webhook cfg sw d).
Proof. unfold load_configs_webhook. cbv zeta. tame. Qed.

(** X15.  A channel that a file switches on without a place to send to is
    switched off with an ERROR record.  For Telegram the credentials count as
    a pair: when the file says "enabled": true, its own pair is incomplete
    and the global pair is incomplete too, [load_configs] logs the error and
    disables Telegram for the server, whose workflow then sends nothing to
    Telegram, also when the file's token and the global chat id would make a
    pair between them.  Likewise a webhook that is enabled with no URL in the
    file or in [snapshots.config]. *)
Theorem enabled_without_credentials_is_switched_off (cfg : Config) (sw : Switches)
    (d : ServerData) (w : World) :
  exists server w',
    load_configs_server cfg sw d w = (Ok server, w')
    /\ (sd_telegram_enabled d = Some true ->
        truthy (sd_telegram_bot_token d) && truthy (sd_telegram_chat_id d) = false ->
        truthy (TELEGRAM_BOT_TOKEN cfg) && truthy (TELEGRAM_CHAT_ID cfg) = false ->
        telegram_enabled server = false
        /\ appends no_telegram (manage_snapshots_for_server cfg server)
        /\ exists before after,
             events w'
             = events w ++ before
               ++ Logged ERROR "[CONFIG] Telegram enabled in JSON but no credentials found"
               :: after)
    /\ (sd_webhook_enabled d = Some true ->
        truthy (sd_webhook_url d) = false ->
        truthy (WEBHOOK_URL cfg) = false ->
        webhook_enabled server = false
        /\ appends no_webhook (manage_snapshots_for_server cfg server)
        /\ exists before after,
             events w'
             = events w ++ before
               ++ Logged ERROR "[CONFIG] Webhook enabled in JSON but no URL found"
               :: after).
Proof.
  destruct (load_configs_server_eq cfg sw d w)
    as (en & tok & chat & w1 & wen & url & w2 & Et & Eh & E).
  destruct (load_configs_telegram_facts cfg sw d w)
    as (en' & tok' & chat' & w1' & Et' & _ & _ & _ & On1 & _).
  rewrite Et in Et'. inversion Et'; subst en' tok' chat' w1'. clear Et'.
  destruct (load_configs_webhook_facts cfg sw d w1)
    as (wen' & url' & w2' & Eh' & _ & _ & _ & On2 & _).
  rewrite Eh in Eh'. inversion Eh'; subst wen' url' w2'. clear Eh'.
  destruct (load_configs_telegram_quiet cfg sw d w) as (new1 & N1 & _).
  rewrite Et in N1. simpl in N1.
  destruct (load_configs_webhook_quiet cfg sw d w1) as (new2 & N2 & _).
  rewrite Eh in N2. simpl in N2.
  eexists _, _. split; [exact E|].
  split.
  - intros Hjson Hown Hglobal.
    destruct (On1 Hjson) as (_ & _ & Neither).
    destruct (Neither Hown Hglobal) as [Een Ev].
    split; [exact Een|]. split.
    + apply manage_snapshots_for_server_appends; [apply provider_event_no_telegram|].
      intros. apply write_final_status_no_telegram. exact Een.
    + exists [], new2. rewrite N2, Ev, <- app_assoc. reflexivity.
  - intros Hjson Hown Hglobal.
    destruct (On2 Hjson) as (_ & _ & Neither).
    destruct (Neither Hown Hglobal) as [Een Ev].
    split; [exact Een|]. split.
    + apply manage_snapshots_for_server_appends; [apply provider_event_no_webhook|].
      intros. apply write_final_status_no_webhook. exact Een.
    + exists new1, []. rewrite Ev, N1, <- app_assoc. reflexivity.
Qed.

(** A file with a bot token and no chat id, a [snapshots.config] with a
    chat id and no bot token: no Telegram, no webhook, two ERROR records. *)
Lemma enabled_without_credentials_is_switched_off_witness :
  exists server w',
    load_configs_server
      {| DELAY_BETWEEN_SERVERS := 5; SNAPSHOT_CREATION_TIMEOUT := 900;
         TELEGRAM_BOT_TOKEN := None; TELEGRAM_CHAT_ID := Some "-42"%string;
         TELEGRAM_RETRIES := 3; TELEGRAM_BASE_DELAY_BETWEEN_RETRIES := 2;
         WEBHOOK_URL := None; WEBHOOK_RETRIES := 3;
         WEBHOOK_BASE_DELAY_BETWEEN_RETRIES := 2 |}
      switches_on token_only network_down = (Ok server, w')
    /\ telegram_enabled server = false
    /\ webhook_enabled server = false
    /\ errors_of (events w')
       = ["[CONFIG] Telegram enabled in JSON but no credentials found";
          "[CONFIG] Webhook enabled in JSON but no URL found"]%string.
Proof.
  destruct (enabled_without_credentials_is_switched_off
              {| DELAY_BETWEEN_SERVERS := 5; SNAPSHOT_CREATION_TIMEOUT := 900;
                 TELEGRAM_BOT_TOKEN := None; TELEGRAM_CHAT_ID := Some "-42"%string;
                 TELEGRAM_RETRIES := 3; TELEGRAM_BASE_DELAY_BETWEEN_RETRIES := 2;
                 WEBHOOK_URL := None; WEBHOOK_RETRIES := 3;
                 WEBHOOK_BASE_DELAY_BETWEEN_RETRIES := 2 |}
              switches_on token_only network_down)
    as (server & w' & E & Ht & Hh).
  destruct (Ht eq_refl eq_refl eq_refl) as (T & _ & _).
  destruct (Hh eq_refl eq_refl eq_refl) as (H & _ & _).
  exists server, w'. split; [exact E|]. split; [exact T|]. split; [exact H|].
  assert (Hw : w' = snd (load_configs_server
      {| DELAY_BETWEEN_SERVERS := 5; SNAPSHOT_CREATION_TIMEOUT := 900;
         TELEGRAM_BOT_TOKEN := None; TELEGRAM_CHAT_ID := Some "-42"%string;
         TELEGRAM_RETRIES := 3; TELEGRAM_BASE_DELAY_BETWEEN_RETRIES := 2;
         WEBHOOK_URL := None; WEBHOOK_RETRIES := 3;
         WEBHOOK_BASE_DELAY_BETWEEN_RETRIES := 2 |}
      switches_on token_only network_down)) by (rewrite E; reflexivity).
  rewrite Hw. vm_compute. reflexivity.
Defined.

Lemma load_configs_server_fields (cfg : Config) (sw : Switches) (d : ServerData)
    (w : World) (server : ServerConfig) (w' : World) :
  load_configs_server cfg sw d w = (Ok server, w') ->
  provider server = sd_provider d /\ server_name server = sd_name d.
Proof.
  intros E.
  destruct (load_configs_server_eq cfg sw d w)
    as (en & tok & chat & w1 & wen & url & w2 & _ & _ & E').
  rewrite E in E'. inversion E'; subst. split; reflexivity.
Qed.

(** X16.  When a file has no "enabled" key for Telegram and the global
    switch is on, [load_configs] completes the credentials one by one: the
    file's bot token if it has one, else the global one, and the same for the
    chat id.  Whenever that gives a token and a chat id, and at least one
    attempt is configured ([TELEGRAM_RETRIES] is 1 or more; with 0 or less
    nothing is sent), [write_final_status] calls Telegram with them right
    after the FINAL_STATUS line, so a file that names only its own bot sends
    with that bot to the global chat. *)
Theorem inherited_credentials_completed_one_by_one (cfg : Config) (sw : Switches)
    (d : ServerData) (w : World) :
  sd_telegram_enabled d = None ->
  TELEGRAM_ENABLED sw = true ->
  truthy (or_else (sd_telegram_bot_token d) (TELEGRAM_BOT_TOKEN cfg)) = true ->
  truthy (or_else (sd_telegram_chat_id d) (TELEGRAM_CHAT_ID cfg)) = true ->
  1 <= TELEGRAM_RETRIES cfg ->
  exists server,
    fst (load_configs_server cfg sw d w) = Ok server
    /\ forall snapshot_name total_snapshots status w0,
       exists tail,
         events (snd (write_final_status cfg server snapshot_name total_snapshots
                        status w0))
         = events w0
           ++ FinalStatus {| rr_provider := sd_provider d;
                             rr_server := sd_name d;
                             rr_status := status;
                             rr_snapshot_name := snapshot_name;
                             rr_total_snapshots := total_snapshots |}
           :: Http (TelegramSend
                      (str_of (or_else (sd_telegram_bot_token d) (TELEGRAM_BOT_TOKEN cfg)))
                      (str_of (or_else (sd_telegram_chat_id d) (TELEGRAM_CHAT_ID cfg))))
           :: tail.
Proof.
  intros Hjson Hsw Htok Hchat Hn.
  destruct (load_configs_server_eq cfg sw d w)
    as (en & tok & chat & w1 & wen & url & w2 & Et & Eh & E).
  destruct (load_configs_telegram_facts cfg sw d w)
    as (en' & tok' & chat' & w1' & Et' & _ & _ & _ & _ & Inherit).
  rewrite Et in Et'. inversion Et'; subst en' tok' chat' w1'. clear Et'.
  destruct (Inherit Hjson Hsw) as (Een & _ & Etok & Echat).
  assert (Etok' : tok = or_else (sd_telegram_bot_token d) (TELEGRAM_BOT_TOKEN cfg)).
  { rewrite Etok. unfold or_else in *.
    destruct (truthy (sd_telegram_bot_token d)); [reflexivity|].
    rewrite Htok. reflexivity. }
  assert (Echat' : chat = or_else (sd_telegram_chat_id d) (TELEGRAM_CHAT_ID cfg)).
  { rewrite Echat. unfold or_else in *.
    destruct (truthy (sd_telegram_chat_id d)); [reflexivity|].
    rewrite Hchat. reflexivity. }
  clear Etok Echat Inherit. subst en tok chat.
  eexists. split; [rewrite E; reflexivity|].
  intros snapshot_name total_snapshots status w0.
  match goal with
  | |- context [write_final_status cfg ?s] =>
      destruct (write_final_status_begins_telegram cfg s snapshot_name total_snapshots
                  status w0) as (tail & Ev)
  end; simpl; rewrite ?or_none_truthy; try assumption; try reflexivity.
  exists tail. rewrite Ev. simpl. rewrite !or_none_keeps by assumption. reflexivity.
Qed.

(** The file names its own bot and no chat; the global settings name a bot
    and a chat: the message goes through the file's bot to the global chat. *)
Lemma inherited_credentials_completed_one_by_one_witness :
  exists server,
    fst (load_configs_server global_channels switches_on says_nothing network_down)
    = Ok server
    /\ exists tail,
         events (snd (write_final_status global_channels server "none" 0 "failure"
                        network_down))
         = FinalStatus {| rr_provider := "digitalocean"; rr_server := "web";
                          rr_status := "failure"; rr_snapshot_name := "none";
                          rr_total_snapshots := 0 |}
           :: Http (TelegramSend "111:own" "-42") :: tail.
Proof.
  destruct (inherited_credentials_completed_one_by_one global_channels switches_on
              says_nothing network_down)
    as (server & E & H); try reflexivity; [simpl; lia|].
  exists server. split; [exact E|].
  destruct (H "none"%string O "failure"%string network_down) as (tail & Ev).
  exists tail. exact Ev.
Defined.

(** X17.  "enabled": true in the file overrides the global switch, and the
    credentials then count as a pair: when the file's own pair is incomplete
    and the global pair is complete, the server stores the global pair and,
    when at least one attempt is configured ([TELEGRAM_RETRIES] is 1 or more;
    with 0 or less nothing is sent), is notified through the global bot in
    the global chat right after the FINAL_STATUS line, also with the global
    switch off, and a bot token that the file names on its own is not
    used. *)
Theorem explicit_enable_uses_global_pair (cfg : Config) (sw : Switches)
    (d : ServerData) (w : World) :
  sd_telegram_enabled d = Some true ->
  truthy (sd_telegram_bot_token d) && truthy (sd_telegram_chat_id d) = false ->
  truthy (TELEGRAM_BOT_TOKEN cfg) && truthy (TELEGRAM_CHAT_ID cfg) = true ->
  1 <= TELEGRAM_RETRIES cfg ->
  exists server,
    fst (load_configs_server cfg sw d w) = Ok server
    /\ telegram_bot_token server = TELEGRAM_BOT_TOKEN cfg
    /\ telegram_chat_id server = TELEGRAM_CHAT_ID cfg
    /\ forall snapshot_name total_snapshots status w0,
       exists tail,
         events (snd (write_final_status cfg server snapshot_name total_snapshots
                        status w0))
         = events w0
           ++ FinalStatus {| rr_provider := sd_provider d;
                             rr_server := sd_name d;
                             rr_status := status;
                             rr_snapshot_name := snapshot_name;
                             rr_total_snapshots := total_snapshots |}
           :: Http (TelegramSend (str_of (TELEGRAM_BOT_TOKEN cfg))
                      (str_of (TELEGRAM_CHAT_ID cfg)))
           :: tail.
Proof.
  intros Hjson Hown Hglobal Hn.
  destruct (load_configs_server_eq cfg sw d w)
    as (en & tok & chat & w1 & wen & url & w2 & Et & Eh & E).
  destruct (load_configs_telegram_facts cfg sw d w)
    as (en' & tok' & chat' & w1' & Et' & _ & _ & _ & On & _).
  rewrite Et in Et'. inversion Et'; subst en' tok' chat' w1'. clear Et'.
  destruct (On Hjson) as (_ & Global & _).
  destruct (Global Hown Hglobal) as (Een & -> & -> & _).
  apply andb_prop in Hglobal. destruct Hglobal as [G1 G2].
  eexists. split; [rewrite E; reflexivity|]. simpl.
  rewrite !or_none_keeps by assumption.
  split; [reflexivity|]. split; [reflexivity|].
  intros snapshot_name total_snapshots status w0.
  match goal with
  | |- context [write_final_status cfg ?s] =>
      destruct (write_final_status_begins_telegram cfg s snapshot_name total_snapshots
                  status w0) as (tail & Ev)
  end; simpl; try assumption.
  exists tail. exact Ev.
Qed.

(** The file switches Telegram on and names its own bot but no chat; the
    global switch is off: the message goes through the global bot. *)
Lemma explicit_enable_uses_global_pair_witness :
  exists server,
    fst (load_configs_server global_channels switches_off token_only network_down)
    = Ok server
    /\ exists tail,
         events (snd (write_final_status global_channels server "none" 0 "failure"
                        network_down))
         = FinalStatus {| rr_provider := "digitalocean"; rr_server := "web";
                          rr_status := "failure"; rr_snapshot_name := "none";
                          rr_total_snapshots := 0 |}
           :: Http (TelegramSend "999:global" "-42") :: tail.
Proof.
  destruct (explicit_enable_uses_global_pair global_channels switches_off
              token_only network_down)
    as (server & E & _ & _ & H); try reflexivity; [simpl; lia|].
  exists server. split; [exact E|].
  destruct (H "none"%string O "failure"%string network_down) as (tail & Ev).
  exists tail. exact Ev.
Defined.

(* ================================================================= *)
(** ** The further statements at work *)

(** A list of two: a retain count of 0 returns both, newest first, a retain
    count of 2 none. *)
Lemma identify_retain_ends_witness :
  fst (identify_snapshots_to_delete web 0%nat 0 (world_at 0 [] [oldest_first]))
  = Ok (sort_created_at_reverse oldest_first)
  /\ fst (identify_snapshots_to_delete web 0%nat 2 (world_at 0 [] [oldest_first]))
     = Ok [].
Proof.
  split.
  - apply (proj1 (identify_retain_ends web 0%nat 0 (world_at 0 [] [oldest_first]))).
    reflexivity.
  - apply (proj2 (identify_retain_ends web 0%nat 2 (world_at 0 [] [oldest_first]))).
    simpl. lia.
Defined.

(** A timeout of 12 seconds with polls that are refused and then not
    answered: "timeout". *)
Lemma waiting_is_bounded_witness :
  exists w' k,
    _wait_for_digitalocean_action 77 12 refused_twice = (Ok "timeout"%string, w')
    /\ events w' = events refused_twice ++ poll_rounds (GetDoAction 77) k
    /\ 12 <= clock w' - clock refused_twice
    /\ (k = O \/ 5 * (Z.of_nat k - 1) < 12).
Proof.
  apply (proj1 (waiting_is_bounded 77 12 refused_twice)).
  unfold refused_twice, do_pending. simpl.
  constructor; [left; lia|]. constructor; [left; lia|]. constructor.
Defined.

(** The request for the snapshot is refused with a 503: nothing is
    returned, nothing is polled. *)
Lemma creation_not_accepted_witness :
  exists w' msg,
    create_digitalocean_snapshot default_config web refused_twice = (Ok None, w')
    /\ network w' = tl (network refused_twice)
    /\ events w'
       = events refused_twice
         ++ [Http (CreateDoSnapshot (server_id web) (local_name web refused_twice));
             Logged ERROR msg].
Proof.
  apply (proj1 (creation_not_accepted default_config web refused_twice)).
  unfold refused_twice, do_not_accepted, request_failure. simpl.
  constructor; [left; simpl; lia | constructor].
Defined.

(** A file that opts out of both channels, with global channels that are
    switched on and filled in. *)
Lemma switched_off_channels_stay_silent_witness :
  exists server,
    fst (load_configs_server global_channels switches_on opted_out network_down)
    = Ok server
    /\ (telegram_enabled server = false
        /\ appends no_telegram (manage_snapshots_for_server global_channels server))
    /\ (webhook_enabled server = false
        /\ appends no_webhook (manage_snapshots_for_server global_channels server)).
Proof.
  destruct (switched_off_channels_stay_silent global_channels switches_on opted_out
              network_down) as (server & E & T & H).
  exists server. split; [exact E|].
  split; [apply T | apply H]; left; reflexivity.
Defined.

(** A file that switches Telegram on with a bot token only: the global pair
    is stored, and used. *)
Lemma loaded_server_notified_at_stored_address_witness :
  exists server,
    fst (load_configs_server global_channels switches_off token_only network_down)
    = Ok server
    /\ appends (addressed_to (str_of (telegram_bot_token server))
                  (str_of (telegram_chat_id server)) (str_of (webhook_url server)))
         (manage_snapshots_for_server global_channels server)
    /\ ((telegram_bot_token server = sd_telegram_bot_token token_only
         /\ telegram_chat_id server = sd_telegram_chat_id token_only)
        \/ (telegram_bot_token server = TELEGRAM_BOT_TOKEN global_channels
            /\ telegram_chat_id server = TELEGRAM_CHAT_ID global_channels)).
Proof.
  destruct (loaded_server_notified_at_stored_address global_channels switches_off
              token_only network_down) as (server & E & A & P).
  exists server. split; [exact E|]. split; [exact A|].
  apply P; [reflexivity|].
  vm_compute in E. inversion E. reflexivity.
Defined.

(* ================================================================= *)
(** ** Filling in the templates *)

Lemma no_brace_app (a b : string) :
  no_brace (a ++ b) = no_brace a && no_brace b.
Proof.
  induction a as [|c a IH]; simpl; [reflexivity|].
  rewrite IH, andb_assoc. reflexivity.
Qed.

Lemma prefix_clash (a b s : string) :
  clash a b = true -> String.prefix a (b ++ s) = false.
Proof.
  revert b. induction a as [|x a IH]; intros [|y b] H; cbn [clash] in H;
    try discriminate.
  change ((String y b ++ s)%string) with (String y (b ++ s)).
  cbn [String.prefix].
  destruct (ascii_dec x y) as [->|Hne]; [|reflexivity].
  rewrite Ascii.eqb_refl in H. apply IH. exact H.
Qed.

Lemma prefix_brace (o : string) (c : ascii) (rest : string) :
  Ascii.eqb c "{" = false -> String.prefix (String "{" o) (String c rest) = false.
Proof.
  intros H. cbn [String.prefix]. destruct (ascii_dec "{" c) as [<-|]; [|reflexivity].
  rewrite Ascii.eqb_refl in H. discriminate.
Qed.

(** Nothing is replaced in front of the first opening brace. *)
Lemma replace_after_plain (o new pre s : string) :
  no_brace pre = true ->
  str_replace (String "{" o) new (pre ++ s) = (pre ++ str_replace (String "{" o) new s)%string.
Proof.
  intros H. unfold str_replace. induction pre as [|c pre IH]; [reflexivity|].
  simpl in H. apply andb_prop in H. destruct H as [Hc Hpre].
  apply negb_true_iff in Hc.
  change ((String c pre ++ s)%string) with (String c (pre ++ s)).
  cbn [replace_from]. rewrite (prefix_brace o c (pre ++ s) Hc), (IH Hpre).
  reflexivity.
Qed.

Lemma replace_plain (o new s : string) :
  no_brace s = true -> str_replace (String "{" o) new s = s.
Proof.
  intros H. unfold str_replace. induction s as [|c s IH]; [reflexivity|].
  simpl in H. apply andb_prop in H. destruct H as [Hc Hs].
  apply negb_true_iff in Hc.
  cbn [replace_from]. rewrite (prefix_brace o c s Hc), (IH Hs). reflexivity.
Qed.

Lemma replace_from_skip (old new a s : string) :
  replace_from (String.length a) old new (a ++ s) = replace_from 0 old new s.
Proof. induction a as [|c a IH]; [reflexivity | exact IH]. Qed.

(** An occurrence at the front is replaced, and the search goes on behind
    it. *)
Lemma replace_at_front (c : ascii) (k new s : string) :
  str_replace (String c k) new (String c k ++ s)
  = (new ++ str_replace (String c k) new s)%string.
Proof.
  unfold str_replace.
  change ((String c k ++ s)%string) with (String c (k ++ s)).
  cbn [replace_from].
  change (String c (k ++ s)) with ((String c k ++ s)%string).
  rewrite prefix_append. cbn [String.length]. rewrite Nat.sub_1_r. cbn [Nat.pred].
  rewrite replace_from_skip. reflexivity.
Qed.

(** A placeholder is left alone by the replacement of another one. *)
Lemma replace_other_placeholder (old new pre key post : string) :
  placeholder old = true -> placeholder key = true -> clash old key = true ->
  no_brace pre = true -> no_brace post = true ->
  str_replace old new (pre ++ key ++ post) = (pre ++ key ++ post)%string.
Proof.
  intros Hold Hkey Hclash Hpre Hpost.
  destruct old as [|c o]; [discriminate|]. destruct key as [|c' body]; [discriminate|].
  simpl in Hold, Hkey.
  apply andb_prop in Hold. destruct Hold as [Hc _].
  apply andb_prop in Hkey. destruct Hkey as [Hc' Hbody].
  apply Ascii.eqb_eq in Hc, Hc'. subst c c'.
  rewrite replace_after_plain by exact Hpre. f_equal.
  unfold str_replace.
  change ((String "{" body ++ post)%string) with (String "{" (body ++ post)).
  cbn [replace_from].
  change (String "{" (body ++ post)) with ((String "{" body ++ post)%string).
  rewrite (prefix_clash _ _ post Hclash).
  change ((String "{" body ++ post)%string) with (String "{" (body ++ post)).
  f_equal. apply (replace_plain o new).
  rewrite no_brace_app, Hbody, Hpost. reflexivity.
Qed.

Lemma replace_all_plain (table : list (string * string)) :
  forallb placeholder (map fst table) = true ->
  forall s, no_brace s = true -> replace_all table s = s.
Proof.
  induction table as [|[k v] table IH]; intros Hk s Hs; [reflexivity|].
  simpl in Hk. apply andb_prop in Hk. destruct Hk as [Hk Hrest].
  unfold replace_all. simpl.
  destruct k as [|c o]; [discriminate|].
  simpl in Hk. apply andb_prop in Hk. destruct Hk as [Hc _].
  apply Ascii.eqb_eq in Hc. subst c.
  rewrite replace_plain by exact Hs. apply IH; assumption.
Qed.

Lemma placeholders_all (keys : list string) :
  placeholders keys = true -> forallb placeholder keys = true.
Proof.
  induction keys as [|k keys IH]; intros H; [reflexivity|].
  simpl in *. apply andb_prop in H. destruct H as [H Hrest].
  apply andb_prop in H. destruct H as [Hk _].
  rewrite Hk, (IH Hrest). reflexivity.
Qed.

(** One placeholder of a table in a text that is plain otherwise. *)
Lemma replace_all_fills (table : list (string * string)) :
  placeholders (map fst table) = true ->
  forall pre key value post,
    In (key, value) table ->
    no_brace pre = true -> no_brace value = true -> no_brace post = true ->
    replace_all table (pre ++ key ++ post) = (pre ++ value ++ post)%string.
Proof.
  induction table as [|[k v] table IH]; intros Hk pre key value post Hin Hpre Hval Hpost;
    [destruct Hin|].
  simpl in Hk. apply andb_prop in Hk. destruct Hk as [Hk Hrest].
  apply andb_prop in Hk. destruct Hk as [Hk Hclash].
  unfold replace_all. simpl. fold (replace_all table).
  destruct Hin as [Heq|Hin].
  - inversion Heq; subst k v. clear Heq.
    destruct key as [|c body]; [discriminate|].
    assert (Hc : c = "{"%char).
    { simpl in Hk. apply andb_prop in Hk. destruct Hk as [Hc _].
      apply Ascii.eqb_eq in Hc. exact Hc. }
    subst c.
    rewrite replace_after_plain by exact Hpre.
    rewrite replace_at_front, replace_plain by exact Hpost.
    apply replace_all_plain; [apply placeholders_all; exact Hrest|].
    rewrite !no_brace_app, Hpre, Hval, Hpost. reflexivity.
  - assert (Hkey : In key (map fst table)) by (apply (in_map fst _ _ Hin)).
    rewrite forallb_forall in Hclash.
    rewrite replace_other_placeholder; try assumption.
    + apply IH; assumption.
    + apply placeholders_all in Hrest. rewrite forallb_forall in Hrest.
      apply Hrest. exact Hkey.
    + apply Hclash. exact Hkey.
Qed.

(** X18.  [replace_template_variables] returns a template without an
    opening brace as it is, and in a template that holds one placeholder of
    its table, between texts without an opening brace, it puts the value of
    that placeholder in its place, provided the value holds no opening brace
    itself. *)
Theorem placeholder_is_filled_in (server : ServerConfig) (snapshot_name : string)
    (total_snapshots : nat) (status_upper hostname timestamp : string) :
  (forall template,
      no_brace template = true ->
      replace_template_variables template server snapshot_name total_snapshots
        status_upper hostname timestamp = template)
  /\ (forall pre key value post,
        In (key, value)
          (replacements server snapshot_name total_snapshots status_upper hostname
             timestamp) ->
        no_brace pre = true -> no_brace value = true -> no_brace post = true ->
        replace_template_variables (pre ++ key ++ post) server snapshot_name
          total_snapshots status_upper hostname timestamp
        = (pre ++ value ++ post)%string).
Proof.
  split.
  - intros template H. apply replace_all_plain; [reflexivity | exact H].
  - intros pre key value post Hin Hpre Hval Hpost.
    apply replace_all_fills; [reflexivity | assumption..].
Qed.

(** A message for the server "web" after its twelfth snapshot. *)
Lemma placeholder_is_filled_in_witness :
  replace_template_variables "Backup of {server_name} done" web
    "web-20241202133234" 12 "SUCCESS" "backup-host" "2024-12-02 13:32:34"
  = "Backup of web done"%string
  /\ replace_template_variables "now {total_snapshots}" web
       "web-20241202133234" 12 "SUCCESS" "backup-host" "2024-12-02 13:32:34"
     = "now 12"%string.
Proof.
  split.
  - apply (proj2 (placeholder_is_filled_in web "web-20241202133234" 12 "SUCCESS"
                    "backup-host" "2024-12-02 13:32:34")
             "Backup of " "{server_name}" "web" " done")%string;
      [simpl; tauto | reflexivity..].
  - apply (proj2 (placeholder_is_filled_in web "web-20241202133234" 12 "SUCCESS"
                    "backup-host" "2024-12-02 13:32:34")
             "now " "{total_snapshots}" "12" "")%string;
      [simpl; tauto | reflexivity..].
Defined.

(** The values are put in one placeholder after the other, so a value that
    holds a later placeholder is filled in itself, and one that holds an
    earlier placeholder is not. *)
Example values_are_scanned_again :
  replace_template_variables "{snapshot_name}" web "{hostname}" 12 "SUCCESS"
    "backup-host" "2024-12-02 13:32:34" = "backup-host"%string
  /\ replace_template_variables "{hostname}" web "web-1" 12 "SUCCESS"
       "{snapshot_name}" "2024-12-02 13:32:34" = "{snapshot_name}"%string.
Proof. split; reflexivity. Qed.

Lemma replace_value_plain (sub : string -> string) :
  (forall s, no_brace s = true -> sub s = s) ->
  forall v, plain v = true -> replace_value sub v = v.
Proof.
  intros Hsub. fix IH 1.
  intros [s|fields|items|lit] H; cbn [replace_value plain] in *.
  - rewrite Hsub by exact H. reflexivity.
  - f_equal. induction fields as [|[k v] fields IHf]; [reflexivity|].
    cbn [forallb snd] in H. apply andb_prop in H. destruct H as [Hv Hf].
    cbn [map fst snd]. rewrite (IH v Hv), (IHf Hf). reflexivity.
  - f_equal. induction items as [|item items IHi]; [reflexivity|].
    cbn [forallb] in H. apply andb_prop in H. destruct H as [Hitem Hi].
    cbn [map]. rewrite (IHi Hi). f_equal.
    pose proof (IH item Hitem) as Hit.
    destruct item as [s|fields|inner|lit]; cbn [replace_value] in Hit;
      [exact Hit | exact Hit | reflexivity | reflexivity].
  - reflexivity.
Qed.

Lemma fill_in_plain (server : ServerConfig) (snapshot_name : string)
    (total_snapshots : nat) (status_upper hostname timestamp s : string) :
  no_brace s = true ->
  fill_in server snapshot_name total_snapshots status_upper hostname timestamp s = s.
Proof.
  intros H. unfold fill_in, replace_template_variables.
  apply replace_all_plain; [reflexivity | exact H].
Qed.

Lemma replace_value_no_text_items (sub : string -> string) (items : list JValue) :
  no_text_items items = true -> replace_value sub (JArray items) = JArray items.
Proof.
  intros H. cbn [replace_value]. f_equal.
  induction items as [|item items IH]; [reflexivity|].
  cbn [no_text_items forallb] in H. apply andb_prop in H. destruct H as [Hitem Hi].
  cbn [map]. rewrite (IH Hi). destruct item; try discriminate; reflexivity.
Qed.

(** X19.  [replace_template_variables_dict] keeps the shape of a payload
    template: the result has the keys of the template, in their order (a
    placeholder in a key is not filled in); a template none of whose strings
    holds an opening brace comes back as it is; and a list whose items are
    lists or literals comes back as it is, so that a placeholder in a list
    within a list is never filled in. *)
Theorem payload_template_keeps_its_shape (server : ServerConfig)
    (snapshot_name : string) (total_snapshots : nat)
    (status_upper hostname timestamp : string)
    (fields : list (string * JValue)) (w : World) :
  exists result,
    replace_template_variables_dict
      (fill_in server snapshot_name total_snapshots status_upper hostname timestamp)
      (JObject fields) w = (Ok result, w)
    /\ map fst result = map fst fields
    /\ (plain (JObject fields) = true -> result = fields)
    /\ (forall key items,
          In (key, JArray items) fields -> no_text_items items = true ->
          In (key, JArray items) result).
Proof.
  eexists. split; [reflexivity|].
  split; [|split].
  - rewrite map_map. reflexivity.
  - intros H.
    pose proof (replace_value_plain
                  (fill_in server snapshot_name total_snapshots status_upper hostname
                     timestamp)) as P.
    specialize (P (fill_in_plain server snapshot_name total_snapshots status_upper
                     hostname timestamp) (JObject fields) H).
    cbn [replace_value] in P. inversion P as [E]. rewrite E. exact E.
  - intros key items Hin Hitems.
    apply in_map_iff. exists (key, JArray items). split; [|exact Hin].
    cbn [fst snd]. rewrite replace_value_no_text_items by exact Hitems. reflexivity.
Qed.

(** The template for the server "web": the keys stay, the list of lists
    stays, the strings of the object and of the nested object are filled
    in. *)
Lemma payload_template_keeps_its_shape_witness :
  exists result,
    replace_template_variables_dict
      (fill_in web "web-20241202133234" 12 "SUCCESS" "backup-host"
         "2024-12-02 13:32:34")
      (JObject report_template) network_down = (Ok result, network_down)
    /\ map fst result = ["text"; "meta"; "tags"]%string
    /\ In ("tags"%string, JArray [JArray [JString "{provider}"]; JOther "7"]) result
    /\ In ("text"%string, JString "web: SUCCESS") result.
Proof.
  destruct (payload_template_keeps_its_shape web "web-20241202133234" 12 "SUCCESS"
              "backup-host" "2024-12-02 13:32:34" report_template network_down)
    as (result & E & K & _ & L).
  exists result. split; [exact E|]. split; [exact K|]. split.
  - apply L; [|reflexivity]. unfold report_template. simpl. tauto.
  - cbn [replace_template_variables_dict ret] in E. inversion E. left. reflexivity.
Defined.

(* ================================================================= *)
(** ** The payload of the webhook *)

Lemma bind_congr {A B} (m : M A) (k1 k2 : A -> M B) (w : World) :
  (forall a w', k1 a w' = k2 a w') -> bind m k1 w = bind m k2 w.
Proof.
  intros H. unfold bind. destruct (m w) as [[a|e|] w1]; [apply H | reflexivity..].
Qed.

(** With templates that are usable the payload is made without a trace. *)
Lemma webhook_payload_usable (tpl : Templates) (server : ServerConfig)
    (snapshot_name : string) (total_snapshots : nat)
    (status_upper hostname timestamp : string) (w : World) :
  (status_upper = "SUCCESS"%string ->
   usable (webhook_payload_success tpl) (WEBHOOK_PAYLOAD_SUCCESS tpl) = true) ->
  (status_upper = "FAILURE"%string ->
   usable (webhook_payload_failure tpl) (WEBHOOK_PAYLOAD_FAILURE tpl) = true) ->
  exists payload,
    webhook_payload tpl server snapshot_name total_snapshots status_upper hostname
      timestamp w = (Ok payload, w).
Proof.
  intros Hs Hf. unfold webhook_payload. cbv zeta.
  destruct (String.eqb_spec status_upper "SUCCESS") as [E|_].
  - specialize (Hs E). unfold usable in Hs. unfold custom_payload.
    destruct (webhook_payload_success tpl) as [[|f fs]|];
      [| eexists; reflexivity |];
      destruct (WEBHOOK_PAYLOAD_SUCCESS tpl) as [[[s|fields|items|lit]|]|];
      try discriminate; eexists; reflexivity.
  - destruct (String.eqb_spec status_upper "FAILURE") as [E|_];
      [|eexists; reflexivity].
    specialize (Hf E). unfold usable in Hf. unfold custom_payload.
    destruct (webhook_payload_failure tpl) as [[|f fs]|];
      [| eexists; reflexivity |];
      destruct (WEBHOOK_PAYLOAD_FAILURE tpl) as [[[s|fields|items|lit]|]|];
      try discriminate; eexists; reflexivity.
Qed.

(** With a global template that is JSON but no object, and no template of
    the server's own, making the payload raises. *)
Lemma webhook_payload_not_an_object (tpl : Templates) (server : ServerConfig)
    (snapshot_name : string) (total_snapshots : nat)
    (status_upper hostname timestamp : string) (w : World) :
  (status_upper = "SUCCESS"%string
   /\ no_own_template (webhook_payload_success tpl) = true
   /\ not_an_object (WEBHOOK_PAYLOAD_SUCCESS tpl) = true)
  \/ (status_upper = "FAILURE"%string
      /\ no_own_template (webhook_payload_failure tpl) = true
      /\ not_an_object (WEBHOOK_PAYLOAD_FAILURE tpl) = true) ->
  webhook_payload tpl server snapshot_name total_snapshots status_upper hostname
    timestamp w = (Raised OtherException, w).
Proof.
  intros [(-> & Hown & Hfb)|(-> & Hown & Hfb)];
    unfold webhook_payload, custom_payload; cbv zeta; cbn [String.eqb Ascii.eqb Bool.eqb];
    unfold no_own_template in Hown; unfold not_an_object in Hfb.
  - destruct (webhook_payload_success tpl) as [[|f fs]|]; try discriminate;
      destruct (WEBHOOK_PAYLOAD_SUCCESS tpl) as [[[s|fields|items|lit]|]|];
      try discriminate; reflexivity.
  - destruct (webhook_payload_failure tpl) as [[|f fs]|]; try discriminate;
      destruct (WEBHOOK_PAYLOAD_FAILURE tpl) as [[[s|fields|items|lit]|]|];
      try discriminate; reflexivity.
Qed.

(** With usable templates the payload step leaves no trace. *)
Lemma write_final_status_with_usable_payload (cfg : Config) (tpl : Templates)
    (server : ServerConfig) (snapshot_name : string) (total_snapshots : nat)
    (status status_upper hostname timestamp : string) (w : World) :
  (status_upper = "SUCCESS"%string ->
   usable (webhook_payload_success tpl) (WEBHOOK_PAYLOAD_SUCCESS tpl) = true) ->
  (status_upper = "FAILURE"%string ->
   usable (webhook_payload_failure tpl) (WEBHOOK_PAYLOAD_FAILURE tpl) = true) ->
  write_final_status_with_payload cfg tpl server snapshot_name total_snapshots
    status status_upper hostname timestamp w
  = write_final_status cfg server snapshot_name total_snapshots status w.
Proof.
  intros Hs Hf. unfold write_final_status_with_payload, write_final_status. cbv zeta.
  apply bind_congr. intros _ w1. apply bind_congr. intros _ w2.
  match goal with |- (if ?c then _ else _) _ = _ => destruct c end; [|reflexivity].
  unfold bind at 1.
  destruct (webhook_payload_usable tpl server snapshot_name total_snapshots
              status_upper hostname timestamp w2 Hs Hf) as (payload & E).
  rewrite E. reflexivity.
Qed.

(** X20.  The templates change what is sent, not what is called: with the
    server's own payload template, with a global one that is a JSON object,
    or with none, [write_final_status] with the payload of the webhook does
    what [write_final_status] as embedded above does: the same requests, waits
    and records, the same result. *)
Theorem usable_templates_leave_the_calls_alone (cfg : Config) (tpl : Templates)
    (server : ServerConfig) (snapshot_name : string) (total_snapshots : nat)
    (status status_upper hostname timestamp : string) (w : World) :
  (status_upper = "SUCCESS"%string ->
   usable (webhook_payload_success tpl) (WEBHOOK_PAYLOAD_SUCCESS tpl) = true) ->
  (status_upper = "FAILURE"%string ->
   usable (webhook_payload_failure tpl) (WEBHOOK_PAYLOAD_FAILURE tpl) = true) ->
  write_final_status_with_payload cfg tpl server snapshot_name total_snapshots
    status status_upper hostname timestamp w
  = write_final_status cfg server snapshot_name total_snapshots status w.
Proof.
  intros Hs Hf.
  apply write_final_status_with_usable_payload; assumption.
Qed.

(** The server with both channels and no templates, everything refused. *)
Lemma usable_templates_leave_the_calls_alone_witness :
  write_final_status_with_payload default_config no_templates notified "none" 0
    "failure" "FAILURE" "backup-host" "2024-12-02 13:32:34" everything_refused
  = write_final_status default_config notified "none" 0 "failure" everything_refused.
Proof.
  apply (usable_templates_leave_the_calls_alone default_config no_templates notified
           "none" 0 "failure" "FAILURE" "backup-host" "2024-12-02 13:32:34"
           everything_refused); intros _; reflexivity.
Defined.

(** X21.  A global payload template that is valid JSON but not a JSON
    object, for a server without a payload template of its own and with the
    webhook enabled and a URL to send to, makes [write_final_status] raise
    after the FINAL_STATUS line and the Telegram message: the webhook is not
    called, and the call does not return. *)
Theorem fallback_payload_must_be_an_object (cfg : Config) (tpl : Templates)
    (server : ServerConfig) (snapshot_name : string) (total_snapshots : nat)
    (status status_upper hostname timestamp : string) (w : World) :
  webhook_enabled server = true ->
  truthy (webhook_url server) || truthy (WEBHOOK_URL cfg) = true ->
  (status_upper = "SUCCESS"%string
   /\ no_own_template (webhook_payload_success tpl) = true
   /\ not_an_object (WEBHOOK_PAYLOAD_SUCCESS tpl) = true)
  \/ (status_upper = "FAILURE"%string
      /\ no_own_template (webhook_payload_failure tpl) = true
      /\ not_an_object (WEBHOOK_PAYLOAD_FAILURE tpl) = true) ->
  (exists e,
      fst (write_final_status_with_payload cfg tpl server snapshot_name
             total_snapshots status status_upper hostname timestamp w) = Raised e)
  /\ (exists tail,
        events (snd (write_final_status_with_payload cfg tpl server snapshot_name
                       total_snapshots status status_upper hostname timestamp w))
        = events w
          ++ FinalStatus {| rr_provider := provider server;
                            rr_server := server_name server;
                            rr_status := status;
                            rr_snapshot_name := snapshot_name;
                            rr_total_snapshots := total_snapshots |} :: tail
        /\ Forall no_webhook tail
        /\ (telegram_enabled server = false -> tail = [])).
Proof.
  intros Hen Hurl Htpl.
  assert (H : exists e w' tail,
             write_final_status_with_payload cfg tpl server snapshot_name
               total_snapshots status status_upper hostname timestamp w
             = (Raised e, w')
             /\ events w'
                = events w
                  ++ FinalStatus {| rr_provider := provider server;
                                    rr_server := server_name server;
                                    rr_status := status;
                                    rr_snapshot_name := snapshot_name;
                                    rr_total_snapshots := total_snapshots |} :: tail
             /\ Forall no_webhook tail
             /\ (telegram_enabled server = false -> tail = [])).
  { unfold write_final_status_with_payload. cbv zeta. rewrite Hen.
    assert (Hto : truthy (if truthy (webhook_url server) then webhook_url server
                          else if truthy (WEBHOOK_URL cfg) then WEBHOOK_URL cfg
                               else None) = true).
    { destruct (truthy (webhook_url server)) eqn:E1; [exact E1|].
      destruct (truthy (WEBHOOK_URL cfg)) eqn:E2; [exact E2 | discriminate]. }
    rewrite Hto. unfold bind at 1, emit.
    match goal with
    | |- context [bind ?m _ ?w1] =>
        assert (Hh : halts m);
        [| assert (Ha : appends no_webhook m);
           [| assert (Hq : telegram_enabled server = false -> m = ret tt);
              [| pose proof (Hh w1) as Hh1; destruct (Ha w1) as (tail & Ev & Ft);
                 unfold bind at 1;
                 destruct (m w1) as [[[]|e|] w2] eqn:Em ] ] ]
    end.
    - destruct (telegram_enabled server); [|tame].
      destruct (truthy (telegram_bot_token server) && truthy (telegram_chat_id server)).
      + apply halts_bind; [apply send_telegram_notification_halts | intros; tame].
      + destruct (truthy (TELEGRAM_BOT_TOKEN cfg) && truthy (TELEGRAM_CHAT_ID cfg));
          [|tame].
        apply halts_bind; [apply send_telegram_notification_halts | intros; tame].
    - unfold send_telegram_notification, telegram_attempt. tame.
    - intros E. rewrite E. reflexivity.
    - unfold bind at 1.
      rewrite (webhook_payload_not_an_object tpl server snapshot_name total_snapshots
                 status_upper hostname timestamp w2 Htpl).
      exists OtherException, w2, tail. split; [reflexivity|].
      cbn [snd events] in Ev. rewrite Ev, <- app_assoc.
      split; [reflexivity|]. split; [exact Ft|].
      intros E. rewrite (Hq E) in Em. inversion Em; subst w2.
      cbn [events] in Ev. rewrite <- (app_nil_r (events w ++ _)) in Ev at 1.
      apply app_inv_head in Ev. symmetry. exact Ev.
    - exists e, w2, tail. split; [reflexivity|].
      cbn [snd events] in Ev. rewrite Ev, <- app_assoc.
      split; [reflexivity|]. split; [exact Ft|].
      intros E. rewrite (Hq E) in Em. discriminate.
    - simpl in Hh1. congruence. }
  destruct H as (e & w' & tail & E & Ev & Ft & Hoff).
  rewrite E. split; [exists e; reflexivity|].
  exists tail. auto.
Qed.

(** The global template for a success is a JSON list: the server with both
    channels gets its Telegram attempts, and no call to its webhook. *)
Lemma fallback_payload_must_be_an_object_witness :
  (exists e,
      fst (write_final_status_with_payload default_config list_as_template notified
             "mail-20241202133234" 3 "success" "SUCCESS" "backup-host"
             "2024-12-02 13:32:34" everything_refused) = Raised e)
  /\ (exists tail,
        events (snd (write_final_status_with_payload default_config list_as_template
                       notified "mail-20241202133234" 3 "success" "SUCCESS"
                       "backup-host" "2024-12-02 13:32:34" everything_refused))
        = events everything_refused
          ++ FinalStatus {| rr_provider := provider notified;
                            rr_server := server_name notified;
                            rr_status := "success";
                            rr_snapshot_name := "mail-20241202133234";
                            rr_total_snapshots := 3 |} :: tail
        /\ Forall no_webhook tail
        /\ (telegram_enabled notified = false -> tail = [])).
Proof.
  apply (fallback_payload_must_be_an_object default_config list_as_template notified
           "mail-20241202133234" 3 "success" "SUCCESS" "backup-host"
           "2024-12-02 13:32:34" everything_refused);
    [reflexivity | reflexivity | left; repeat split; reflexivity].
Defined.

(** The same call ends with the exception of the template, after three
    attempts at Telegram. *)
Example list_as_template_raises :
  fst (write_final_status_with_payload default_config list_as_template notified
         "mail-20241202133234" 3 "success" "SUCCESS" "backup-host"
         "2024-12-02 13:32:34" everything_refused) = Raised OtherException
  /\ requests_of
       (events (snd (write_final_status_with_payload default_config list_as_template
                       notified "mail-20241202133234" 3 "success" "SUCCESS"
                       "backup-host" "2024-12-02 13:32:34" everything_refused)))
     = [TelegramSend "123:abc" "-1001"; TelegramSend "123:abc" "-1001";
        TelegramSend "123:abc" "-1001"].
Proof. vm_compute. split; reflexivity. Qed.

(* ================================================================= *)
(** ** The workflow and the run with the payload of the webhook *)

(** With payload templates that can be used the workflow is the one without
    the payload step. *)
Lemma manage_with_usable_payload (cfg : Config) (tpl : Templates) (hostname : string)
    (server : ServerConfig) (w : World) :
  usable (webhook_payload_success tpl) (WEBHOOK_PAYLOAD_SUCCESS tpl) = true ->
  usable (webhook_payload_failure tpl) (WEBHOOK_PAYLOAD_FAILURE tpl) = true ->
  manage_snapshots_for_server_with_payload cfg tpl hostname server w
  = manage_snapshots_for_server cfg server w.
Proof.
  intros Hs Hf.
  unfold manage_snapshots_for_server_with_payload, manage_snapshots_for_server.
  apply bind_congr. intros listed w1. apply bind_congr. intros snapshots w2.
  apply bind_congr. intros to_delete w3. apply bind_congr. intros snapshot_name w4.
  apply bind_congr. intros _ w5. apply bind_congr. intros updated w6.
  cbv zeta. unfold bind at 1, datetime_now.
  apply write_final_status_with_usable_payload; intros _; assumption.
Qed.












